(** * osm_rawdata.postgres: connection strings, query compilation and the
      local and remote query executors

    A shallow embedding of [src/osm_rawdata/postgres.py].  Python values are
    an inductive type (None, booleans, integers, strings, lists and
    dictionaries with string keys; no floats), dictionaries are association
    lists in insertion order, exceptions are the [Raised] case of the
    [outcome] type, and the database cursor and the HTTP session are records
    of functions supplied by the caller. *)

From Stdlib Require Import String Ascii List ZArith Lia Bool.
From Stdlib Require Import Numbers.DecimalString.
Import ListNotations.

Local Open Scope string_scope.
Local Open Scope Z_scope.

(** ** Python strings

    A Python [str] is modelled as a [string] whose characters are the code
    points 0..255.  Indices are [Z], as [find] and [rfind] answer -1. *)

Module PyStr.

Definition len (s : string) : Z := Z.of_nat (String.length s).

(** [s.find(sub)], searching from offset [i] of the original string. *)
Fixpoint find_from (sub s : string) (i : Z) : Z :=
  if prefix sub s then i
  else match s with
       | EmptyString => -1
       | String _ s' => find_from sub s' (i + 1)
       end.

Definition find (s sub : string) : Z := find_from sub s 0.

(** [s.rfind(sub)]: the highest index at which [sub] starts. *)
Fixpoint rfind_from (sub s : string) (i : Z) : Z :=
  match s with
  | EmptyString => if prefix sub s then i else -1
  | String _ s' =>
      let r := rfind_from sub s' (i + 1) in
      if 0 <=? r then r else if prefix sub s then i else -1
  end.

Definition rfind (s sub : string) : Z := rfind_from sub s 0.

(** One bound of a slice: negative bounds count from the end, and every
    bound is clamped to the string. *)
Definition clamp_index (n i : Z) : Z :=
  let j := if i <? 0 then i + n else i in
  Z.max 0 (Z.min n j).

(** [s[start:stop]], a missing bound being [None]. *)
Definition slice (s : string) (start stop : option Z) : string :=
  let n := len s in
  let a := match start with None => 0 | Some i => clamp_index n i end in
  let b := match stop with None => n | Some j => clamp_index n j end in
  substring (Z.to_nat a) (Z.to_nat (b - a)) s.

(** [str.isspace] on one code point below 256. *)
Definition isspace (c : ascii) : bool :=
  let n := nat_of_ascii c in
  ((9 <=? n) && (n <=? 13))%nat || ((28 <=? n) && (n <=? 32))%nat
  || (n =? 133)%nat || (n =? 160)%nat.

(** [s.rstrip()] *)
Fixpoint rstrip (s : string) : string :=
  match s with
  | EmptyString => EmptyString
  | String c s' =>
      match rstrip s' with
      | EmptyString => if isspace c then EmptyString else String c EmptyString
      | r => String c r
      end
  end.

(** [s.replace(old, new)] for a non-empty [old]: [skip] counts the
    characters of a match still to be dropped. *)
Fixpoint replace_from (old new s : string) (skip : nat) : string :=
  match s with
  | EmptyString => EmptyString
  | String c s' =>
      match skip with
      | S k => replace_from old new s' k
      | O =>
          if prefix old s
          then new ++ replace_from old new s' (String.length old - 1)
          else String c (replace_from old new s' O)
      end
  end.

Definition replace (s old new : string) : string := replace_from old new s O.

(** [s.split(sep)] for a one-character separator. *)
Fixpoint split_on (sep : ascii) (s : string) (cur : string) : list string :=
  match s with
  | EmptyString => [cur]
  | String c s' =>
      if Ascii.eqb c sep then cur :: split_on sep s' EmptyString
      else split_on sep s' (cur ++ String c EmptyString)
  end.

Definition split (s : string) (sep : ascii) : list string :=
  split_on sep s EmptyString.

(** [sep.join(parts)] *)
Fixpoint join (sep : string) (parts : list string) : string :=
  match parts with
  | [] => EmptyString
  | [p] => p
  | p :: rest => p ++ sep ++ join sep rest
  end.

End PyStr.

(** ** uriParser *)

Record Uri : Type := mkUri {
  dbname : option string;
  dbhost : option string;
  dbuser : option string;
  dbpass : option string;
  dbport : option string
}.

(** [not dbhost]: unset or the empty string. *)
Definition falsy_str (o : option string) : bool :=
  match o with
  | None => true
  | Some s => String.eqb s ""
  end.

Definition uriParser (source : string) : Uri :=
  let dbhost : option string := None in
  let dbname : option string := None in
  let dbuser : option string := None in
  let dbpass : option string := None in
  let dbport : option string := None in
  let colon := PyStr.find source ":" in
  let rcolon := PyStr.rfind source ":" in
  let atsign := PyStr.find source "@" in
  let slash := PyStr.find source "/" in
  let dbname :=
    if (colon <? 0) && (atsign <? 0) && (slash <? 0) then Some source
    else dbname in
  let dbname :=
    if slash >? 0 then Some (PyStr.slice source (Some (slash + 1)) None)
    else dbname in
  let dbuser :=
    if colon >? 0 then Some (PyStr.slice source None (Some colon))
    else dbuser in
  let dbuser :=
    if (colon <? 0) && (atsign >? 0)
    then Some (PyStr.slice source None (Some atsign))
    else dbuser in
  let dbpass :=
    if (colon >? 0) && (atsign >? 0)
    then Some (PyStr.slice source (Some (colon + 1)) (Some atsign))
    else dbpass in
  let dbhost :=
    if atsign >? 0 then
      if (rcolon >? 0) && (rcolon >? atsign)
      then Some (PyStr.slice source (Some (atsign + 1)) (Some rcolon))
      else if slash >? 0
      then Some (PyStr.slice source (Some (atsign + 1)) (Some slash))
      else Some (PyStr.slice source (Some (atsign + 1)) None)
    else dbhost in
  let dbport :=
    if (rcolon >? 0) && (rcolon >? atsign) then
      if slash >? 0
      then Some (PyStr.slice source (Some (rcolon + 1)) (Some slash))
      else Some (PyStr.slice source (Some (rcolon + 1)) None)
    else dbport in
  let dbpass :=
    if (colon >? 0) && (atsign <? 0) && (slash >? 0)
    then Some (PyStr.slice source (Some (colon + 1)) (Some slash))
    else dbpass in
  let dbhost := if falsy_str dbhost then Some "localhost" else dbhost in
  mkUri dbname dbhost dbuser dbpass dbport.

(** [c not in s] *)
Fixpoint lacks (c : ascii) (s : string) : bool :=
  match s with
  | EmptyString => true
  | String x s' => negb (Ascii.eqb x c) && lacks c s'
  end.

(** A part of a connection string: it holds none of the separators. *)
Definition plain (s : string) : bool :=
  lacks ":" s && lacks "@" s && lacks "/" s.

(** ** Exceptions and outcomes *)

Inductive exn : Type :=
| KeyError | IndexError | TypeError | ValueError | NameError | AttributeError
| HTTPError | ConnectionError | Timeout | JSONDecodeError | DatabaseError
| WKTReadingError.

Inductive outcome (A : Type) : Type :=
| Returned (a : A)
| Raised (e : exn).

Arguments Returned {A} a.
Arguments Raised {A} e.

Definition bind {A B : Type} (c : outcome A) (k : A -> outcome B) : outcome B :=
  match c with
  | Returned a => k a
  | Raised e => Raised e
  end.

Notation "x <- c ;; k" := (bind c (fun x => k))
  (at level 61, c at next level, right associativity).

(** A [for] loop over [l] that updates [s] and may raise. *)
Fixpoint foldM {A S : Type} (f : S -> A -> outcome S) (l : list A) (s : S)
  : outcome S :=
  match l with
  | [] => Returned s
  | x :: rest => s' <- f s x ;; foldM f rest s'
  end.

(** ** Python values and dictionaries *)

Definition dict (V : Type) : Type := list (string * V).

#[local] Set Warnings "-register-all".

Inductive pyval : Type :=
| VNone
| VBool (b : bool)
| VInt (z : Z)
| VStr (s : string)
| VList (l : list pyval)
| VDict (d : list (string * pyval)).

Module Py.

Section Dict.
Context {V : Type}.

(** [d.get(k)] *)
Fixpoint get (d : dict V) (k : string) : option V :=
  match d with
  | [] => None
  | (k', v) :: rest => if String.eqb k' k then Some v else get rest k
  end.

(** [d[k]] *)
Definition getitem (d : dict V) (k : string) : outcome V :=
  match get d k with
  | Some v => Returned v
  | None => Raised KeyError
  end.

(** [k in d] *)
Definition mem (d : dict V) (k : string) : bool :=
  match get d k with Some _ => true | None => false end.

(** [d[k] = v]: an existing key keeps its place. *)
Fixpoint set (d : dict V) (k : string) (v : V) : dict V :=
  match d with
  | [] => [(k, v)]
  | (k', v') :: rest =>
      if String.eqb k' k then (k', v) :: rest else (k', v') :: set rest k v
  end.

Definition keys (d : dict V) : list string := map fst d.

End Dict.

Definition chr (n : nat) : string := String (ascii_of_nat n) EmptyString.

Definition dquote : string := chr 34.
Definition backslash : string := chr 92.

Definition hex_digit (n : nat) : string :=
  match String.get n "0123456789abcdef" with
  | Some c => String c EmptyString
  | None => EmptyString
  end.

Definition hex2 (n : nat) : string :=
  hex_digit (Nat.div n 16) ++ hex_digit (Nat.modulo n 16).

Definition str_of_int (z : Z) : string := NilZero.string_of_int (Z.to_int z).

Definition has_char (n : nat) (s : string) : bool :=
  0 <=? PyStr.find s (chr n).

Definition concat_map (f : ascii -> string) (s : string) : string :=
  String.concat "" (map f (list_ascii_of_string s)).

(** [str.isprintable] on one code point below 256. *)
Definition isprintable (n : nat) : bool :=
  ((32 <=? n) && (n <=? 126))%nat
  || ((161 <=? n) && (n <=? 255) && negb (n =? 173))%nat.

(** [repr(s)] of a string: single quotes unless the text has a single
    quote and no double quote. *)
Definition repr_char (quote : nat) (c : ascii) : string :=
  let n := nat_of_ascii c in
  if ((n =? quote) || (n =? 92))%nat then backslash ++ chr n
  else if (n =? 9)%nat then backslash ++ "t"
  else if (n =? 10)%nat then backslash ++ "n"
  else if (n =? 13)%nat then backslash ++ "r"
  else if isprintable n then chr n
  else backslash ++ "x" ++ hex2 n.

Definition repr_str (s : string) : string :=
  let quote := if has_char 39 s && negb (has_char 34 s) then 34%nat else 39%nat in
  chr quote ++ concat_map (repr_char quote) s ++ chr quote.

(** [repr(v)] *)
Fixpoint repr (v : pyval) : string :=
  match v with
  | VNone => "None"
  | VBool true => "True"
  | VBool false => "False"
  | VInt z => str_of_int z
  | VStr s => repr_str s
  | VList l => "[" ++ PyStr.join ", " (map repr l) ++ "]"
  | VDict d =>
      "{" ++ PyStr.join ", "
               (map (fun kv => repr_str (fst kv) ++ ": " ++ repr (snd kv)) d)
          ++ "}"
  end.

(** [str(v)], which is also what an f-string field renders. *)
Definition str (v : pyval) : string :=
  match v with
  | VStr s => s
  | _ => repr v
  end.

(** [str(tuple(elems))] *)
Definition repr_tuple (elems : list pyval) : string :=
  match elems with
  | [x] => "(" ++ repr x ++ ",)"
  | _ => "(" ++ PyStr.join ", " (map repr elems) ++ ")"
  end.

(** [v == s] for a string literal [s]. *)
Definition eq_str (v : pyval) (s : string) : bool :=
  match v with
  | VStr t => String.eqb t s
  | _ => false
  end.

(** [len(v)] *)
Definition len (v : pyval) : outcome Z :=
  match v with
  | VStr s => Returned (PyStr.len s)
  | VList l => Returned (Z.of_nat (List.length l))
  | VDict d => Returned (Z.of_nat (List.length d))
  | _ => Raised TypeError
  end.

(** The elements [tuple(v)] collects. *)
Definition elements (v : pyval) : outcome (list pyval) :=
  match v with
  | VStr s => Returned (map (fun c => VStr (String c EmptyString)) (list_ascii_of_string s))
  | VList l => Returned l
  | VDict d => Returned (map VStr (keys d))
  | _ => Raised TypeError
  end.

(** [v[0]] *)
Definition first (v : pyval) : outcome pyval :=
  match v with
  | VStr (String c _) => Returned (VStr (String c EmptyString))
  | VList (x :: _) => Returned x
  | VStr EmptyString | VList [] => Raised IndexError
  | VDict _ => Raised KeyError
  | _ => Raised TypeError
  end.

(** [v[k]] for a string key. *)
Definition subscript (v : pyval) (k : string) : outcome pyval :=
  match v with
  | VDict d => getitem d k
  | _ => Raised TypeError
  end.

(** [v.get(k)], the method of dictionaries only. *)
Definition dict_get (v : pyval) (k : string) : outcome pyval :=
  match v with
  | VDict d => Returned (match get d k with Some x => x | None => VNone end)
  | _ => Raised AttributeError
  end.

(** [s in v] for a string literal [s]: membership in a list, a key of a
    dictionary, a substring of a string. *)
Definition contains_str (v : pyval) (s : string) : outcome bool :=
  match v with
  | VList l => Returned (existsb (fun x => eq_str x s) l)
  | VDict d => Returned (mem d s)
  | VStr t => Returned (0 <=? PyStr.find t s)
  | _ => Raised TypeError
  end.

End Py.

(** ** json.dumps *)

Module Json.

Definition escape_char (c : ascii) : string :=
  let n := nat_of_ascii c in
  if ((n =? 34) || (n =? 92))%nat then Py.backslash ++ Py.chr n
  else if (n =? 8)%nat then Py.backslash ++ "b"
  else if (n =? 12)%nat then Py.backslash ++ "f"
  else if (n =? 10)%nat then Py.backslash ++ "n"
  else if (n =? 13)%nat then Py.backslash ++ "r"
  else if (n =? 9)%nat then Py.backslash ++ "t"
  else if ((32 <=? n) && (n <=? 126))%nat then Py.chr n
  else Py.backslash ++ "u00" ++ Py.hex2 n.

Definition dumps_str (s : string) : string :=
  Py.dquote ++ Py.concat_map escape_char s ++ Py.dquote.

(** [json.dumps(v)] with the default separators and [ensure_ascii]. *)
Fixpoint dumps (v : pyval) : string :=
  match v with
  | VNone => "null"
  | VBool true => "true"
  | VBool false => "false"
  | VInt z => Py.str_of_int z
  | VStr s => dumps_str s
  | VList l => "[" ++ PyStr.join ", " (map dumps l) ++ "]"
  | VDict d =>
      "{" ++ PyStr.join ", "
               (map (fun kv => dumps_str (fst kv) ++ ": " ++ dumps (snd kv)) d)
          ++ "}"
  end.

End Json.

(** ** The query configuration

    [QueryConfig.config] is a dictionary; the record has one field per key
    this module reads.  [config_select] and [config_where] map a table name
    to its list of entries, each entry a dictionary. *)

Definition entry : Type := dict pyval.

Record QueryConfig : Type := mkConfig {
  config_select : dict (list entry);     (* config.config["select"] *)
  config_where : dict (list entry);      (* config.config["where"] *)
  config_tables : list string;           (* config.config["tables"] *)
  config_centroid : bool                 (* "centroid" in config.config *)
}.

(** ** createSQL *)

(** The projections one select entry adds to [select]. *)
Definition select_entry (select : string) (e : entry) : string :=
  fold_left (fun select kv => select ++ "tags->>'" ++ fst kv ++ "', ") e select.

(** The loop that sorts the entries of one table by their operator. *)
Definition join_entry (acc : list entry * list entry) (e : entry)
  : outcome (list entry * list entry) :=
  op <- Py.getitem e "op" ;;
  Returned
    (fold_left
       (fun (acc : list entry * list entry) kv =>
          let (join_or, join_and) := acc in
          if String.eqb (fst kv) "op" then acc
          else if Py.eq_str op "or" then ((join_or ++ [e])%list, join_and)
          else if Py.eq_str op "and" then (join_or, (join_and ++ [e])%list)
          else acc)
       e acc).

(** One key of one entry of the OR group. *)
Definition jor_item (jor : string) (kv : string * pyval) : outcome string :=
  let (k, v) := kv in
  match v with
  | VList (VList l0 :: _) =>
      let value := Py.str (VList l0) in
      let any := "ANY(ARRAY" ++ value ++ ")" in
      Returned (jor ++ "tags->>'" ++ k ++ "'=" ++ any ++ " OR ")
  | _ =>
      if String.eqb k "op" then Returned jor
      else
        n <- Py.len v ;;
        v1 <- (if n =? 1 then
                 v0 <- Py.first v ;;
                 if Py.eq_str v0 "not null" then Returned "IS NOT NULL"
                 else Returned ("='" ++ Py.str v0 ++ "'")
               else if n >? 0 then
                 elems <- Py.elements v ;;
                 Returned (" IN " ++ Py.repr_tuple elems)
               else Returned "IS NOT NULL") ;;
        Returned (jor ++ "tags->>'" ++ k ++ "' " ++ v1 ++ " OR ")
  end.

(** One key of one entry of the AND group. *)
Definition jand_item (jand : string) (kv : string * pyval) : outcome string :=
  let (k, v) := kv in
  if String.eqb k "op" then Returned jand
  else
    n <- Py.len v ;;
    v1 <- (if n =? 1 then
             v0 <- Py.first v ;;
             if Py.eq_str v0 "not null" then Returned "IS NOT NULL"
             else Returned ("='" ++ Py.str v0 ++ "'")
           else if n >? 0 then
             elems <- Py.elements v ;;
             Returned (" IN " ++ Py.repr_tuple elems)
           else Returned "IS NOT NULL AND") ;;
    Returned (jand ++ "tags->>'" ++ k ++ "' " ++ v1 ++ " AND ").

(** The text of one table before the final trimming. *)
Definition raw_query (select table jor jand : string) : string :=
  select ++ " FROM " ++ table ++ " WHERE " ++ jor ++ " " ++ jand.

(** The text held by [select] once the projections were added and the
    last separator was cut. *)
Definition select_clause (config : QueryConfig) (allgeom : bool)
  (table : string) : outcome string :=
  let select := "SELECT " in
  let select :=
    if allgeom then select ++ "ST_AsText(geom)"
    else select ++ "ST_AsText(ST_Centroid(geom))" in
  let select := select ++ ", osm_id, version, " in
  entries <- Py.getitem (config_select config) table ;;
  let select := fold_left select_entry entries select in
  Returned (PyStr.slice select None (Some (-2))).

(** The body of the loop over the declared tables. *)
Definition createSQL_table (config : QueryConfig) (allgeom : bool)
  (table : string) : outcome string :=
  select <- select_clause config allgeom table ;;
  clauses <- Py.getitem (config_where config) table ;;
  joins <- foldM join_entry clauses ([], []) ;;
  let (join_or, join_and) := joins : list entry * list entry in
  jor <- foldM (fun jor e => foldM jor_item e jor) join_or "" ;;
  jand <- foldM (fun jand e => foldM jand_item e jand) join_and "" ;;
  let query := PyStr.rstrip (raw_query select table jor jand) in
  Returned (PyStr.slice query None (Some (PyStr.rfind query " "))).

Definition createSQL (config : QueryConfig) (allgeom : bool)
  : outcome (list string) :=
  foldM (fun sql table =>
           query <- createSQL_table config allgeom table ;;
           Returned ((sql ++ [query])%list))
        (config_tables config) [].

(** ** createJson *)

(** [tables = {"nodes": "point", "ways_poly": "polygon", "ways_line": "line"}] *)
Definition geometry_class : dict string :=
  [("nodes", "point"); ("ways_poly", "polygon"); ("ways_line", "line")].

(** [filters["tags"]]: geometry class, then join group, then tag key. *)
Definition tag_filters : Type := dict (dict (dict pyval)).

Definition empty_tag_filters : tag_filters :=
  [("point", [("join_or", []); ("join_and", [])]);
   ("polygon", [("join_or", []); ("join_and", [])]);
   ("line", [("join_or", []); ("join_and", [])])].

(** [tags[cls][group][key] = value] *)
Definition set_filter (tags : tag_filters) (cls group key : string)
  (value : pyval) : outcome tag_filters :=
  by_group <- Py.getitem tags cls ;;
  by_key <- Py.getitem by_group group ;;
  Returned (Py.set tags cls (Py.set by_group group (Py.set by_key key value))).

(** [keys[cls].append(key)] on one of the two local dictionaries of lists. *)
Definition append_key (keys : dict (list string)) (cls key : string)
  : outcome (dict (list string)) :=
  l <- Py.getitem keys cls ;;
  Returned (Py.set keys cls (l ++ [key])%list).

Record json_state : Type := mkJsonState {
  join_or_keys : dict (list string);
  join_and_keys : dict (list string);
  tags_of : tag_filters
}.

(** The body of the loop over the items of [config["where"][table]]. *)
Definition createJson_item (table : string) (st : json_state) (item : entry)
  : outcome json_state :=
  key <- match Py.keys item with
         | k :: _ => Returned k
         | [] => Raised IndexError
         end ;;
  op <- Py.getitem item "op" ;;
  join_or <- (if Py.eq_str op "or" then
                cls <- Py.getitem geometry_class table ;;
                append_key (join_or_keys st) cls key
              else Returned (join_or_keys st)) ;;
  join_and <- (if Py.eq_str op "and" then
                 cls <- Py.getitem geometry_class table ;;
                 append_key (join_and_keys st) cls key
               else Returned (join_and_keys st)) ;;
  let values := match Py.get item key with Some v => v | None => VList [] end in
  not_null <- Py.contains_str values "not null" ;;
  cls <- Py.getitem geometry_class table ;;
  if not_null : bool then
    tags <- set_filter (tags_of st) cls "join_or" key (VList []) ;;
    tags <- set_filter tags cls "join_and" key (VList []) ;;
    Returned (mkJsonState join_or join_and tags)
  else
    value <- Py.getitem item key ;;
    tags <- set_filter (tags_of st) cls "join_or" key value ;;
    tags <- set_filter tags cls "join_and" key value ;;
    Returned (mkJsonState join_or join_and tags).

(** [len(config["select"][table]) > 0 or len(config["where"][table]) > 0] *)
Definition has_entries (config : QueryConfig) (table : string) : outcome bool :=
  sel <- Py.getitem (config_select config) table ;;
  if (Z.of_nat (List.length sel) >? 0) then Returned true
  else
    wh <- Py.getitem (config_where config) table ;;
    Returned (Z.of_nat (List.length wh) >? 0).

(** The loop that collects the selected attribute names. *)
Definition createJson_attribute (attributes : list string) (value : entry)
  : outcome (list string) :=
  match value with
  | [(k, _)] =>
      if existsb (String.eqb k) attributes then Returned attributes
      else Returned (attributes ++ [k])%list
  | _ => Raised ValueError
  end.

Definition filters_value (tags : tag_filters) : pyval :=
  VDict [("tags", VDict (map (fun c => (fst c, VDict (map (fun g => (fst g, VDict (snd g))) (snd c)))) tags))].

(** The dictionary [feature] as it stands before the centroid test. *)
Definition createJson_feature (config : QueryConfig) (boundary : pyval)
  : outcome pyval :=
  let feature : dict pyval := [] in
  let feature := Py.set feature "geometry" boundary in
  let geometrytype : list pyval := [] in
  point <- has_entries config "nodes" ;;
  let geometrytype := if point : bool then (geometrytype ++ [VStr "point"])%list else geometrytype in
  line <- has_entries config "ways_line" ;;
  let geometrytype := if line : bool then (geometrytype ++ [VStr "line"])%list else geometrytype in
  polygon <- has_entries config "ways_poly" ;;
  let geometrytype := if polygon : bool then (geometrytype ++ [VStr "polygon"])%list else geometrytype in
  let feature := Py.set feature "geometryType" (VList geometrytype) in
  let join_or := [("point", []); ("polygon", []); ("line", [])] in
  let join_and := [("point", []); ("polygon", []); ("line", [])] in
  st <- foldM (fun st (tbl : string * list entry) =>
                 foldM (createJson_item (fst tbl)) (snd tbl) st)
              (config_where config)
              (mkJsonState join_or join_and empty_tag_filters) ;;
  let feature := Py.set feature "filters" (filters_value (tags_of st)) in
  attributes <- foldM (fun attributes (tbl : string * list entry) =>
                         foldM createJson_attribute (snd tbl) attributes)
                      (config_select config) [] ;;
  Returned (VDict feature).

(** [feature["centroid"] = true] evaluates a name that is bound nowhere. *)
Definition createJson (config : QueryConfig) (boundary : pyval)
  (allgeom : bool) : outcome string :=
  feature <- createJson_feature config boundary ;;
  if config_centroid config then Raised NameError
  else Returned (Json.dumps feature).

(** ** queryLocal

    The cursor is a record of functions: what [execute] does with a
    statement, and what [fetchall] answers after a query was executed.
    The geometry library is outside the repository: a geometry is held as
    the text its [wkt] attribute gives, and [wkt.loads] is a function of
    the host, [loads] below, which returns the geometry of a value (or
    [None], where the library passes a missing value through) or raises. *)

Definition row : Type := list pyval.

Record Cursor : Type := mkCursor {
  execute : string -> outcome unit;
  fetchall : string -> outcome (list row)
}.

Inductive Geometry : Type :=
| Shape (wkt : string)
| NoGeometry.

Record Feature : Type := mkFeature {
  geometry : Geometry;
  properties : dict pyval
}.

Inductive local_result : Type :=
| Rows (result : list row)
| FeatureCollection (features : list Feature).

(** [item[i]] for an index that is not negative. *)
Definition row_at (item : row) (i : Z) : outcome pyval :=
  match nth_error item (Z.to_nat i) with
  | Some v => Returned v
  | None => Raised IndexError
  end.

Definition is_none (v : pyval) : bool :=
  match v with VNone => true | _ => false end.

(** The inner loop over the entries of one table of [config["select"]];
    it stops at the [break]. *)
Fixpoint decode_entries (item : row) (values : list entry)
  (st : dict pyval * Z) : outcome (dict pyval * Z) :=
  match values with
  | [] => Returned st
  | e :: rest =>
      let (tags, i) := st in
      if i =? Z.of_nat (List.length item) then Returned st
      else
        match e with
        | [(k, _)] =>
            x <- row_at item i ;;
            let tags := if is_none x then tags else Py.set tags k x in
            decode_entries item rest (tags, i + 1)
        | _ => Raised ValueError
        end
  end.

Definition list_at (l : list string) (i : nat) : outcome string :=
  match nth_error l i with
  | Some v => Returned v
  | None => Raised IndexError
  end.

(** One row decoded into a feature. *)
Definition decode_row (loads : pyval -> outcome Geometry) (qc : QueryConfig)
  (query : string) (item : row) : outcome Feature :=
  g <- row_at item 0 ;;
  geom <- loads g ;;
  let tags : dict pyval := [] in
  id <- row_at item 1 ;;
  let tags := Py.set tags "id" id in
  version <- row_at item 2 ;;
  let tags := Py.set tags "version" version in
  let i := 3 in
  if Z.of_nat (List.length (config_tables qc)) >? 0 then
    st <- foldM (fun st (tbl : string * list entry) =>
                   decode_entries item (snd tbl) st)
                (config_select qc) (tags, i) ;;
    Returned (mkFeature geom (fst st))
  else
    let end_ := PyStr.find query "FROM" in
    let res := PyStr.split (PyStr.slice query None (Some end_)) " " in
    g <- row_at item 0 ;;
    geom <- loads g ;;
    r2 <- list_at res 2 ;;
    let tags := Py.set tags (PyStr.slice r2 None (Some (-1))) id in
    r3 <- list_at res 3 ;;
    let tags := Py.set tags (PyStr.slice r3 None (Some (-1))) version in
    Returned (mkFeature geom tags).

(** The loop over the fetched rows, with its early [return result]. *)
Fixpoint decode_rows (loads : pyval -> outcome Geometry) (qc : QueryConfig)
  (query : string) (result : list row) (items : list row)
  (features : list Feature) : outcome local_result :=
  match items with
  | [] => Returned (FeatureCollection features)
  | item :: rest =>
      if (Z.of_nat (List.length item) <=? 1)
         && (Z.of_nat (List.length result) =? 1)
      then Returned (Rows result)
      else
        f <- decode_row loads qc query item ;;
        decode_rows loads qc query result rest (features ++ [f])%list
  end.

Definition view_sql (view : string) (temp : string) (table : string)
  (wkt : string) : string :=
  "DROP VIEW IF EXISTS " ++ view ++ ";CREATE " ++ temp ++ "VIEW " ++ view
  ++ " AS SELECT * FROM " ++ table
  ++ " WHERE ST_CONTAINS(ST_GeomFromEWKT('SRID=4326;" ++ wkt ++ "'), geom)".

(** The query text after the table name was redirected to its view. *)
Definition scoped_query (query : string) : string :=
  if PyStr.find query " ways_poly " >? 0
  then PyStr.replace query "ways_poly" "ways_view"
  else if PyStr.find query " ways_line " >? 0
  then PyStr.replace query "ways_line" "lines_view"
  else if PyStr.find query " nodes " >? 0
  then PyStr.replace query "nodes" "nodes_view"
  else if PyStr.find query " relations " >? 0
  then PyStr.replace query "relations" "relations_view"
  else query.

(** [boundary] is the text [boundary.wkt] of the polygon, when one is given. *)
Definition queryLocal (loads : pyval -> outcome Geometry) (dbcursor : Cursor)
  (qc : QueryConfig) (query : string) (allgeom : bool)
  (boundary : option string) : outcome local_result :=
  let features : list Feature := [] in
  query <- match boundary with
           | Some wkt =>
               _ <- execute dbcursor (view_sql "ways_view" "" "ways_poly" wkt) ;;
               _ <- execute dbcursor (view_sql "nodes_view" "" "nodes" wkt) ;;
               _ <- execute dbcursor (view_sql "lines_view" "" "ways_line" wkt) ;;
               _ <- execute dbcursor (view_sql "relations_view" "TEMP " "nodes" wkt) ;;
               Returned (scoped_query query)
           | None => Returned query
           end ;;
  _ <- execute dbcursor query ;;
  match fetchall dbcursor query with
  | Raised _ => Returned (FeatureCollection features)
  | Returned result =>
      ways_poly <- Py.getitem (config_where qc) "ways_poly" ;;
      no_filters <- (if Z.of_nat (List.length ways_poly) =? 0 then
                       nodes <- Py.getitem (config_where qc) "nodes" ;;
                       Returned (Z.of_nat (List.length nodes) =? 0)
                     else Returned false) ;;
      if no_filters : bool then Returned (Rows result)
      else decode_rows loads qc query result result features
  end.

(** ** queryRemote

    The HTTP session is a record of functions.  [get] is told how many
    status requests came before; [fetch_export] stands for the download of
    the archive, its unpacking and [json.loads]. *)

Record Response : Type := mkResponse {
  status_code : Z;
  json : outcome pyval          (* result.json() *)
}.

Record Session : Type := mkSession {
  post : string -> string -> outcome Response;
  get : string -> nat -> outcome Response;
  fetch_export : pyval -> outcome pyval
}.

(** [result.raise_for_status()] raises HTTPError on a 4xx or 5xx status. *)
Definition raise_for_status (r : Response) : outcome unit :=
  if (400 <=? status_code r) && (status_code r <? 600) then Raised HTTPError
  else Returned tt.

(** [error_dict["status_code"] = code] *)
Definition set_status_code (error_dict : pyval) (code : Z) : outcome pyval :=
  match error_dict with
  | VDict d => Returned (VDict (Py.set d "status_code" (VInt code)))
  | _ => Raised TypeError
  end.

Record poll_state : Type := mkPoll {
  elapsed_time : Z;
  polling_interval : Z;
  polls : nat;              (* status requests sent so far *)
  slept : list Z            (* the arguments of time.sleep, oldest first *)
}.

Definition max_polling_duration : Z := 600.

(** One pass through the body of the [while]: the next state, or the
    [result_json] the loop breaks with. *)
Definition poll_step (session : Session) (task_query_url : string)
  (st : poll_state) : outcome (poll_state + pyval) :=
  r <- get session task_query_url (polls st) ;;
  result_json <- json r ;;
  status <- Py.dict_get result_json "status" ;;
  if Py.eq_str status "PENDING" then
    let polling_interval :=
      if elapsed_time st >? 60 then 10 else polling_interval st in
    Returned (inl (mkPoll (elapsed_time st + polling_interval)
                          polling_interval (S (polls st))
                          (slept st ++ [polling_interval])%list))
  else if Py.eq_str status "SUCCESS" then Returned (inr result_json)
  else Returned (inl (mkPoll (elapsed_time st) (polling_interval st)
                             (S (polls st)) (slept st))).

Inductive poll_exit : Type :=
| Break (result_json : pyval)      (* the loop left through [break] *)
| Exhausted.                       (* the [else] of the [while] *)

(** The [while] loop; [fuel] bounds the passes, [None] meaning that the
    loop is still running after that many. *)
Fixpoint poll_loop (fuel : nat) (session : Session) (task_query_url : string)
  (st : poll_state) : option (outcome (poll_state * poll_exit)) :=
  if elapsed_time st <? max_polling_duration then
    match fuel with
    | O => None
    | S fuel' =>
        match poll_step session task_query_url st with
        | Raised e => Some (Raised e)
        | Returned (inr result_json) => Some (Returned (st, Break result_json))
        | Returned (inl st') => poll_loop fuel' session task_query_url st'
        end
    end
  else Some (Returned (st, Exhausted)).

Definition initial_poll_state : poll_state := mkPoll 0 2 O [].

(** What follows the first request once it was answered with status 200. *)
Definition queryRemote_task (fuel : nat) (session : Session) (url : string)
  (result : Response) : option (outcome pyval) :=
  match (body <- json result ;; Py.dict_get body "task_id") with
  | Raised e => Some (Raised e)
  | Returned task_id =>
      let task_query_url := url ++ "/tasks/status/" ++ Py.str task_id in
      match poll_loop fuel session task_query_url initial_poll_state with
      | None => None
      | Some (Raised e) => Some (Raised e)
      | Some (Returned (_, Exhausted)) => Some (Returned VNone)
      | Some (Returned (_, Break result_json)) =>
          Some (r <- Py.subscript result_json "result" ;;
                zip_url <- Py.subscript r "download_url" ;;
                fetch_export session zip_url)
      end
  end.

(** [self_url] is [self.url]; the answer [None] means that the polling loop
    is still running after [fuel] passes. *)
Definition queryRemote (fuel : nat) (session : Session) (self_url : string)
  (query : string) : option (outcome pyval) :=
  let url := self_url ++ "/snapshot/" in
  match post session url query with
  | Raised HTTPError =>
      (* caught with [result] still None *)
      Some (Returned VNone)
  | Raised e => Some (Raised e)
  | Returned result =>
      match raise_for_status result with
      | Raised _ =>
          Some (error_dict <- json result ;;
                set_status_code error_dict (status_code result))
      | Returned _ =>
          if negb (status_code result =? 200) then
            Some (body <- json result ;;
                  detail <- Py.dict_get body "detail" ;;
                  first <- Py.first detail ;;
                  error_message <- Py.dict_get first "msg" ;;
                  Returned VNone)
          else queryRemote_task fuel session self_url result
      end
  end.

(** ** The filter clause of the configuration

    Modelled from the spec: the class QueryConfig is not among the sources.
    Its data model gives a filter clause an attribute key, an operator and
    a sequence of string values; the entry below is the dictionary such a
    clause is stored as, the key first and the operator under ["op"]. *)

Record Clause : Type := mkClause {
  clause_key : string;
  clause_op : string;
  clause_values : list string
}.

Definition entry_of (c : Clause) : entry :=
  [(clause_key c, VList (map VStr (clause_values c)));
   ("op", VStr (clause_op c))].

(** The attribute of a selection: its key and a rendering hint. *)
Definition select_entry_of (attr : string * pyval) : entry := [attr].

(** The last two lines of the table loop: strip the text on the right,
    then cut it at its last blank. *)
Definition cut_last_word (text : string) : string :=
  let query := PyStr.rstrip text in
  PyStr.slice query None (Some (PyStr.rfind query " ")).

(** ** The clause rendering, in the words of the spec

    No value or the single value "not null" is a test for presence, one
    value an equality, more values a membership in the value list. *)

Definition spec_predicate (values : list string) : string :=
  match values with
  | [] => "IS NOT NULL"
  | [v] => if String.eqb v "not null" then "IS NOT NULL" else "='" ++ v ++ "'"
  | _ => " IN " ++ Py.repr_tuple (map VStr values)
  end.

Definition spec_condition (c : Clause) : string :=
  "tags->>'" ++ clause_key c ++ "' " ++ spec_predicate (clause_values c).

Definition is_or (c : Clause) : bool := String.eqb (clause_op c) "or".
Definition is_and (c : Clause) : bool := String.eqb (clause_op c) "and".

(** The text [jor] and [jand] hold for clauses rendered that way. *)
Definition spec_group (connective : string) (cs : list Clause) : string :=
  String.concat "" (map (fun c => spec_condition c ++ connective) cs).

(** What the final cut removes: the connective of the last group, or the
    bare keyword when the table has no clause. *)
Definition dangling (ors ands : list Clause) : string :=
  match ands, ors with
  | _ :: _, _ => " AND "
  | [], _ :: _ => " OR  "
  | [], [] => " WHERE  "
  end.

(** [s.endswith(suffix)] *)
Fixpoint endswith (s suffix : string) : bool :=
  String.eqb s suffix
  || match s with
     | EmptyString => false
     | String _ s' => endswith s' suffix
     end.

Fixpoint last_char (s : string) : option ascii :=
  match s with
  | EmptyString => None
  | String c EmptyString => Some c
  | String _ s' => last_char s'
  end.

(** A clause of the data model: its key is not the reserved ["op"], its
    operator is one of the two, and an AND clause has a value. *)
Definition wf_clause (c : Clause) : Prop :=
  clause_key c <> "op"
  /\ (is_or c = true \/ is_and c = true)
  /\ (is_and c = true -> clause_values c <> []).

(** The statement of one table: [query] is the untrimmed text of the table
    without the dangling connective the cut removes, and it does not end
    with a connective when the table has a clause. *)
Definition trimmed_statement (config : QueryConfig) (allgeom : bool)
  (clauses_of : string -> list Clause) (table query : string) : Prop :=
  let ors := filter is_or (clauses_of table) in
  let ands := filter is_and (clauses_of table) in
  exists select,
    select_clause config allgeom table = Returned select
    /\ raw_query select table (spec_group " OR " ors) (spec_group " AND " ands)
       = query ++ dangling ors ands
    /\ (clauses_of table <> [] ->
        endswith query " AND" = false /\ endswith query " OR" = false)
    /\ (clauses_of table = [] -> query = select ++ " FROM " ++ table).

(** The last character of a rendered clause. *)
Definition closes_condition (x : ascii) : Prop :=
  x = "L"%char \/ x = "'"%char \/ x = ")"%char.

(** The geometry column of a statement. *)
Definition geometry_column (allgeom : bool) : string :=
  if allgeom then "ST_AsText(geom)" else "ST_AsText(ST_Centroid(geom))".

(** The projection of the selected attributes, in their order. *)
Definition projection (keys : list string) : string :=
  String.concat "" (map (fun k => ", tags->>'" ++ k ++ "'") keys).

(** The columns that are not null, paired with their attribute. *)
Definition present (columns : list (string * pyval)) : dict pyval :=
  filter (fun kv => negb (is_none (snd kv))) columns.

(** The entries the decoder walks: the selections of all the tables, in the
    order of [config["select"]]. *)
Definition selected (qc : QueryConfig) : list entry :=
  List.concat (map snd (config_select qc)).

(** The statements queryLocal sends to the cursor, in their order: with a
    boundary the four view definitions and then the redirected query, the
    query alone otherwise. *)
Definition sent (query : string) (boundary : option string) : list string :=
  match boundary with
  | Some wkt =>
      [view_sql "ways_view" "" "ways_poly" wkt;
       view_sql "nodes_view" "" "nodes" wkt;
       view_sql "lines_view" "" "ways_line" wkt;
       view_sql "relations_view" "TEMP " "nodes" wkt;
       scoped_query query]
  | None => [query]
  end.

(** [table] is the only geometry class of the configuration that selects
    attributes, and it selects [entries]. *)
Definition only_table_selects (qc : QueryConfig) (table : string)
  (entries : list entry) : Prop :=
  exists before after,
    config_select qc = (before ++ (table, entries) :: after)%list
    /\ Forall (fun tbl => snd tbl = []) before
    /\ Forall (fun tbl => snd tbl = []) after
    /\ ~ In table (map fst before).

(** ** Configurations createJson can walk

    Modelled from the spec: the class QueryConfig is not among the sources.
    Its configuration has the three geometry classes under "select" and
    "where"; a where entry has its attribute first, a sequence (or a text)
    as the value and an operator under "op"; a select entry is one pair; a
    table with where entries is one of the three classes. *)

Definition supports_in (v : pyval) : bool :=
  match v with
  | VList _ | VDict _ | VStr _ => true
  | _ => false
  end.

Definition wf_where_item (table : string) (item : entry) : bool :=
  match item with
  | (_, v) :: _ =>
      Py.mem item "op" && supports_in v && Py.mem geometry_class table
  | [] => false
  end.

Definition wf_select_entry (value : entry) : bool :=
  match value with
  | [_] => true
  | _ => false
  end.

Definition has_classes {V : Type} (d : dict V) : bool :=
  Py.mem d "nodes" && Py.mem d "ways_line" && Py.mem d "ways_poly".

Definition wf_config (config : QueryConfig) : bool :=
  has_classes (config_select config)
  && has_classes (config_where config)
  && forallb (fun tbl => forallb (wf_where_item (fst tbl)) (snd tbl))
             (config_where config)
  && forallb (fun tbl => forallb wf_select_entry (snd tbl))
             (config_select config).

Definition classes : list string := ["point"; "polygon"; "line"].

(** The three dictionaries of the where loop hold every class, and every
    class of the filters holds both join groups. *)
Definition keys_ready (keys : dict (list string)) : Prop :=
  forall cls, In cls classes -> Py.mem keys cls = true.

Definition tags_ready (tags : tag_filters) : Prop :=
  forall cls, In cls classes ->
    exists by_group,
      Py.get tags cls = Some by_group
      /\ Py.mem by_group "join_or" = true
      /\ Py.mem by_group "join_and" = true.

Definition json_ready (st : json_state) : Prop :=
  keys_ready (join_or_keys st) /\ keys_ready (join_and_keys st)
  /\ tags_ready (tags_of st).

(** [tags[cls][group].get(key)] *)
Definition filter_of (tags : tag_filters) (cls group key : string)
  : option pyval :=
  match Py.get tags cls with
  | Some by_group =>
      match Py.get by_group group with
      | Some by_key => Py.get by_key key
      | None => None
      end
  | None => None
  end.

(** The value list createJson records for a clause. *)
Definition recorded_values (c : Clause) : pyval :=
  if existsb (fun v => String.eqb v "not null") (clause_values c)
  then VList []
  else VList (map VStr (clause_values c)).

(** Every status request to [url] is answered with a body whose status is
    [status]. *)
Definition answers_status (session : Session) (url : string) (status : pyval)
  : Prop :=
  forall n, exists r body,
    get session url n = Returned r
    /\ json r = Returned (VDict body)
    /\ Py.get body "status" = Some status.

(** Every status request to [url] is answered with PENDING or SUCCESS. *)
Definition answers_pending_or_success (session : Session) (url : string)
  : Prop :=
  forall n, exists r body,
    get session url n = Returned r
    /\ json r = Returned (VDict body)
    /\ (Py.get body "status" = Some (VStr "PENDING")
        \/ Py.get body "status" = Some (VStr "SUCCESS")).

(** The state one PENDING answer leads to, and the state after [k] of them. *)
Definition after_pending (st : poll_state) : poll_state :=
  let polling_interval :=
    if elapsed_time st >? 60 then 10 else polling_interval st in
  mkPoll (elapsed_time st + polling_interval) polling_interval
         (S (polls st)) (slept st ++ [polling_interval])%list.

Definition pending_state (k : nat) : poll_state :=
  Nat.iter k after_pending initial_poll_state.

(** The first request is accepted with a task id. *)
Definition accepts_task (session : Session) (self_url query : string)
  (task_id : pyval) : Prop :=
  exists r body,
    post session (self_url ++ "/snapshot/") query = Returned r
    /\ status_code r = 200
    /\ json r = Returned (VDict body)
    /\ Py.get body "task_id" = Some task_id.

(** ** Inputs used by the examples *)

Module Inputs.

Definition three (a b c : list entry) : dict (list entry) :=
  [("nodes", a); ("ways_poly", b); ("ways_line", c)].

(** One AND clause without values on [nodes]. *)
Definition and_no_value : QueryConfig :=
  mkConfig (three [] [] [])
           (three [entry_of (mkClause "k" "and" [])] [] [])
           ["nodes"] false.

(** The same clause in the OR group. *)
Definition or_no_value : QueryConfig :=
  mkConfig (three [] [] [])
           (three [entry_of (mkClause "k" "or" [])] [] [])
           ["nodes"] false.

(** One clause in each group. *)
Definition or_and : QueryConfig :=
  mkConfig (three [] [] [])
           (three [entry_of (mkClause "amenity" "or" ["school"]);
                   entry_of (mkClause "building" "and" ["yes"])] [] [])
           ["nodes"] false.

Definition or_and_clauses (table : string) : list Clause :=
  if String.eqb table "nodes"
  then [mkClause "amenity" "or" ["school"]; mkClause "building" "and" ["yes"]]
  else [].

(** One OR clause with a value on [nodes]. *)
Definition or_school : QueryConfig :=
  mkConfig (three [] [] [])
           (three [entry_of (mkClause "amenity" "or" ["school"])] [] [])
           ["nodes"] false.

(** Two tables that select different attributes. *)
Definition two_tables : QueryConfig :=
  mkConfig (three [select_entry_of ("amenity", VList [])]
                  [select_entry_of ("building", VList [])] [])
           (three [entry_of (mkClause "amenity" "or" ["school"])]
                  [entry_of (mkClause "building" "or" ["yes"])] [])
           ["nodes"; "ways_poly"] false.

(** Two tables that select an attribute of their own and the name. *)
Definition places : QueryConfig :=
  mkConfig (three [select_entry_of ("amenity", VList []);
                   select_entry_of ("name", VList [])]
                  [select_entry_of ("building", VList []);
                   select_entry_of ("name", VList [])] [])
           (three [entry_of (mkClause "amenity" "or" ["school"])]
                  [entry_of (mkClause "building" "or" ["yes"])] [])
           ["nodes"; "ways_poly"] false.

(** One table that selects the name and a tag called id. *)
Definition tagged_id : QueryConfig :=
  mkConfig (three [] [select_entry_of ("name", VList []);
                      select_entry_of ("id", VList [])] [])
           (three [] [entry_of (mkClause "building" "or" ["yes"])] [])
           ["ways_poly"] false.

Definition places_clauses (table : string) : list Clause :=
  if String.eqb table "nodes" then [mkClause "amenity" "or" ["school"]]
  else if String.eqb table "ways_poly" then [mkClause "building" "or" ["yes"]]
  else [].

Definition status_response (status : string) : Response :=
  mkResponse 200 (Returned (VDict [("status", VStr status)])).

Definition accepted : Response :=
  mkResponse 200 (Returned (VDict [("task_id", VStr "t1")])).

(** A session whose task never leaves the given status. *)
Definition stuck (status : string) : Session :=
  mkSession (fun _ _ => Returned accepted)
            (fun _ _ => Returned (status_response status))
            (fun _ => Returned (VDict [])).

(** A session whose first request is answered by [r]. *)
Definition answering (r : outcome Response) : Session :=
  mkSession (fun _ _ => r)
            (fun _ _ => Returned (status_response "PENDING"))
            (fun _ => Returned (VDict [])).

(** One table that selects two attributes. *)
Definition buildings : QueryConfig :=
  mkConfig (three [] [select_entry_of ("building", VList []);
                      select_entry_of ("name", VList [])] [])
           (three [] [entry_of (mkClause "building" "or" ["yes"])] [])
           ["ways_poly"] false.

Definition buildings_clauses (table : string) : list Clause :=
  if String.eqb table "ways_poly" then [mkClause "building" "or" ["yes"]]
  else [].

Definition polygon_wkt : pyval := VStr "POLYGON((0 0,1 0,1 1,0 0))".

Definition polygon : Geometry := Shape "POLYGON ((0 0, 1 0, 1 1, 0 0))".

(** A parser that reads the text of this one polygon; like the library's,
    it raises on any other text and on a value that is no text. *)
Definition wkt_loads (v : pyval) : outcome Geometry :=
  match v with
  | VStr text =>
      if String.eqb text "POLYGON((0 0,1 0,1 1,0 0))" then Returned polygon
      else Raised WKTReadingError
  | _ => Raised TypeError
  end.

(** The configuration [or_school] with a "centroid" key. *)
Definition or_school_centroid : QueryConfig :=
  mkConfig (three [] [] [])
           (three [entry_of (mkClause "amenity" "or" ["school"])] [] [])
           ["nodes"] true.

(** No filter on any class. *)
Definition no_filter : QueryConfig :=
  mkConfig (three [] [] []) (three [] [] []) [] false.

(** A cursor that accepts every statement and answers with [rows]. *)
Definition cursor_with (rows : list row) : Cursor :=
  mkCursor (fun _ => Returned tt) (fun _ => Returned rows).

(** A cursor that executes a SELECT and the definition of a view, rejects
    any other statement, and answers a SELECT with [rows]. *)
Definition select_cursor (rows : list row) : Cursor :=
  mkCursor (fun statement =>
              if String.prefix "SELECT " statement
                 || String.prefix "DROP VIEW IF EXISTS " statement
              then Returned tt else Raised DatabaseError)
           (fun statement =>
              if String.prefix "SELECT " statement then Returned rows
              else Raised DatabaseError).

(** A filter on relations, which is none of the three geometry classes,
    without and with the key "centroid". *)
Definition routes : QueryConfig :=
  mkConfig (three [] [] [])
           (three [] [] []
            ++ [("relations", [entry_of (mkClause "type" "or" ["route"])])])%list
           ["nodes"] false.

Definition routes_centroid : QueryConfig :=
  mkConfig (three [] [] [])
           (three [] [] []
            ++ [("relations", [entry_of (mkClause "type" "or" ["route"])])])%list
           ["nodes"] true.

(** An error response whose body is a JSON object. *)
Definition not_found : Response :=
  mkResponse 404 (Returned (VDict [("detail", VStr "Not Found")])).

(** An error response whose body is not JSON. *)
Definition bad_gateway : Response :=
  mkResponse 502 (Raised JSONDecodeError).

End Inputs.


(** ** DatabaseAccess.__init__

    What the module finds outside itself is a record: the database driver,
    the HTTP session it would create, the environment variable
    UNDERPASS_API_URL and, of the geometry library, [shape], which gives
    the text of a geometry, or [None] for a geometry that counts as false,
    or raises, and [wkt.loads]. *)

Record Connection : Type := mkConnection {
  cursor : outcome Cursor              (* self.dbshell.cursor() *)
}.

Record Host : Type := mkHost {
  psycopg2_connect : string -> outcome Connection;
  requests_Session : Session;
  UNDERPASS_API_URL : option string;
  shape : pyval -> outcome (option string);
  wkt_loads : pyval -> outcome Geometry
}.

(** [self.session] and [self.url], which are set together or not at all. *)
Record Remote : Type := mkRemote {
  session : Session;
  url : string
}.

Record DatabaseAccess : Type := mkDatabaseAccess {
  dbshell : option Connection;
  dbcursor : option Cursor;
  uri : Uri;
  remote : option Remote
}.

(** [" user=" + value] for a field that is set. *)
Definition connect_field (label : string) (value : option string) : string :=
  match value with
  | Some v => label ++ v
  | None => ""
  end.

(** The text given to the driver. *)
Definition connect_string (uri : Uri) : outcome string :=
  connect <- match dbname uri with
             | Some n => Returned ("PG: dbname=" ++ n)
             | None => Raised TypeError
             end ;;
  let connect :=
    match dbname uri with
    | Some n => "dbname=" ++ n
    | None =>
        match dbhost uri with
        | Some h =>
            if String.eqb h "localhost"
            then "host=" ++ h ++ " dbname=" ++ "None"
            else connect
        | None => connect
        end
    end in
  let connect := connect ++ connect_field " user=" (dbuser uri) in
  let connect := connect ++ connect_field " password=" (dbpass uri) in
  Returned connect.

Definition default_api_url : string := "https://api-prod.raw-data.hotosm.org/v1".

(** The [try] block: an exception of the driver or of the cursor is logged
    and leaves the attribute as it was. *)
Definition open_connection (host : Host) (uri : Uri) (connect : string)
  : DatabaseAccess :=
  match psycopg2_connect host connect with
  | Raised _ => mkDatabaseAccess None None uri None
  | Returned shell =>
      match cursor shell with
      | Raised _ => mkDatabaseAccess (Some shell) None uri None
      | Returned c => mkDatabaseAccess (Some shell) (Some c) uri None
      end
  end.

Definition DatabaseAccess_init (host : Host) (dburi : string)
  : outcome DatabaseAccess :=
  let uri := uriParser dburi in
  if match dbname uri with
     | Some n => String.eqb n "underpass"
     | None => false
     end
  then
    let url := match UNDERPASS_API_URL host with
               | Some u => u
               | None => default_api_url
               end in
    Returned (mkDatabaseAccess None None uri
                (Some (mkRemote (requests_Session host) url)))
  else
    connect <- connect_string uri ;;
    Returned (open_connection host uri connect).

(** ** PostgresClient

    The client is the database access with the parsed configuration; the
    parsers of the configuration file belong to QueryConfig, which is not
    among the sources, so the configuration is given as parsed. *)

Record PostgresClient : Type := mkClient {
  access : DatabaseAccess;
  qc : QueryConfig
}.

Definition PostgresClient_init (host : Host) (dburi : string)
  (config : QueryConfig) : outcome PostgresClient :=
  db <- DatabaseAccess_init host dburi ;;
  Returned (mkClient db config).

(** [self.queryLocal(...)]: the method reads [self.dbcursor]. *)
Definition queryLocal_method (host : Host) (self : PostgresClient)
  (query : string) (allgeom : bool) (boundary : option string)
  : outcome local_result :=
  match dbcursor (access self) with
  | Some c => queryLocal (wkt_loads host) c (qc self) query allgeom boundary
  | None => Raised AttributeError
  end.

(** [self.queryRemote(...)]: the method reads [self.url] and [self.session]. *)
Definition queryRemote_method (fuel : nat) (self : PostgresClient)
  (query : string) : option (outcome pyval) :=
  match remote (access self) with
  | Some r => queryRemote fuel (session r) (url r) query
  | None => Some (Raised AttributeError)
  end.

(** ** execQuery *)

(** [len(result)]: a FeatureCollection is a dictionary with the keys
    "type" and "features". *)
Definition result_len (r : local_result) : Z :=
  match r with
  | Rows rows => Z.of_nat (List.length rows)
  | FeatureCollection _ => 2
  end.

(** [result["features"]] *)
Definition result_features (r : local_result) : outcome (list Feature) :=
  match r with
  | Rows _ => Raised TypeError
  | FeatureCollection features => Returned features
  end.

(** The boundary polygon of the request. *)
Definition boundary_polygon (boundary : pyval) : outcome pyval :=
  has_features <- Py.contains_str boundary "features" ;;
  if has_features : bool then
    features <- Py.subscript boundary "features" ;;
    first <- Py.first features ;;
    Py.subscript first "geometry"
  else Py.subscript boundary "geometry".

(** The body of the loop over the statements. *)
Definition execQuery_statement (host : Host) (self : PostgresClient)
  (allgeom : bool) (wkt : option string) (alldata : list Feature)
  (query : string) : outcome (list Feature) :=
  result <- queryLocal_method host self query allgeom wkt ;;
  if result_len result >? 0 then
    features <- result_features result ;;
    Returned (alldata ++ features)%list
  else Returned alldata.

(** The statements to run: the custom text when one is given, the compiled
    ones otherwise. *)
Definition statements (config : QueryConfig) (customsql : option string)
  (allgeom : bool) : outcome (list string) :=
  match customsql with
  | None | Some EmptyString => createSQL config allgeom
  | Some text => Returned [text]
  end.

Inductive collection : Type :=
| Local (features : list Feature)      (* FeatureCollection(alldata) *)
| FromRemote (answer : pyval).         (* what queryRemote returned *)

(** [customsql] is [None] or a text; the empty text counts as none. *)
Definition execQuery (fuel : nat) (host : Host) (self : PostgresClient)
  (boundary : pyval) (customsql : option string) (allgeom : bool)
  : option (outcome collection) :=
  match (poly <- boundary_polygon boundary ;;
         wkt <- shape host poly ;;
         Returned (poly, wkt)) with
  | Raised e => Some (Raised e)
  | Returned (poly, wkt) =>
      match dbshell (access self) with
      | Some _ =>
          Some (sql <- statements (qc self) customsql allgeom ;;
                alldata <- foldM (execQuery_statement host self allgeom wkt)
                                 sql [] ;;
                Returned (Local alldata))
      | None =>
          match createJson (qc self) poly allgeom with
          | Raised e => Some (Raised e)
          | Returned json_config =>
              match queryRemote_method fuel self json_config with
              | None => None
              | Some (Raised e) => Some (Raised e)
              | Some (Returned answer) => Some (Returned (FromRemote answer))
              end
          end
      end
  end.

(** A clause whose operator may be anything: its key is not the reserved
    "op" and, with the operator "and", it has a value. *)
Definition loose_clause (c : Clause) : Prop :=
  clause_key c <> "op" /\ (is_and c = true -> clause_values c <> []).

Definition known_operator (c : Clause) : bool := is_or c || is_and c.

(** The configuration with the where entries of one table replaced. *)
Definition with_where (config : QueryConfig) (table : string)
  (entries : list entry) : QueryConfig :=
  mkConfig (config_select config)
           (Py.set (config_where config) table entries)
           (config_tables config) (config_centroid config).

(** A table with a selection or a where entry. *)
Definition table_is_used (config : QueryConfig) (table : string) : bool :=
  match Py.get (config_select config) table,
        Py.get (config_where config) table with
  | Some sel, Some wh =>
      negb (Nat.eqb (List.length sel) 0) || negb (Nat.eqb (List.length wh) 0)
  | _, _ => false
  end.

(** The geometry types of the tables in use, in the order of the
    document. *)
Definition geometry_types (config : QueryConfig) : list pyval :=
  ((if table_is_used config "nodes" then [VStr "point"] else [])
   ++ (if table_is_used config "ways_line" then [VStr "line"] else [])
   ++ (if table_is_used config "ways_poly" then [VStr "polygon"] else []))%list.

(** The query text that reaches the database. *)
Definition final_query (query : string) (boundary : option string) : string :=
  match boundary with
  | Some _ => scoped_query query
  | None => query
  end.

(** What [wkt.loads] gives for the first column of a row. *)
Definition row_geometry (loads : pyval -> outcome Geometry) (item : row)
  : outcome Geometry :=
  loads (hd VNone item).

(** The status requests to [url] are answered PENDING [n] times and then
    SUCCESS, with the body [body]. *)
Definition succeeds_after (session : Session) (url : string) (n : nat)
  (body : dict pyval) : Prop :=
  (forall k, (k < n)%nat ->
     exists r b,
       get session url k = Returned r
       /\ json r = Returned (VDict b)
       /\ Py.get b "status" = Some (VStr "PENDING"))
  /\ exists r,
       get session url n = Returned r
       /\ json r = Returned (VDict body)
       /\ Py.get body "status" = Some (VStr "SUCCESS").

(** [pattern] occurs nowhere in [text]. *)
Definition absent (pattern text : string) : Prop :=
  forall i, PyStr.find_from pattern text i = -1.

(** The statement createSQL compiles for a table without where entries. *)
Definition plain_statement (allgeom : bool) (keys : list string)
  (table : string) : string :=
  ("SELECT " ++ geometry_column allgeom ++ ", osm_id, version"
   ++ projection keys) ++ " FROM " ++ table.

(** ** Further inputs *)

Module Examples.

(** The geometry of a triangle, and a feature that holds it. *)
Definition triangle : pyval :=
  VDict [("type", VStr "Polygon");
         ("coordinates",
          VList [VList [VList [VInt 0; VInt 0]; VList [VInt 1; VInt 0];
                        VList [VInt 1; VInt 1]; VList [VInt 0; VInt 0]]])].

Definition area : pyval :=
  VDict [("type", VStr "Feature"); ("geometry", triangle)].

(** A [shape] that needs the coordinates of the geometry, as the library's
    does, and gives the text of the triangle. *)
Definition shape_of (geometry : pyval) : outcome (option string) :=
  _ <- Py.subscript geometry "type" ;;
  _ <- Py.subscript geometry "coordinates" ;;
  Returned (Some "POLYGON ((0 0, 1 0, 1 1, 0 0))").

(** A host whose database refuses every connection. *)
Definition unreachable : Host :=
  mkHost (fun _ => Raised DatabaseError) (Inputs.stuck "PENDING") None
         shape_of Inputs.wkt_loads.

(** A host whose database answers every query with [rows]. *)
Definition serving (rows : list row) : Host :=
  mkHost (fun _ => Returned (mkConnection (Returned (Inputs.cursor_with rows))))
         (Inputs.stuck "PENDING") None shape_of Inputs.wkt_loads.

(** Clauses with the operators "or", "not" and "and". *)
Definition mixed_clauses : list Clause :=
  [mkClause "amenity" "or" ["school"]; mkClause "name" "not" ["x"];
   mkClause "building" "and" ["yes"]].

Definition mixed : QueryConfig :=
  mkConfig (Inputs.three [] [] [])
           (Inputs.three (map entry_of mixed_clauses) [] [])
           ["nodes"] false.

(** A declared table that is no key of the selections. *)
Definition undeclared : QueryConfig :=
  mkConfig (Inputs.three [] [] []) (Inputs.three [] [] [])
           ["nodes"; "relations"] false.

(** A filter on a table that is none of the three geometry classes. *)
Definition with_relations : QueryConfig :=
  mkConfig (Inputs.three [] [] [])
           (Inputs.three [entry_of (mkClause "amenity" "or" ["school"])] [] []
            ++ [("relations", [entry_of (mkClause "type" "or" ["route"])])])%list
           ["nodes"] false.

(** A cursor that executes the statements that create something, rejects
    any other statement and has nothing to fetch. *)
Definition nothing_to_fetch : Cursor :=
  mkCursor (fun statement =>
              if String.prefix "CREATE " statement then Returned tt
              else Raised DatabaseError)
           (fun _ => Raised DatabaseError).

(** No declared table: the statement is a custom one. *)
Definition custom : QueryConfig :=
  mkConfig (Inputs.three [] [] [])
           (Inputs.three [entry_of (mkClause "amenity" "or" ["school"])] [] [])
           [] false.

Definition done_body : dict pyval :=
  [("status", VStr "SUCCESS");
   ("result", VDict [("download_url", VStr "https://s3/Export.zip")])].

(** A session whose task is pending twice and then done; the archive
    holds an empty collection. *)
Definition finishing : Session :=
  mkSession (fun _ _ => Returned Inputs.accepted)
            (fun _ n => if (n <? 2)%nat
                        then Returned (Inputs.status_response "PENDING")
                        else Returned (mkResponse 200 (Returned (VDict done_body))))
            (fun _ => Returned (VDict [("type", VStr "FeatureCollection");
                                       ("features", VList [])])).

(** The first request answered 202 with a task id. *)
Definition accepted_202 : Response :=
  mkResponse 202 (Returned (VDict [("task_id", VStr "t1")])).

(** The first request answered 307 with a validation message. *)
Definition redirected : Response :=
  mkResponse 307 (Returned (VDict [("detail",
                                    VList [VDict [("msg", VStr "moved")]])])).

(** A filter on ways_line only. *)
Definition lines : QueryConfig :=
  mkConfig (Inputs.three [] [] [])
           (Inputs.three [] [] [entry_of (mkClause "highway" "or" ["path"])])
           ["ways_line"] false.

Definition one_row : row :=
  [Inputs.polygon_wkt; VInt 7; VInt 2; VStr "yes"; VNone].

Definition one_feature : Feature :=
  mkFeature Inputs.polygon
            [("id", VInt 7); ("version", VInt 2); ("building", VStr "yes")].

(** A client with a connection and a cursor that answers with [rows]. *)
Definition connected (config : QueryConfig) (rows : list row)
  : PostgresClient :=
  mkClient (mkDatabaseAccess
              (Some (mkConnection (Returned (Inputs.cursor_with rows))))
              (Some (Inputs.cursor_with rows)) (uriParser "osm") None)
           config.

(** A client whose cursor executes a SELECT and the definition of a view
    only. *)
Definition querying (config : QueryConfig) (rows : list row)
  : PostgresClient :=
  mkClient (mkDatabaseAccess
              (Some (mkConnection (Returned (Inputs.select_cursor rows))))
              (Some (Inputs.select_cursor rows)) (uriParser "osm") None)
           config.

Definition buildings_sql : string :=
  "SELECT ST_AsText(geom), osm_id, version, tags->>'building', tags->>'name' FROM ways_poly WHERE tags->>'building' ='yes'".

End Examples.
(** * Facts *)

(** ** Strings *)

Lemma app_nil_r (s : string) : s ++ "" = s.
Proof. induction s as [|c s IH]; simpl; [reflexivity | now rewrite IH]. Qed.

Lemma app_assoc (a b c : string) : (a ++ b) ++ c = a ++ b ++ c.
Proof. induction a as [|x a IH]; simpl; [reflexivity | now rewrite IH]. Qed.

Lemma length_app (a b : string) :
  String.length (a ++ b) = (String.length a + String.length b)%nat.
Proof. induction a as [|x a IH]; simpl; [reflexivity | now rewrite IH]. Qed.

Lemma len_app (a b : string) : PyStr.len (a ++ b) = PyStr.len a + PyStr.len b.
Proof. unfold PyStr.len. rewrite length_app. lia. Qed.

Lemma len_nonneg (a : string) : 0 <= PyStr.len a.
Proof. unfold PyStr.len. lia. Qed.

Lemma substring_whole_prefix (a b : string) :
  substring 0 (String.length a) (a ++ b) = a.
Proof.
  induction a as [|x a IH]; simpl.
  - destruct b; reflexivity.
  - now rewrite IH.
Qed.

(** Cutting a string at the length of a prefix gives the prefix. *)
Lemma slice_to_prefix (a b : string) :
  PyStr.slice (a ++ b) None (Some (PyStr.len a)) = a.
Proof.
  unfold PyStr.slice, PyStr.clamp_index.
  rewrite len_app.
  pose proof (len_nonneg a) as Ha. pose proof (len_nonneg b) as Hb.
  destruct (PyStr.len a <? 0) eqn:E; [apply Z.ltb_lt in E; lia|].
  replace (Z.max 0 (Z.min (PyStr.len a + PyStr.len b) (PyStr.len a)) - 0)
    with (PyStr.len a) by lia.
  unfold PyStr.len at 1. rewrite Nat2Z.id. simpl.
  apply substring_whole_prefix.
Qed.

(** A negative stop cuts that many characters from the end. *)
Lemma slice_drop_suffix (a b : string) :
  0 < PyStr.len b ->
  PyStr.slice (a ++ b) None (Some (- PyStr.len b)) = a.
Proof.
  intros Hb.
  rewrite <- (slice_to_prefix a b) at 2.
  unfold PyStr.slice, PyStr.clamp_index.
  rewrite len_app.
  pose proof (len_nonneg a) as Ha.
  destruct (- PyStr.len b <? 0) eqn:E; [|apply Z.ltb_ge in E; lia].
  destruct (PyStr.len a <? 0) eqn:E'; [apply Z.ltb_lt in E'; lia|].
  do 2 f_equal. lia.
Qed.

Lemma rstrip_app (a b : string) :
  PyStr.rstrip b <> "" -> PyStr.rstrip (a ++ b) = a ++ PyStr.rstrip b.
Proof.
  intros Hb. induction a as [|x a IH]; simpl; [reflexivity|].
  rewrite IH. destruct (a ++ PyStr.rstrip b) eqn:E; [|reflexivity].
  destruct a; simpl in E; [contradiction | discriminate].
Qed.

(** The last match of [sub] lies in the tail when the tail has one. *)
Lemma rfind_from_app (sub a t : string) (i : Z) :
  0 <= PyStr.rfind_from sub t (i + PyStr.len a) ->
  PyStr.rfind_from sub (a ++ t) i = PyStr.rfind_from sub t (i + PyStr.len a).
Proof.
  revert i. induction a as [|x a IH]; intros i H.
  - simpl in *. unfold PyStr.len in *. simpl in *.
    now replace (i + 0) with i in * by lia.
  - assert (Hi : i + PyStr.len (String x a) = i + 1 + PyStr.len a)
      by (unfold PyStr.len; simpl String.length; lia).
    rewrite Hi in *. simpl. rewrite (IH (i + 1) H).
    apply Z.leb_le in H. now rewrite H.
Qed.

Lemma cut_AND (x : string) : cut_last_word (x ++ " AND ") = x.
Proof.
  unfold cut_last_word. rewrite rstrip_app by (simpl; discriminate).
  simpl PyStr.rstrip. unfold PyStr.rfind.
  rewrite rfind_from_app; simpl PyStr.rfind_from;
    pose proof (len_nonneg x); [|lia].
  apply slice_to_prefix.
Qed.

Lemma cut_OR (x : string) : cut_last_word (x ++ " OR  ") = x.
Proof.
  unfold cut_last_word. rewrite rstrip_app by (simpl; discriminate).
  simpl PyStr.rstrip. unfold PyStr.rfind.
  rewrite rfind_from_app; simpl PyStr.rfind_from;
    pose proof (len_nonneg x); [|lia].
  apply slice_to_prefix.
Qed.

Lemma cut_WHERE (x : string) : cut_last_word (x ++ " WHERE  ") = x.
Proof.
  unfold cut_last_word. rewrite rstrip_app by (simpl; discriminate).
  simpl PyStr.rstrip. unfold PyStr.rfind.
  rewrite rfind_from_app; simpl PyStr.rfind_from;
    pose proof (len_nonneg x); [|lia].
  apply slice_to_prefix.
Qed.

(** ** Searching for a separator *)

Lemma prefix_char (c x : ascii) (s : string) :
  prefix (String c "") (String x s) = Ascii.eqb x c.
Proof.
  cbn [prefix]. destruct (ascii_dec c x) as [<- | Hne].
  - rewrite Ascii.eqb_refl. now destruct s.
  - symmetry. apply Ascii.eqb_neq. congruence.
Qed.

Lemma lacks_app (c : ascii) (a b : string) :
  lacks c (a ++ b) = lacks c a && lacks c b.
Proof.
  induction a as [|x a IH]; [reflexivity|].
  cbn [append lacks]. now rewrite IH, andb_assoc.
Qed.

Lemma find_from_lacks (c : ascii) (s : string) (i : Z) :
  lacks c s = true -> PyStr.find_from (String c "") s i = -1.
Proof.
  revert i. induction s as [|x s IH]; intros i H; [reflexivity|].
  cbn [lacks] in H. apply andb_true_iff in H as [Hx Hs].
  unfold PyStr.find_from; fold PyStr.find_from. rewrite prefix_char.
  apply negb_true_iff in Hx. rewrite Hx. now apply IH.
Qed.

(** The first separator after a part that has none. *)
Lemma find_from_first (c : ascii) (a b : string) (i : Z) :
  lacks c a = true ->
  PyStr.find_from (String c "") (a ++ String c b) i = i + PyStr.len a.
Proof.
  revert i. induction a as [|x a IH]; intros i H.
  - cbn [append]. unfold PyStr.find_from; fold PyStr.find_from.
    rewrite prefix_char, Ascii.eqb_refl. unfold PyStr.len. simpl. lia.
  - cbn [lacks] in H. apply andb_true_iff in H as [Hx Ha].
    cbn [append]. unfold PyStr.find_from; fold PyStr.find_from.
    rewrite prefix_char. apply negb_true_iff in Hx. rewrite Hx, (IH _ Ha).
    unfold PyStr.len. simpl String.length. lia.
Qed.

Lemma rfind_from_lacks (c : ascii) (s : string) (i : Z) :
  lacks c s = true -> PyStr.rfind_from (String c "") s i = -1.
Proof.
  revert i. induction s as [|x s IH]; intros i H; [reflexivity|].
  cbn [lacks] in H. apply andb_true_iff in H as [Hx Hs].
  cbn [PyStr.rfind_from]. rewrite (IH _ Hs), prefix_char.
  apply negb_true_iff in Hx. now rewrite Hx.
Qed.

(** The last separator before a part that has none. *)
Lemma rfind_from_last (c : ascii) (a b : string) (i : Z) :
  lacks c b = true -> 0 <= i ->
  PyStr.rfind_from (String c "") (a ++ String c b) i = i + PyStr.len a.
Proof.
  intros Hb Hi.
  assert (E : PyStr.rfind_from (String c "") (String c b) (i + PyStr.len a)
              = i + PyStr.len a).
  { cbn [PyStr.rfind_from]. rewrite (rfind_from_lacks _ _ _ Hb), prefix_char.
    now rewrite Ascii.eqb_refl. }
  rewrite rfind_from_app; rewrite E; [reflexivity|].
  pose proof (len_nonneg a). lia.
Qed.

Lemma substring_skip_prefix (a b : string) (n : nat) :
  substring (String.length a) n (a ++ b) = substring 0 n b.
Proof. induction a as [|x a IH]; [reflexivity | exact IH]. Qed.

Lemma substring_all (b : string) : substring 0 (String.length b) b = b.
Proof. induction b as [|x b IH]; [reflexivity | simpl; now rewrite IH]. Qed.

(** The part of a text between two of its lengths. *)
Lemma slice_middle (a b c : string) :
  PyStr.slice (a ++ b ++ c) (Some (PyStr.len a))
              (Some (PyStr.len a + PyStr.len b)) = b.
Proof.
  unfold PyStr.slice, PyStr.clamp_index. rewrite !len_app.
  pose proof (len_nonneg a). pose proof (len_nonneg b).
  pose proof (len_nonneg c).
  destruct (PyStr.len a <? 0) eqn:E1; [apply Z.ltb_lt in E1; lia|].
  destruct (PyStr.len a + PyStr.len b <? 0) eqn:E2; [apply Z.ltb_lt in E2; lia|].
  replace (Z.max 0 (Z.min (PyStr.len a + (PyStr.len b + PyStr.len c)) (PyStr.len a)))
    with (PyStr.len a) by lia.
  replace (Z.max 0 (Z.min (PyStr.len a + (PyStr.len b + PyStr.len c))
                          (PyStr.len a + PyStr.len b)) - PyStr.len a)
    with (PyStr.len b) by lia.
  unfold PyStr.len. rewrite !Nat2Z.id.
  rewrite substring_skip_prefix. apply substring_whole_prefix.
Qed.

(** The part of a text after one of its lengths. *)
Lemma slice_from (a b : string) :
  PyStr.slice (a ++ b) (Some (PyStr.len a)) None = b.
Proof.
  unfold PyStr.slice, PyStr.clamp_index. rewrite !len_app.
  pose proof (len_nonneg a). pose proof (len_nonneg b).
  destruct (PyStr.len a <? 0) eqn:E1; [apply Z.ltb_lt in E1; lia|].
  replace (Z.max 0 (Z.min (PyStr.len a + PyStr.len b) (PyStr.len a)))
    with (PyStr.len a) by lia.
  replace (PyStr.len a + PyStr.len b - PyStr.len a) with (PyStr.len b) by lia.
  unfold PyStr.len. rewrite !Nat2Z.id.
  rewrite substring_skip_prefix. apply substring_all.
Qed.

(** ** createSQL on clauses of the configuration's data model *)

Lemma foldM_app {A S : Type} (f : S -> A -> outcome S) (l1 l2 : list A) (s : S) :
  foldM f (l1 ++ l2)%list s = (s' <- foldM f l1 s ;; foldM f l2 s').
Proof.
  revert s. induction l1 as [|x l1 IH]; intros s; simpl; [reflexivity|].
  destruct (f s x); simpl; [apply IH | reflexivity].
Qed.

Lemma eqb_op_false (k : string) : k <> "op" -> String.eqb k "op" = false.
Proof. intros H. now apply String.eqb_neq. Qed.

(** The sorting loop sends a clause to the group its operator names. *)
Lemma join_entry_clause (c : Clause) (join_or join_and : list entry) :
  clause_key c <> "op" ->
  join_entry (join_or, join_and) (entry_of c)
  = Returned ((join_or ++ (if is_or c then [entry_of c] else []))%list,
              (join_and ++ (if negb (is_or c) && is_and c then [entry_of c] else []))%list).
Proof.
  intros Hk. unfold join_entry, entry_of, Py.getitem. simpl.
  rewrite (eqb_op_false _ Hk). simpl.
  unfold is_or, is_and.
  destruct (String.eqb (clause_op c) "or"); simpl.
  - now rewrite List.app_nil_r.
  - destruct (String.eqb (clause_op c) "and"); simpl;
      now rewrite ?List.app_nil_r.
Qed.

Lemma join_entries_clauses (cs : list Clause) (join_or join_and : list entry) :
  Forall (fun c => clause_key c <> "op") cs ->
  foldM join_entry (map entry_of cs) (join_or, join_and)
  = Returned ((join_or ++ map entry_of (filter is_or cs))%list,
              (join_and ++ map entry_of (filter (fun c => negb (is_or c) && is_and c) cs))%list).
Proof.
  intros H. revert join_or join_and.
  induction H as [|c cs Hc _ IH]; intros join_or join_and; simpl.
  - now rewrite !List.app_nil_r.
  - rewrite (join_entry_clause c _ _ Hc). simpl. rewrite IH.
    destruct (is_or c); simpl; [|destruct (is_and c); simpl];
      rewrite <- ?List.app_assoc; simpl; now rewrite ?List.app_nil_r.
Qed.

Lemma len_values (vs : list string) :
  Py.len (VList (map VStr vs)) = Returned (Z.of_nat (List.length vs)).
Proof. simpl. now rewrite List.length_map. Qed.

Lemma several_values (v w : string) (vs : list string) :
  (Z.of_nat (List.length (map VStr (v :: w :: vs))) =? 1) = false
  /\ (Z.of_nat (List.length (map VStr (v :: w :: vs))) >? 0) = true.
Proof.
  rewrite List.length_map. simpl List.length. split.
  - apply Z.eqb_neq. lia.
  - rewrite Z.gtb_ltb. apply Z.ltb_lt. lia.
Qed.

(** The value part of one clause, as the OR loop renders it. *)
Lemma jor_item_values (jor k : string) (vs : list string) :
  k <> "op" ->
  jor_item jor (k, VList (map VStr vs))
  = Returned (jor ++ "tags->>'" ++ k ++ "' " ++ spec_predicate vs ++ " OR ").
Proof.
  intros Hk. unfold jor_item.
  destruct vs as [|v [|w vs]].
  - simpl. now rewrite (eqb_op_false _ Hk).
  - simpl. rewrite (eqb_op_false _ Hk). simpl.
    now destruct (String.eqb v "not null").
  - destruct (several_values v w vs) as [E1 E2].
    change (map VStr (v :: w :: vs))
      with (VStr v :: map VStr (w :: vs)) at 1.
    cbv beta iota. rewrite (eqb_op_false _ Hk).
    unfold Py.len, Py.elements, bind. now rewrite E1, E2.
Qed.

(** The same in the AND loop, for a clause that has a value. *)
Lemma jand_item_values (jand k : string) (vs : list string) :
  k <> "op" -> vs <> [] ->
  jand_item jand (k, VList (map VStr vs))
  = Returned (jand ++ "tags->>'" ++ k ++ "' " ++ spec_predicate vs ++ " AND ").
Proof.
  intros Hk Hvs. unfold jand_item.
  destruct vs as [|v [|w vs]]; [contradiction| |].
  - simpl. rewrite (eqb_op_false _ Hk). simpl.
    now destruct (String.eqb v "not null").
  - destruct (several_values v w vs) as [E1 E2].
    rewrite (eqb_op_false _ Hk).
    unfold Py.len, Py.elements, bind. now rewrite E1, E2.
Qed.

(** An AND clause without values gets the connective twice. *)
Lemma jand_item_no_value (jand k : string) :
  k <> "op" ->
  jand_item jand (k, VList [])
  = Returned (jand ++ "tags->>'" ++ k ++ "' IS NOT NULL AND AND ").
Proof. intros Hk. unfold jand_item. simpl. now rewrite (eqb_op_false _ Hk). Qed.

Lemma jor_entry_clause (jor : string) (c : Clause) :
  clause_key c <> "op" ->
  foldM jor_item (entry_of c) jor = Returned (jor ++ spec_condition c ++ " OR ").
Proof.
  intros Hk. unfold entry_of. cbn [foldM].
  rewrite (jor_item_values _ _ _ Hk). cbn [bind jor_item String.eqb Ascii.eqb Bool.eqb].
  unfold spec_condition. now rewrite !app_assoc.
Qed.

Lemma jand_entry_clause (jand : string) (c : Clause) :
  clause_key c <> "op" -> clause_values c <> [] ->
  foldM jand_item (entry_of c) jand = Returned (jand ++ spec_condition c ++ " AND ").
Proof.
  intros Hk Hv. unfold entry_of. cbn [foldM].
  rewrite (jand_item_values _ _ _ Hk Hv). cbn [bind jand_item String.eqb Ascii.eqb Bool.eqb].
  unfold spec_condition. now rewrite !app_assoc.
Qed.

Lemma concat_cons (x : string) (l : list string) :
  String.concat "" (x :: l) = x ++ String.concat "" l.
Proof. destruct l; simpl; [now rewrite app_nil_r | reflexivity]. Qed.

Lemma spec_group_cons (connective : string) (c : Clause) (cs : list Clause) :
  spec_group connective (c :: cs)
  = spec_condition c ++ connective ++ spec_group connective cs.
Proof. unfold spec_group. cbn [map]. now rewrite concat_cons, app_assoc. Qed.

Lemma jor_group (cs : list Clause) (jor : string) :
  Forall (fun c => clause_key c <> "op") cs ->
  foldM (fun jor e => foldM jor_item e jor) (map entry_of cs) jor
  = Returned (jor ++ spec_group " OR " cs).
Proof.
  intros H. revert jor. induction H as [|c cs Hc _ IH]; intros jor; cbn [map foldM].
  - unfold spec_group. simpl. now rewrite app_nil_r.
  - rewrite (jor_entry_clause _ _ Hc). cbn [bind]. rewrite IH.
    now rewrite spec_group_cons, !app_assoc.
Qed.

Lemma jand_group (cs : list Clause) (jand : string) :
  Forall (fun c => clause_key c <> "op" /\ clause_values c <> []) cs ->
  foldM (fun jand e => foldM jand_item e jand) (map entry_of cs) jand
  = Returned (jand ++ spec_group " AND " cs).
Proof.
  intros H. revert jand.
  induction H as [|c cs [Hc Hv] _ IH]; intros jand; cbn [map foldM].
  - unfold spec_group. simpl. now rewrite app_nil_r.
  - rewrite (jand_entry_clause _ _ Hc Hv). cbn [bind]. rewrite IH.
    now rewrite spec_group_cons, !app_assoc.
Qed.

Lemma or_is_not_and (c : Clause) : is_or c = true -> is_and c = false.
Proof.
  unfold is_or, is_and. intros H. apply String.eqb_eq in H. now rewrite H.
Qed.

Lemma and_group_filter (cs : list Clause) :
  filter (fun c => negb (is_or c) && is_and c) cs = filter is_and cs.
Proof.
  apply filter_ext. intros c. destruct (is_or c) eqn:E; [|reflexivity].
  now rewrite (or_is_not_and _ E).
Qed.

Lemma wf_or_group (cs : list Clause) :
  Forall wf_clause cs ->
  Forall (fun c => clause_key c <> "op") (filter is_or cs).
Proof.
  intros H. apply Forall_forall. intros c Hc. apply filter_In in Hc.
  rewrite Forall_forall in H. now destruct (H c (proj1 Hc)).
Qed.

Lemma wf_and_group (cs : list Clause) :
  Forall wf_clause cs ->
  Forall (fun c => clause_key c <> "op" /\ clause_values c <> [])
         (filter is_and cs).
Proof.
  intros H. apply Forall_forall. intros c Hc. apply filter_In in Hc.
  rewrite Forall_forall in H. destruct (H c (proj1 Hc)) as (Hk & _ & Hv).
  split; [assumption | apply Hv, Hc].
Qed.

Lemma wf_keys (cs : list Clause) :
  Forall wf_clause cs -> Forall (fun c => clause_key c <> "op") cs.
Proof. apply Forall_impl. now intros c (Hk & _). Qed.

Lemma wf_groups_nonempty (cs : list Clause) :
  Forall wf_clause cs -> cs <> [] ->
  filter is_and cs <> [] \/ (filter is_and cs = [] /\ filter is_or cs <> []).
Proof.
  intros H Hne. destruct (filter is_and cs) eqn:Ea; [right | now left].
  split; [reflexivity|].
  destruct cs as [|c cs]; [contradiction|].
  inversion H as [|? ? (_ & [Ho | Ha] & _) _]; subst.
  - simpl. rewrite Ho. discriminate.
  - simpl in Ea. rewrite Ha in Ea. discriminate.
Qed.

(** What createSQL_table computes on clauses of the data model. *)
Lemma createSQL_table_cut (config : QueryConfig) (allgeom : bool)
  (table select : string) (cs : list Clause) :
  select_clause config allgeom table = Returned select ->
  Py.getitem (config_where config) table = Returned (map entry_of cs) ->
  Forall wf_clause cs ->
  createSQL_table config allgeom table
  = Returned (cut_last_word
                (raw_query select table
                   (spec_group " OR " (filter is_or cs))
                   (spec_group " AND " (filter is_and cs)))).
Proof.
  intros Hsel Hwhere Hwf. unfold createSQL_table.
  rewrite Hsel, Hwhere. cbn [bind].
  rewrite (join_entries_clauses cs [] [] (wf_keys cs Hwf)). cbn [bind app].
  rewrite and_group_filter.
  rewrite (jor_group _ "" (wf_or_group cs Hwf)). cbn [bind].
  rewrite (jand_group _ "" (wf_and_group cs Hwf)). cbn [bind].
  reflexivity.
Qed.

(** ** The end of a statement *)

Lemma last_char_app (a b : string) :
  b <> "" -> last_char (a ++ b) = last_char b.
Proof.
  intros Hb. induction a as [|x a IH]; [reflexivity|].
  simpl. rewrite IH. destruct (a ++ b) eqn:E; [|reflexivity].
  destruct a; simpl in E; [contradiction | discriminate].
Qed.

Lemma endswith_last_char (s suffix : string) :
  suffix <> "" -> endswith s suffix = true -> last_char s = last_char suffix.
Proof.
  intros Hs. induction s as [|x s IH]; cbn [endswith]; intros H.
  - rewrite orb_false_r in H. apply String.eqb_eq in H. now subst.
  - apply orb_true_iff in H. destruct H as [H | H].
    + apply String.eqb_eq in H. now rewrite <- H.
    + rewrite <- (IH H). destruct s; [|reflexivity].
      cbn [endswith] in H. rewrite orb_false_r in H.
      apply String.eqb_eq in H. now subst.
Qed.

Lemma repr_tuple_last (v w : pyval) (l : list pyval) :
  last_char (Py.repr_tuple (v :: w :: l)) = Some ")"%char.
Proof.
  unfold Py.repr_tuple.
  rewrite <- (app_assoc "(" _ ")").
  now rewrite last_char_app.
Qed.

Lemma spec_predicate_last (vs : list string) :
  exists x, last_char (spec_predicate vs) = Some x /\ closes_condition x.
Proof.
  unfold closes_condition. destruct vs as [|v [|w vs]]; cbn [spec_predicate].
  - exists "L"%char. simpl. auto.
  - destruct (String.eqb v "not null").
    + exists "L"%char. simpl. auto.
    + exists "'"%char. split; [|auto].
      rewrite <- (app_assoc "='" v "'").
      now rewrite last_char_app.
  - exists ")"%char. split; [|auto].
    rewrite last_char_app; [apply (repr_tuple_last (VStr v) (VStr w)) |].
    unfold Py.repr_tuple. simpl. discriminate.
Qed.

Lemma spec_predicate_nonempty (vs : list string) : spec_predicate vs <> "".
Proof.
  destruct (spec_predicate_last vs) as (x & H & _).
  intros E. rewrite E in H. discriminate.
Qed.

(** A text that ends with a rendered clause ends with no connective. *)
Lemma condition_ends_statement (a : string) (c : Clause) :
  endswith (a ++ spec_condition c) " AND" = false
  /\ endswith (a ++ spec_condition c) " OR" = false.
Proof.
  destruct (spec_predicate_last (clause_values c)) as (x & Hx & Hc).
  assert (Hl : last_char (a ++ spec_condition c) = Some x).
  { unfold spec_condition. rewrite <- !app_assoc.
    rewrite last_char_app by apply spec_predicate_nonempty. exact Hx. }
  split.
  - destruct (endswith (a ++ spec_condition c) " AND") eqn:E; [|reflexivity].
    apply endswith_last_char in E; [|discriminate].
    rewrite Hl in E. simpl in E. injection E as ->.
    destruct Hc as [H | [H | H]]; discriminate.
  - destruct (endswith (a ++ spec_condition c) " OR") eqn:E; [|reflexivity].
    apply endswith_last_char in E; [|discriminate].
    rewrite Hl in E. simpl in E. injection E as ->.
    destruct Hc as [H | [H | H]]; discriminate.
Qed.

Lemma spec_group_snoc (connective : string) (cs : list Clause) (c : Clause) :
  spec_group connective (cs ++ [c])
  = spec_group connective cs ++ spec_condition c ++ connective.
Proof.
  induction cs as [|d cs IH].
  - simpl app. rewrite spec_group_cons. unfold spec_group. simpl.
    now rewrite !app_nil_r.
  - simpl app. rewrite !spec_group_cons, IH. now rewrite !app_assoc.
Qed.

(** ** The statement of one table *)

Lemma select_clause_returns (config : QueryConfig) (allgeom : bool)
  (table : string) (entries : list entry) :
  Py.getitem (config_select config) table = Returned entries ->
  exists select, select_clause config allgeom table = Returned select.
Proof. intros H. unfold select_clause. rewrite H. cbn [bind]. eauto. Qed.

Lemma no_clause_statement (select table : string) :
  raw_query select table (spec_group " OR " []) (spec_group " AND " [])
  = (select ++ " FROM " ++ table) ++ " WHERE  ".
Proof. unfold raw_query. now rewrite !app_assoc. Qed.

Lemma and_last_statement (select table jor : string) (cs : list Clause) (c : Clause) :
  raw_query select table jor (spec_group " AND " (cs ++ [c]))
  = ((select ++ " FROM " ++ table ++ " WHERE " ++ jor ++ " "
        ++ spec_group " AND " cs) ++ spec_condition c) ++ " AND ".
Proof. unfold raw_query. rewrite spec_group_snoc. now rewrite !app_assoc. Qed.

Lemma or_last_statement (select table : string) (cs : list Clause) (c : Clause) :
  raw_query select table (spec_group " OR " (cs ++ [c])) (spec_group " AND " [])
  = ((select ++ " FROM " ++ table ++ " WHERE " ++ spec_group " OR " cs)
       ++ spec_condition c) ++ " OR  ".
Proof. unfold raw_query. rewrite spec_group_snoc. now rewrite !app_assoc. Qed.

Lemma createSQL_table_trimmed (config : QueryConfig) (allgeom : bool)
  (clauses_of : string -> list Clause) (table select : string) :
  select_clause config allgeom table = Returned select ->
  Py.getitem (config_where config) table
  = Returned (map entry_of (clauses_of table)) ->
  Forall wf_clause (clauses_of table) ->
  exists query,
    createSQL_table config allgeom table = Returned query
    /\ trimmed_statement config allgeom clauses_of table query.
Proof.
  intros Hsel Hwhere Hwf.
  rewrite (createSQL_table_cut _ _ _ _ _ Hsel Hwhere Hwf).
  unfold trimmed_statement.
  destruct (clauses_of table) as [|c0 cs0] eqn:Ecs.
  - exists (select ++ " FROM " ++ table). cbn [filter].
    rewrite no_clause_statement, cut_WHERE.
    split; [reflexivity|]. exists select.
    split; [assumption|]. split; [apply no_clause_statement|].
    split; [intros H; now elim H | reflexivity].
  - rewrite <- Ecs in *.
    assert (Hne : clauses_of table <> []) by (rewrite Ecs; discriminate).
    destruct (wf_groups_nonempty _ Hwf Hne) as [Ha | [Ha Ho]].
    + destruct (exists_last Ha) as (ands & c & Eands).
      rewrite Eands, and_last_statement, cut_AND.
      eexists; split; [reflexivity|]. exists select.
      split; [assumption|]. split.
      { rewrite and_last_statement. f_equal. now destruct ands. }
      split; [intros _; apply condition_ends_statement|].
      intros H; now elim Hne.
    + destruct (exists_last Ho) as (ors & c & Eors).
      rewrite Ha, Eors, or_last_statement, cut_OR.
      eexists; split; [reflexivity|]. exists select.
      split; [assumption|]. split.
      { rewrite or_last_statement. f_equal. now destruct ors. }
      split; [intros _; apply condition_ends_statement|].
      intros H; now elim Hne.
Qed.

(** The loop over the declared tables collects one statement per table. *)
Lemma createSQL_collects (config : QueryConfig) (allgeom : bool)
  (P : string -> string -> Prop) (declared : list string) (sql : list string) :
  (forall table, In table declared ->
     exists query, createSQL_table config allgeom table = Returned query
                   /\ P table query) ->
  exists queries,
    foldM (fun sql table =>
             query <- createSQL_table config allgeom table ;;
             Returned ((sql ++ [query])%list))
          declared sql
    = Returned (sql ++ queries)%list
    /\ Forall2 P declared queries.
Proof.
  revert sql. induction declared as [|t ts IH]; intros sql H.
  - exists []. cbn [foldM]. now rewrite List.app_nil_r.
  - destruct (H t (or_introl eq_refl)) as (q & Hq & HP).
    destruct (IH (sql ++ [q])%list (fun t' Ht' => H t' (or_intror Ht')))
      as (qs & Hqs & HF).
    exists (q :: qs). cbn [foldM]. rewrite Hq. cbn [bind]. rewrite Hqs.
    rewrite <- List.app_assoc. split; [reflexivity | now constructor].
Qed.

(** C2 (as amended).  For a configuration whose declared tables have their
    selections and whose where entries are clauses of the data model (one
    key, operator "or" or "and", string values, at least one value in an AND
    clause), createSQL returns one statement per declared table.  Each is
    the text SELECT ... FROM table WHERE followed by the OR clauses, each
    with a trailing OR, a blank, and the AND clauses, each with a trailing
    AND, from which the last connective is cut (the bare WHERE when the
    table has no clause).  So the two groups are joined by the OR that ends
    the OR group, a statement with a clause ends with no connective, and a
    table without clauses gives SELECT ... FROM table. *)
Theorem createSQL_trims_last_connective (config : QueryConfig)
  (allgeom : bool) (clauses_of : string -> list Clause) :
  (forall table, In table (config_tables config) ->
     (exists entries,
        Py.getitem (config_select config) table = Returned entries)
     /\ Py.getitem (config_where config) table
        = Returned (map entry_of (clauses_of table))
     /\ Forall wf_clause (clauses_of table)) ->
  exists sql,
    createSQL config allgeom = Returned sql
    /\ Forall2 (trimmed_statement config allgeom clauses_of)
               (config_tables config) sql.
Proof.
  intros H. unfold createSQL.
  destruct (createSQL_collects config allgeom
              (trimmed_statement config allgeom clauses_of)
              (config_tables config) []) as (qs & Hqs & HF).
  - intros table Ht. destruct (H table Ht) as ((entries & Hsel) & Hwhere & Hwf).
    destruct (select_clause_returns config allgeom table entries Hsel)
      as (select & Hs).
    exact (createSQL_table_trimmed config allgeom clauses_of table select
             Hs Hwhere Hwf).
  - exists qs. split; assumption.
Qed.

Lemma createSQL_trims_last_connective_witness :
  (forall table, In table (config_tables Inputs.or_and) ->
     (exists entries,
        Py.getitem (config_select Inputs.or_and) table = Returned entries)
     /\ Py.getitem (config_where Inputs.or_and) table
        = Returned (map entry_of (Inputs.or_and_clauses table))
     /\ Forall wf_clause (Inputs.or_and_clauses table))
  /\ exists sql,
       createSQL Inputs.or_and true = Returned sql
       /\ Forall2 (trimmed_statement Inputs.or_and true Inputs.or_and_clauses)
                  (config_tables Inputs.or_and) sql.
Proof.
  assert (H : forall table, In table (config_tables Inputs.or_and) ->
     (exists entries,
        Py.getitem (config_select Inputs.or_and) table = Returned entries)
     /\ Py.getitem (config_where Inputs.or_and) table
        = Returned (map entry_of (Inputs.or_and_clauses table))
     /\ Forall wf_clause (Inputs.or_and_clauses table)).
  { intros table [<- | []].
    split; [exists []; reflexivity|]. split; [reflexivity|].
    constructor; [|constructor; [|constructor]]; unfold wf_clause;
      (split; [discriminate | split; [auto | discriminate]]). }
  split; [exact H|].
  exact (createSQL_trims_last_connective Inputs.or_and true
           Inputs.or_and_clauses H).
Defined.

(** C2, as stated, fails: with one clause in each group the statement has
    no AND at all; the two groups are joined by the OR that ends the OR
    group. *)
Lemma createSQL_groups_joined_by_OR :
  let query := "SELECT ST_AsText(geom), osm_id, version FROM nodes WHERE tags->>'amenity' ='school' OR  tags->>'building' ='yes'" in
  createSQL Inputs.or_and true = Returned [query]
  /\ PyStr.find query " AND " = -1.
Proof. split; reflexivity. Qed.

(** C1.  An AND clause without values is not rendered as IS NOT NULL: its
    text is IS NOT NULL AND followed by the connective AND, so the statement
    keeps a dangling AND after the cut, while the same clause in the OR
    group gives IS NOT NULL. *)
Theorem createSQL_and_clause_without_value :
  createSQL Inputs.and_no_value true
  = Returned ["SELECT ST_AsText(geom), osm_id, version FROM nodes WHERE  tags->>'k' IS NOT NULL AND"]
  /\ createSQL Inputs.or_no_value true
     = Returned ["SELECT ST_AsText(geom), osm_id, version FROM nodes WHERE tags->>'k' IS NOT NULL"].
Proof. split; reflexivity. Qed.

(** ** uriParser *)

Lemma plain_parts (s : string) :
  plain s = true ->
  lacks ":" s = true /\ lacks "@" s = true /\ lacks "/" s = true.
Proof.
  unfold plain. intros H. apply andb_true_iff in H as [H H3].
  apply andb_true_iff in H as [H1 H2]. auto.
Qed.

Lemma len_positive (s : string) : s <> "" -> 0 < PyStr.len s.
Proof. destruct s; [congruence|]. unfold PyStr.len. simpl. lia. Qed.

Lemma len_cons (x : ascii) (s : string) :
  PyStr.len (String x s) = 1 + PyStr.len s.
Proof. unfold PyStr.len. simpl String.length. lia. Qed.

(** Settles a comparison of two indices once their values are known. *)
Ltac settle_comparisons :=
  repeat match goal with
         | |- context [?a >? ?b] =>
             first [ replace (a >? b) with true
                       by (symmetry; rewrite Z.gtb_ltb; apply Z.ltb_lt; lia)
                   | replace (a >? b) with false
                       by (symmetry; rewrite Z.gtb_ltb; apply Z.ltb_ge; lia) ]
         | |- context [?a <? ?b] =>
             first [ replace (a <? b) with true
                       by (symmetry; apply Z.ltb_lt; lia)
                   | replace (a <? b) with false
                       by (symmetry; apply Z.ltb_ge; lia) ]
         end.

(** The four separator indices of user:pass/name. *)
Lemma shorthand_indices (user pass name : string) :
  plain user = true -> plain pass = true ->
  lacks ":" name = true -> lacks "@" name = true ->
  let source := user ++ ":" ++ pass ++ "/" ++ name in
  PyStr.find source ":" = PyStr.len user
  /\ PyStr.rfind source ":" = PyStr.len user
  /\ PyStr.find source "@" = -1
  /\ PyStr.find source "/" = PyStr.len user + 1 + PyStr.len pass.
Proof.
  intros Hu Hp Hn1 Hn2 source.
  destruct (plain_parts _ Hu) as (Hu1 & Hu2 & Hu3).
  destruct (plain_parts _ Hp) as (Hp1 & Hp2 & Hp3).
  unfold PyStr.find, PyStr.rfind. repeat split.
  - exact (find_from_first ":" user (pass ++ "/" ++ name) 0 Hu1).
  - apply (rfind_from_last ":" user (pass ++ "/" ++ name) 0); [|lia].
    rewrite lacks_app, Hp1. cbn. exact Hn1.
  - apply find_from_lacks. unfold source.
    rewrite lacks_app, Hu2. cbn. rewrite lacks_app, Hp2. cbn. exact Hn2.
  - replace source with ((user ++ ":" ++ pass) ++ String "/" name)
      by (unfold source; now rewrite !app_assoc).
    rewrite find_from_first.
    + rewrite len_app. cbn [append]. rewrite len_cons. lia.
    + rewrite lacks_app, Hu3. cbn. exact Hp3.
Qed.

(** Computes the length of a text made of parts and separators. *)
Ltac measure :=
  rewrite ?len_app; cbn [append]; rewrite ?len_app, ?len_cons;
  change (PyStr.len "") with 0; lia.

(** A bare name. *)
Lemma uriParser_name (name : string) :
  plain name = true ->
  uriParser name = mkUri (Some name) (Some "localhost") None None None.
Proof.
  intros Hn. destruct (plain_parts _ Hn) as (H1 & H2 & H3).
  unfold uriParser, PyStr.find, PyStr.rfind.
  rewrite (find_from_lacks _ _ _ H1), (find_from_lacks _ _ _ H2),
    (find_from_lacks _ _ _ H3), (rfind_from_lacks _ _ _ H1).
  reflexivity.
Qed.

(** user@host/name *)
Lemma uriParser_user_host (user host name : string) :
  user <> "" -> host <> "" ->
  plain user = true -> plain host = true -> lacks ":" name = true ->
  uriParser (user ++ "@" ++ host ++ "/" ++ name)
  = mkUri (Some name) (Some host) (Some user) None None.
Proof.
  intros Hune Hhne Hu Hh Hn.
  destruct (plain_parts _ Hu) as (Hu1 & Hu2 & Hu3).
  destruct (plain_parts _ Hh) as (Hh1 & Hh2 & Hh3).
  pose proof (len_positive _ Hune) as Hupos.
  pose proof (len_nonneg host) as Hhpos.
  set (source := user ++ "@" ++ host ++ "/" ++ name).
  assert (Ecolon : PyStr.find source ":" = -1).
  { apply find_from_lacks. unfold source.
    rewrite lacks_app, Hu1. cbn. rewrite lacks_app, Hh1. cbn. exact Hn. }
  assert (Ercolon : PyStr.rfind source ":" = -1).
  { apply rfind_from_lacks. unfold source.
    rewrite lacks_app, Hu1. cbn. rewrite lacks_app, Hh1. cbn. exact Hn. }
  assert (Eat : PyStr.find source "@" = PyStr.len user)
    by exact (find_from_first "@" user (host ++ "/" ++ name) 0 Hu2).
  assert (Eslash : PyStr.find source "/" = PyStr.len user + 1 + PyStr.len host).
  { replace source with ((user ++ "@" ++ host) ++ String "/" name)
      by (unfold source; now rewrite !app_assoc).
    unfold PyStr.find. rewrite find_from_first; [measure|].
    rewrite lacks_app, Hu3. cbn. exact Hh3. }
  unfold uriParser. fold source. rewrite Ecolon, Ercolon, Eat, Eslash.
  settle_comparisons. cbn [andb].
  assert (Ename : PyStr.slice source
                    (Some (PyStr.len user + 1 + PyStr.len host + 1)) None
                  = name).
  { replace (PyStr.len user + 1 + PyStr.len host + 1)
      with (PyStr.len (user ++ "@" ++ host ++ "/")) by measure.
    replace source with ((user ++ "@" ++ host ++ "/") ++ name)
      by (unfold source; now rewrite !app_assoc).
    apply slice_from. }
  assert (Ehost : PyStr.slice source (Some (PyStr.len user + 1))
                    (Some (PyStr.len user + 1 + PyStr.len host))
                  = host).
  { replace (PyStr.len user + 1) with (PyStr.len (user ++ "@")) by measure.
    replace source with ((user ++ "@") ++ host ++ "/" ++ name)
      by (unfold source; now rewrite !app_assoc).
    apply slice_middle. }
  rewrite Ename, Ehost. unfold source at 1. rewrite slice_to_prefix.
  cbn [falsy_str]. apply String.eqb_neq in Hhne. now rewrite Hhne.
Qed.

(** user:pass@host:port/name *)
Lemma uriParser_full (user pass host port name : string) :
  user <> "" -> host <> "" ->
  plain user = true -> plain pass = true ->
  plain host = true -> plain port = true -> lacks ":" name = true ->
  uriParser (user ++ ":" ++ pass ++ "@" ++ host ++ ":" ++ port ++ "/" ++ name)
  = mkUri (Some name) (Some host) (Some user) (Some pass) (Some port).
Proof.
  intros Hune Hhne Hu Hp Hh Hq Hn.
  destruct (plain_parts _ Hu) as (Hu1 & Hu2 & Hu3).
  destruct (plain_parts _ Hp) as (Hp1 & Hp2 & Hp3).
  destruct (plain_parts _ Hh) as (Hh1 & Hh2 & Hh3).
  destruct (plain_parts _ Hq) as (Hq1 & Hq2 & Hq3).
  pose proof (len_positive _ Hune) as Hupos.
  pose proof (len_nonneg pass) as Hppos.
  pose proof (len_nonneg host) as Hhpos.
  pose proof (len_nonneg port) as Hqpos.
  set (source := user ++ ":" ++ pass ++ "@" ++ host ++ ":" ++ port ++ "/" ++ name).
  assert (Ecolon : PyStr.find source ":" = PyStr.len user)
    by exact (find_from_first ":" user
                (pass ++ "@" ++ host ++ ":" ++ port ++ "/" ++ name) 0 Hu1).
  assert (Ercolon : PyStr.rfind source ":"
                    = PyStr.len user + 1 + PyStr.len pass + 1 + PyStr.len host).
  { replace source
      with ((user ++ ":" ++ pass ++ "@" ++ host) ++ String ":" (port ++ "/" ++ name))
      by (unfold source; now rewrite !app_assoc).
    unfold PyStr.rfind. rewrite rfind_from_last; [measure| |lia].
    rewrite lacks_app, Hq1. cbn. exact Hn. }
  assert (Eat : PyStr.find source "@" = PyStr.len user + 1 + PyStr.len pass).
  { replace source
      with ((user ++ ":" ++ pass) ++ String "@" (host ++ ":" ++ port ++ "/" ++ name))
      by (unfold source; now rewrite !app_assoc).
    unfold PyStr.find. rewrite find_from_first; [measure|].
    rewrite lacks_app, Hu2. cbn. exact Hp2. }
  assert (Eslash : PyStr.find source "/"
                   = PyStr.len user + 1 + PyStr.len pass + 1 + PyStr.len host
                     + 1 + PyStr.len port).
  { replace source
      with ((user ++ ":" ++ pass ++ "@" ++ host ++ ":" ++ port) ++ String "/" name)
      by (unfold source; now rewrite !app_assoc).
    unfold PyStr.find. rewrite find_from_first; [measure|].
    rewrite lacks_app, Hu3. cbn. rewrite lacks_app, Hp3. cbn.
    rewrite lacks_app, Hh3. cbn. exact Hq3. }
  unfold uriParser. fold source. rewrite Ecolon, Ercolon, Eat, Eslash.
  settle_comparisons. cbn [andb].
  assert (Ename : PyStr.slice source
                    (Some (PyStr.len user + 1 + PyStr.len pass + 1
                           + PyStr.len host + 1 + PyStr.len port + 1)) None
                  = name).
  { replace (PyStr.len user + 1 + PyStr.len pass + 1 + PyStr.len host + 1
             + PyStr.len port + 1)
      with (PyStr.len (user ++ ":" ++ pass ++ "@" ++ host ++ ":" ++ port ++ "/"))
      by measure.
    replace source
      with ((user ++ ":" ++ pass ++ "@" ++ host ++ ":" ++ port ++ "/") ++ name)
      by (unfold source; now rewrite !app_assoc).
    apply slice_from. }
  assert (Epass : PyStr.slice source (Some (PyStr.len user + 1))
                    (Some (PyStr.len user + 1 + PyStr.len pass))
                  = pass).
  { replace (PyStr.len user + 1) with (PyStr.len (user ++ ":")) by measure.
    replace source
      with ((user ++ ":") ++ pass ++ "@" ++ host ++ ":" ++ port ++ "/" ++ name)
      by (unfold source; now rewrite !app_assoc).
    apply slice_middle. }
  assert (Ehost : PyStr.slice source
                    (Some (PyStr.len user + 1 + PyStr.len pass + 1))
                    (Some (PyStr.len user + 1 + PyStr.len pass + 1
                           + PyStr.len host))
                  = host).
  { replace (PyStr.len user + 1 + PyStr.len pass + 1)
      with (PyStr.len (user ++ ":" ++ pass ++ "@")) by measure.
    replace source
      with ((user ++ ":" ++ pass ++ "@") ++ host ++ ":" ++ port ++ "/" ++ name)
      by (unfold source; now rewrite !app_assoc).
    apply slice_middle. }
  assert (Eport : PyStr.slice source
                    (Some (PyStr.len user + 1 + PyStr.len pass + 1
                           + PyStr.len host + 1))
                    (Some (PyStr.len user + 1 + PyStr.len pass + 1
                           + PyStr.len host + 1 + PyStr.len port))
                  = port).
  { replace (PyStr.len user + 1 + PyStr.len pass + 1 + PyStr.len host + 1)
      with (PyStr.len (user ++ ":" ++ pass ++ "@" ++ host ++ ":")) by measure.
    replace source
      with ((user ++ ":" ++ pass ++ "@" ++ host ++ ":") ++ port ++ "/" ++ name)
      by (unfold source; now rewrite !app_assoc).
    apply slice_middle. }
  rewrite Ename, Epass, Ehost, Eport. unfold source at 1.
  rewrite slice_to_prefix.
  cbn [falsy_str]. apply String.eqb_neq in Hhne. now rewrite Hhne.
Qed.

(** For every text of the shape user:pass/name, the password is also given
    as the port. *)
Lemma uriParser_shorthand (user pass name : string) :
  user <> "" ->
  plain user = true -> plain pass = true ->
  lacks ":" name = true -> lacks "@" name = true ->
  uriParser (user ++ ":" ++ pass ++ "/" ++ name)
  = mkUri (Some name) (Some "localhost") (Some user) (Some pass) (Some pass).
Proof.
  intros Hne Hu Hp Hn1 Hn2.
  destruct (shorthand_indices user pass name Hu Hp Hn1 Hn2)
    as (Ecolon & Ercolon & Eat & Eslash).
  pose proof (len_positive _ Hne) as Hpos.
  pose proof (len_nonneg pass) as Hpass.
  unfold uriParser. rewrite Ecolon, Ercolon, Eat, Eslash.
  settle_comparisons. cbn [andb falsy_str].
  assert (Ename : PyStr.slice (user ++ ":" ++ pass ++ "/" ++ name)
                    (Some (PyStr.len user + 1 + PyStr.len pass + 1)) None
                  = name).
  { replace (PyStr.len user + 1 + PyStr.len pass + 1)
      with (PyStr.len (user ++ ":" ++ pass ++ "/"))
      by (rewrite !len_app; cbn [append]; rewrite !len_cons;
          change (PyStr.len "") with 0; lia).
    replace (user ++ ":" ++ pass ++ "/" ++ name)
      with ((user ++ ":" ++ pass ++ "/") ++ name)
      by (now rewrite !app_assoc).
    apply slice_from. }
  assert (Epass : PyStr.slice (user ++ ":" ++ pass ++ "/" ++ name)
                    (Some (PyStr.len user + 1))
                    (Some (PyStr.len user + 1 + PyStr.len pass))
                  = pass).
  { replace (PyStr.len user + 1) with (PyStr.len (user ++ ":"))
      by (rewrite len_app; change (PyStr.len ":") with 1; lia).
    replace (user ++ ":" ++ pass ++ "/" ++ name)
      with ((user ++ ":") ++ pass ++ "/" ++ name)
      by (now rewrite !app_assoc).
    apply slice_middle. }
  rewrite Ename, Epass, slice_to_prefix. reflexivity.
Qed.



(** Whenever the first colon is not at the start, the user is the text
    before it, wherever the at sign is. *)
Lemma uriParser_user_before_colon (source : string) :
  0 < PyStr.find source ":" ->
  dbuser (uriParser source)
  = Some (PyStr.slice source None (Some (PyStr.find source ":"))).
Proof.
  intros H. unfold uriParser. cbn [dbuser].
  destruct (PyStr.find source ":" >? 0) eqn:E1;
    [|rewrite Z.gtb_ltb in E1; apply Z.ltb_ge in E1; lia].
  destruct (PyStr.find source ":" <? 0) eqn:E2;
    [apply Z.ltb_lt in E2; lia | reflexivity].
Qed.

(** C7.  In user@host:5432/name the first colon comes after the at sign,
    and the user field is the whole prefix up to that colon. *)
Theorem uriParser_user_spans_at_sign :
  PyStr.find "user@host:5432/name" "@" = 4
  /\ PyStr.find "user@host:5432/name" ":" = 9
  /\ dbuser (uriParser "user@host:5432/name") = Some "user@host".
Proof. repeat split; reflexivity. Qed.

(** C6.  The shorthand user:pass/name names no port, and the port comes
    out as the password. *)
Theorem uriParser_shorthand_port :
  uriParser "user:pass/name"
  = mkUri (Some "name") (Some "localhost") (Some "user") (Some "pass")
          (Some "pass").
Proof. reflexivity. Qed.

(** The other three shapes of a connection string. *)
Lemma uriParser_canonical_shapes :
  uriParser "name" = mkUri (Some "name") (Some "localhost") None None None
  /\ uriParser "user@host/name"
     = mkUri (Some "name") (Some "host") (Some "user") None None
  /\ uriParser "user:pass@host:port/name"
     = mkUri (Some "name") (Some "host") (Some "user") (Some "pass")
             (Some "port").
Proof. repeat split; reflexivity. Qed.

(** ** createJson *)

(** C5.  A clause declared with the operator "or" is recorded under
    join_and as well as under join_or. *)
Theorem createJson_records_both_groups (boundary : pyval) :
  createJson_feature Inputs.or_school boundary
  = Returned
      (VDict
         [("geometry", boundary);
          ("geometryType", VList [VStr "point"]);
          ("filters",
           VDict
             [("tags",
               VDict
                 [("point",
                   VDict
                     [("join_or", VDict [("amenity", VList [VStr "school"])]);
                      ("join_and", VDict [("amenity", VList [VStr "school"])])]);
                  ("polygon",
                   VDict [("join_or", VDict []); ("join_and", VDict [])]);
                  ("line",
                   VDict [("join_or", VDict []); ("join_and", VDict [])])])])]).
Proof. reflexivity. Qed.

(** ** The polling loop *)

Lemma poll_loop_ext (s1 s2 : Session) (u1 u2 : string) :
  (forall st, poll_step s1 u1 st = poll_step s2 u2 st) ->
  forall fuel st, poll_loop fuel s1 u1 st = poll_loop fuel s2 u2 st.
Proof.
  intros H fuel. induction fuel as [|fuel IH]; intros st; cbn [poll_loop].
  - reflexivity.
  - rewrite H. destruct (elapsed_time st <? max_polling_duration); [|reflexivity].
    destruct (poll_step s2 u2 st) as [[st' | j] | e]; auto.
Qed.

Lemma poll_loop_more_fuel (session : Session) (url : string) (extra : nat) :
  forall fuel st r,
    poll_loop fuel session url st = Some r ->
    poll_loop (fuel + extra) session url st = Some r.
Proof.
  induction fuel as [|fuel IH]; intros st r; cbn [poll_loop Nat.add].
  - destruct (elapsed_time st <? max_polling_duration) eqn:E; [discriminate|].
    intros H. destruct extra; cbn [poll_loop]; now rewrite E.
  - destruct (elapsed_time st <? max_polling_duration); [|auto].
    destruct (poll_step session url st) as [[st' | j] | e]; auto.
Qed.

Lemma poll_step_status (session : Session) (url : string) (status : pyval)
  (st : poll_state) :
  answers_status session url status ->
  poll_step session url st
  = if Py.eq_str status "PENDING" then
      let polling_interval :=
        if elapsed_time st >? 60 then 10 else polling_interval st in
      Returned (inl (mkPoll (elapsed_time st + polling_interval)
                            polling_interval (S (polls st))
                            (slept st ++ [polling_interval])%list))
    else if Py.eq_str status "SUCCESS"
    then match json match get session url (polls st) with
                    | Returned r => r
                    | Raised _ => mkResponse 0 (Returned VNone)
                    end with
         | Returned j => Returned (inr j)
         | Raised e => Raised e
         end
    else Returned (inl (mkPoll (elapsed_time st) (polling_interval st)
                               (S (polls st)) (slept st))).
Proof.
  intros H. destruct (H (polls st)) as (r & body & Hg & Hj & Hs).
  unfold poll_step. rewrite Hg. cbn [bind]. rewrite Hj.
  cbn [bind Py.dict_get]. rewrite Hs. reflexivity.
Qed.

(** A status that is neither PENDING nor SUCCESS leaves the clock where it
    is, so the loop is still running after any number of passes. *)
Lemma poll_loop_other_status (session : Session) (url : string)
  (status : pyval) :
  answers_status session url status ->
  Py.eq_str status "PENDING" = false ->
  Py.eq_str status "SUCCESS" = false ->
  forall fuel st,
    elapsed_time st < max_polling_duration ->
    poll_loop fuel session url st = None.
Proof.
  intros H Hp Hs fuel. induction fuel as [|fuel IH]; intros st Hlt;
    cbn [poll_loop]; apply Z.ltb_lt in Hlt as Hb; rewrite Hb;
    [reflexivity|].
  rewrite (poll_step_status _ _ _ _ H), Hp, Hs. now apply IH.
Qed.

(** With PENDING answers only, the loop gives up after 85 requests: 31
    waits of 2 seconds, 54 of 10, and a clock at 602. *)
Lemma poll_loop_pending (session : Session) (url : string) (fuel : nat) :
  answers_status session url (VStr "PENDING") ->
  (85 <= fuel)%nat ->
  poll_loop fuel session url initial_poll_state
  = Some (Returned (mkPoll 602 10 85 (repeat 2 31 ++ repeat 10 54)%list,
                    Exhausted)).
Proof.
  intros H Hfuel.
  replace fuel with (85 + (fuel - 85))%nat by lia.
  apply poll_loop_more_fuel.
  rewrite (poll_loop_ext session (Inputs.stuck "PENDING") url "").
  - vm_compute. reflexivity.
  - intros st. rewrite (poll_step_status _ _ _ _ H).
    rewrite (poll_step_status _ "" (VStr "PENDING")); [reflexivity|].
    intros n. now exists (Inputs.status_response "PENDING"),
                         [("status", VStr "PENDING")].
Qed.

Lemma pending_states_in_budget (k : nat) :
  (k < 85)%nat -> elapsed_time (pending_state k) < max_polling_duration.
Proof.
  intros Hk.
  assert (H : forallb (fun k => elapsed_time (pending_state k)
                                <? max_polling_duration) (seq 0 85) = true)
    by (vm_compute; reflexivity).
  rewrite forallb_forall in H. apply Z.ltb_lt, H, in_seq. lia.
Qed.

(** When every answer is PENDING or SUCCESS the loop is over within 85
    passes, with a clock that does not exceed 602. *)
Lemma poll_loop_returns (session : Session) (url : string) :
  answers_pending_or_success session url ->
  exists st exit,
    poll_loop 85 session url initial_poll_state = Some (Returned (st, exit))
    /\ elapsed_time st <= 602.
Proof.
  intros H.
  assert (G : forall m, (m <= 85)%nat ->
            exists st exit,
              poll_loop m session url (pending_state (85 - m))
              = Some (Returned (st, exit))
              /\ elapsed_time st <= 602).
  { induction m as [|m IH]; intros Hm.
    - exists (pending_state 85), Exhausted. split; [|vm_compute; discriminate].
      cbn [poll_loop].
      replace (elapsed_time (pending_state (85 - 0)) <? max_polling_duration)
        with false by (vm_compute; reflexivity).
      reflexivity.
    - cbn [poll_loop].
      pose proof (pending_states_in_budget (85 - S m) ltac:(lia)) as Hlt.
      apply Z.ltb_lt in Hlt as Hb. rewrite Hb.
      destruct (H (polls (pending_state (85 - S m))))
        as (r & body & Hg & Hj & [Hs | Hs]);
        unfold poll_step; rewrite Hg; cbn [bind]; rewrite Hj;
        cbn [bind Py.dict_get]; rewrite Hs;
        cbn [Py.eq_str String.eqb Ascii.eqb Bool.eqb].
      + destruct (IH ltac:(lia)) as (st & exit & E & Hst).
        exists st, exit. split; [|exact Hst].
        replace (85 - m)%nat with (S (85 - S m)) in E by lia.
        exact E.
      + exists (pending_state (85 - S m)), (Break (VDict body)).
        split; [reflexivity|]. unfold max_polling_duration in Hlt. lia. }
  exact (G 85%nat (le_n 85)).
Qed.

(** Once the first request is accepted, queryRemote is its polling loop
    followed by the download. *)
Lemma queryRemote_accepted (fuel : nat) (session : Session)
  (self_url query : string) (task_id : pyval) :
  accepts_task session self_url query task_id ->
  queryRemote fuel session self_url query
  = match poll_loop fuel session
            (self_url ++ "/tasks/status/" ++ Py.str task_id)
            initial_poll_state with
    | None => None
    | Some (Raised e) => Some (Raised e)
    | Some (Returned (_, Exhausted)) => Some (Returned VNone)
    | Some (Returned (_, Break result_json)) =>
        Some (r <- Py.subscript result_json "result" ;;
              zip_url <- Py.subscript r "download_url" ;;
              fetch_export session zip_url)
    end.
Proof.
  intros (r & body & Hp & Hc & Hj & Ht).
  unfold queryRemote. rewrite Hp. unfold raise_for_status. rewrite Hc.
  change ((400 <=? 200) && (200 <? 600)) with false.
  change (negb (200 =? 200)) with false. cbv iota.
  unfold queryRemote_task. rewrite Hj. cbn [bind Py.dict_get]. now rewrite Ht.
Qed.

(** C3.  A task that stays in the status FAILURE keeps the loop running:
    whatever the number of passes allowed, neither the loop nor queryRemote
    has returned; no pass waits and the clock never reaches the budget. *)
Theorem poll_loop_failure_never_returns (fuel : nat) (self_url query : string) :
  poll_loop fuel (Inputs.stuck "FAILURE")
            (self_url ++ "/tasks/status/t1") initial_poll_state = None
  /\ queryRemote fuel (Inputs.stuck "FAILURE") self_url query = None.
Proof.
  assert (H : poll_loop fuel (Inputs.stuck "FAILURE")
                (self_url ++ "/tasks/status/t1") initial_poll_state = None).
  { apply (poll_loop_other_status _ _ (VStr "FAILURE")); try reflexivity.
    intros n. now exists (Inputs.status_response "FAILURE"),
                         [("status", VStr "FAILURE")]. }
  split; [exact H|].
  rewrite (queryRemote_accepted _ _ _ _ (VStr "t1")).
  - change ("/tasks/status/" ++ Py.str (VStr "t1")) with "/tasks/status/t1".
    now rewrite H.
  - now exists Inputs.accepted, [("task_id", VStr "t1")].
Qed.

(** ** queryRemote *)

Lemma queryRemote_http_error (fuel : nat) (session : Session)
  (self_url query : string) (r : Response) :
  post session (self_url ++ "/snapshot/") query = Returned r ->
  400 <= status_code r < 600 ->
  queryRemote fuel session self_url query
  = Some (error_dict <- json r ;; set_status_code error_dict (status_code r)).
Proof.
  intros Hp [Hlo Hhi]. unfold queryRemote. rewrite Hp.
  unfold raise_for_status.
  apply Z.leb_le in Hlo. apply Z.ltb_lt in Hhi. now rewrite Hlo, Hhi.
Qed.

(** An exception of the first request other than HTTPError reaches the
    caller. *)
Lemma queryRemote_connection_error :
  queryRemote 0 (Inputs.answering (Raised ConnectionError)) "https://api" "{}"
  = Some (Raised ConnectionError).
Proof. reflexivity. Qed.

(** C4, as stated, fails: an error response whose body is not JSON makes
    queryRemote raise the decoding error instead of returning null. *)
Lemma queryRemote_unparseable_error_raises :
  queryRemote 0 (Inputs.answering (Returned Inputs.bad_gateway))
              "https://api" "{}"
  = Some (Raised JSONDecodeError).
Proof. reflexivity. Qed.

(** C4 (as amended).  queryRemote reports through its return value an HTTP
    error response (status 4xx or 5xx) whose body parses as a JSON object,
    returned as that object with the numeric status code under
    "status_code", and a polling timeout, returned as null once the task
    was accepted and every status request answered PENDING.  It is not free
    of exceptions: when the body of an HTTP error response does not parse,
    the exception of the parser reaches the caller. *)
Theorem queryRemote_return_channel (fuel : nat) (session : Session)
  (self_url query : string) :
  (forall r body,
     post session (self_url ++ "/snapshot/") query = Returned r ->
     400 <= status_code r < 600 ->
     json r = Returned (VDict body) ->
     queryRemote fuel session self_url query
     = Some (Returned (VDict (Py.set body "status_code"
                                     (VInt (status_code r))))))
  /\ (forall r e,
        post session (self_url ++ "/snapshot/") query = Returned r ->
        400 <= status_code r < 600 ->
        json r = Raised e ->
        queryRemote fuel session self_url query = Some (Raised e))
  /\ (forall task_id,
        accepts_task session self_url query task_id ->
        answers_status session
          (self_url ++ "/tasks/status/" ++ Py.str task_id) (VStr "PENDING") ->
        (85 <= fuel)%nat ->
        queryRemote fuel session self_url query = Some (Returned VNone)).
Proof.
  split; [|split].
  - intros r body Hp Hc Hj.
    rewrite (queryRemote_http_error _ _ _ _ _ Hp Hc), Hj. reflexivity.
  - intros r e Hp Hc Hj.
    rewrite (queryRemote_http_error _ _ _ _ _ Hp Hc), Hj. reflexivity.
  - intros task_id Ha Hs Hfuel.
    rewrite (queryRemote_accepted _ _ _ _ _ Ha).
    now rewrite (poll_loop_pending _ _ _ Hs Hfuel).
Qed.

Lemma queryRemote_return_channel_witness :
  queryRemote 0 (Inputs.answering (Returned Inputs.not_found))
              "https://api" "{}"
  = Some (Returned (VDict [("detail", VStr "Not Found");
                           ("status_code", VInt 404)]))
  /\ queryRemote 0 (Inputs.answering (Returned Inputs.bad_gateway))
                 "https://api" "{}"
     = Some (Raised JSONDecodeError)
  /\ queryRemote 85 (Inputs.stuck "PENDING") "https://api" "{}"
     = Some (Returned VNone).
Proof.
  split; [|split].
  - apply (proj1 (queryRemote_return_channel 0
                    (Inputs.answering (Returned Inputs.not_found))
                    "https://api" "{}")
             Inputs.not_found [("detail", VStr "Not Found")]).
    + reflexivity.
    + simpl; lia.
    + reflexivity.
  - apply (proj1 (proj2 (queryRemote_return_channel 0
                           (Inputs.answering (Returned Inputs.bad_gateway))
                           "https://api" "{}"))
             Inputs.bad_gateway JSONDecodeError).
    + reflexivity.
    + simpl; lia.
    + reflexivity.
  - apply (proj2 (proj2 (queryRemote_return_channel 85
                           (Inputs.stuck "PENDING") "https://api" "{}"))
             (VStr "t1")).
    + exists Inputs.accepted, [("task_id", VStr "t1")].
      repeat split; reflexivity.
    + intros n. exists (Inputs.status_response "PENDING"),
                       [("status", VStr "PENDING")].
      repeat split; reflexivity.
    + apply le_n.
Defined.

(** ** The projection of a statement *)

Lemma select_entries_fold (attrs : list (string * pyval)) (select : string) :
  fold_left select_entry (map select_entry_of attrs) select
  = select ++ String.concat ""
                (map (fun a => "tags->>'" ++ fst a ++ "', ") attrs).
Proof.
  revert select. induction attrs as [|a attrs IH]; intros select; cbn [map fold_left].
  - simpl. now rewrite app_nil_r.
  - rewrite IH, concat_cons. unfold select_entry_of, select_entry.
    cbn [fold_left]. now rewrite !app_assoc.
Qed.

Lemma separator_moves (attrs : list (string * pyval)) (x : string) :
  x ++ ", " ++ String.concat ""
                 (map (fun a => "tags->>'" ++ fst a ++ "', ") attrs)
  = (x ++ projection (map fst attrs)) ++ ", ".
Proof.
  revert x. induction attrs as [|a attrs IH]; intros x.
  - unfold projection. simpl. now rewrite app_nil_r.
  - unfold projection in *. cbn [map]. rewrite !concat_cons.
    transitivity ((x ++ ", tags->>'" ++ fst a ++ "'") ++ ", "
                  ++ String.concat ""
                       (map (fun a0 => "tags->>'" ++ fst a0 ++ "', ") attrs)).
    + rewrite !app_assoc. reflexivity.
    + rewrite IH. rewrite !app_assoc. reflexivity.
Qed.

Lemma select_clause_projection (qc : QueryConfig) (allgeom : bool)
  (table : string) (attrs : list (string * pyval)) :
  Py.getitem (config_select qc) table = Returned (map select_entry_of attrs) ->
  select_clause qc allgeom table
  = Returned ("SELECT " ++ geometry_column allgeom ++ ", osm_id, version"
              ++ projection (map fst attrs)).
Proof.
  intros H. unfold select_clause. rewrite H. cbn [bind].
  rewrite select_entries_fold. f_equal.
  change (-2) with (- PyStr.len ", ").
  rewrite <- (slice_drop_suffix
                ("SELECT " ++ geometry_column allgeom ++ ", osm_id, version"
                 ++ projection (map fst attrs)) ", ") by reflexivity.
  f_equal. destruct allgeom.
  - exact (separator_moves attrs "SELECT ST_AsText(geom), osm_id, version").
  - exact (separator_moves attrs
             "SELECT ST_AsText(ST_Centroid(geom)), osm_id, version").
Qed.

(** ** The row decoder *)

Local Open Scope list_scope.

Lemma set_fresh {V : Type} (d : dict V) (k : string) (v : V) :
  ~ In k (Py.keys d) -> Py.set d k v = (d ++ [(k, v)])%list.
Proof.
  induction d as [|[k' v'] d IH]; intros H; [reflexivity|].
  cbn [Py.set app]. destruct (String.eqb k' k) eqn:E.
  - apply String.eqb_eq in E. elim H. now left.
  - rewrite IH; [reflexivity|]. intros Hin. apply H. now right.
Qed.

Lemma row_at_middle (pre : row) (x : pyval) (post : row) :
  row_at (pre ++ x :: post) (Z.of_nat (List.length pre)) = Returned x.
Proof.
  unfold row_at. rewrite Nat2Z.id, nth_error_app2 by apply le_n.
  now rewrite Nat.sub_diag.
Qed.

(** With as many columns as attributes, the inner loop pairs them in order
    and keeps the columns that are not null. *)
Lemma decode_entries_all (attrs : list (string * pyval)) :
  forall (columns pre : row) (tags : dict pyval),
    List.length columns = List.length attrs ->
    NoDup (Py.keys tags ++ map fst attrs) ->
    decode_entries (pre ++ columns) (map select_entry_of attrs)
                   (tags, Z.of_nat (List.length pre))
    = Returned ((tags ++ present (combine (map fst attrs) columns))%list,
                Z.of_nat (List.length pre + List.length attrs)).
Proof.
  induction attrs as [|[k hint] attrs IH]; intros columns pre tags Hlen Hnd.
  - destruct columns; [|discriminate]. cbn [map decode_entries combine present filter].
    now rewrite List.app_nil_r, Nat.add_0_r.
  - destruct columns as [|x columns]; [discriminate|].
    cbn [map decode_entries select_entry_of].
    destruct (Z.of_nat (List.length pre)
              =? Z.of_nat (List.length (pre ++ x :: columns))) eqn:E.
    { apply Z.eqb_eq in E. rewrite List.length_app in E. simpl in E. lia. }
    rewrite row_at_middle. cbn [bind].
    replace (pre ++ x :: columns)%list with ((pre ++ [x]) ++ columns)%list
      by (now rewrite <- List.app_assoc).
    replace (Z.of_nat (List.length pre) + 1)
      with (Z.of_nat (List.length (pre ++ [x])))
      by (rewrite List.length_app; simpl; lia).
    cbn [map fst] in Hnd.
    rewrite IH.
    + f_equal. f_equal.
      * cbn [map fst combine present filter snd].
        destruct (is_none x); cbn [negb]; [reflexivity|].
        rewrite set_fresh.
        -- now rewrite <- List.app_assoc.
        -- apply NoDup_remove_2 in Hnd. intros Hin. apply Hnd.
           apply in_or_app. now left.
      * rewrite List.length_app. simpl. lia.
    + simpl in Hlen. lia.
    + destruct (is_none x).
      * now apply NoDup_remove_1 in Hnd.
      * rewrite set_fresh.
        -- unfold Py.keys in *. rewrite List.map_app, <- List.app_assoc.
           exact Hnd.
        -- apply NoDup_remove_2 in Hnd. intros Hin. apply Hnd.
           apply in_or_app. now left.
Qed.

(** Tables that select nothing leave the loop state as it is. *)
Lemma decode_nothing (item : row) (tbls : dict (list entry))
  (st : dict pyval * Z) :
  Forall (fun tbl => snd tbl = []) tbls ->
  foldM (fun st (tbl : string * list entry) => decode_entries item (snd tbl) st)
        tbls st
  = Returned st.
Proof.
  intros H. induction H as [|tbl tbls Ht _ IH]; cbn [foldM]; [reflexivity|].
  rewrite Ht. cbn [decode_entries bind]. exact IH.
Qed.

Lemma getitem_middle {V : Type} (before after : dict V) (k : string) (v : V) :
  ~ In k (map fst before) ->
  Py.getitem (before ++ (k, v) :: after)%list k = Returned v.
Proof.
  unfold Py.getitem. induction before as [|[k' v'] before IH]; intros H;
    cbn [app Py.get].
  - now rewrite String.eqb_refl.
  - destruct (String.eqb k' k) eqn:E.
    + apply String.eqb_eq in E. elim H. now left.
    + apply IH. intros Hin. apply H. now right.
Qed.

Lemma present_all (keys : list string) (columns : row) :
  Forall (fun x => is_none x = false) columns ->
  present (combine keys columns) = combine keys columns.
Proof.
  intros H. revert keys. induction H as [|x columns Hx _ IH]; intros keys.
  - now destruct keys.
  - destruct keys as [|k keys]; [reflexivity|].
    cbn [combine present filter snd]. rewrite Hx. cbn [negb].
    f_equal. apply IH.
Qed.

Lemma keys_combine (keys : list string) (columns : row) :
  List.length columns = List.length keys ->
  Py.keys (combine keys columns) = keys.
Proof.
  revert columns. induction keys as [|k keys IH]; intros columns H.
  - reflexivity.
  - destruct columns as [|x columns]; [discriminate|].
    cbn [combine Py.keys map fst]. f_equal. apply IH. simpl in H. lia.
Qed.

(** At the end of the row the inner loop leaves at once. *)
Lemma decode_entries_stop (item : row) (values : list entry)
  (tags : dict pyval) (i : Z) :
  i = Z.of_nat (List.length item) ->
  decode_entries item values (tags, i) = Returned (tags, i).
Proof.
  intros ->. destruct values as [|e values]; cbn [decode_entries];
    [reflexivity|]. now rewrite Z.eqb_refl.
Qed.

(** The inner loop over two lists of entries, one after the other. *)
Lemma decode_entries_app (item : row) (l1 l2 : list entry) :
  forall st,
    decode_entries item (l1 ++ l2) st
    = (st' <- decode_entries item l1 st ;; decode_entries item l2 st').
Proof.
  induction l1 as [|e l1 IH]; intros [tags i]; [reflexivity|].
  cbn [app decode_entries].
  destruct (i =? Z.of_nat (List.length item)) eqn:E.
  - cbn [bind]. apply Z.eqb_eq in E. symmetry.
    now apply decode_entries_stop.
  - destruct e as [|[k v] [|]]; try reflexivity.
    destruct (row_at item i) as [x|]; [|reflexivity]. cbn [bind]. apply IH.
Qed.

(** The two loops of the decoder walk the selections of all the tables as
    one list: the [break] of one table is repeated by every later one. *)
Lemma decode_tables_flat (item : row) (tbls : dict (list entry)) :
  forall st,
    foldM (fun st (tbl : string * list entry) => decode_entries item (snd tbl) st)
          tbls st
    = decode_entries item (List.concat (map snd tbls)) st.
Proof.
  induction tbls as [|tbl tbls IH]; intros st; cbn [foldM map List.concat].
  - now destruct st.
  - rewrite decode_entries_app.
    destruct (decode_entries item (snd tbl) st) as [st'|]; [|reflexivity].
    cbn [bind]. apply IH.
Qed.

(** The decoder on a row that has one column for each of the first
    entries of the selection. *)
Lemma decode_row_leading (loads : pyval -> outcome Geometry)
  (qc : QueryConfig) (query : string) (attrs : list (string * pyval))
  (later : list entry) (g id version : pyval) (geom : Geometry)
  (columns : row) :
  config_tables qc <> [] ->
  selected qc = map select_entry_of attrs ++ later ->
  NoDup ("id" :: "version" :: map fst attrs) ->
  List.length columns = List.length attrs ->
  loads g = Returned geom ->
  decode_row loads qc query (g :: id :: version :: columns)
  = Returned (mkFeature geom
                (("id", id) :: ("version", version)
                 :: present (combine (map fst attrs) columns))).
Proof.
  intros Ht Hsel Hnd Hlen Hg.
  unfold decode_row. cbn [row_at Z.to_nat nth_error bind Pos.to_nat].
  rewrite Hg. cbn [bind].
  change (row_at (g :: id :: version :: columns) 1) with (Returned id).
  change (row_at (g :: id :: version :: columns) 2) with (Returned version).
  cbn [bind].
  destruct (Z.of_nat (List.length (config_tables qc)) >? 0) eqn:E.
  2:{ destruct (config_tables qc); [contradiction|].
      simpl in E. discriminate. }
  rewrite decode_tables_flat. fold (selected qc).
  rewrite Hsel, decode_entries_app.
  change (Py.set (Py.set [] "id" id) "version" version)
    with [("id", id); ("version", version)].
  change (g :: id :: version :: columns)
    with ([g; id; version] ++ columns)%list.
  change 3 with (Z.of_nat (List.length [g; id; version])).
  rewrite (decode_entries_all attrs columns [g; id; version]
             [("id", id); ("version", version)] Hlen Hnd).
  cbn [bind]. rewrite decode_entries_stop; [reflexivity|].
  rewrite List.length_app, Hlen. reflexivity.
Qed.

(** A table whose predecessors select nothing comes first in the
    selection, whatever the later tables select. *)
Lemma selected_after_empty (qc : QueryConfig) (before after : dict (list entry))
  (table : string) (entries : list entry) :
  config_select qc = before ++ (table, entries) :: after ->
  Forall (fun tbl => snd tbl = []) before ->
  selected qc = entries ++ List.concat (map snd after).
Proof.
  unfold selected. intros -> H.
  induction H as [|tbl before Ht _ IH]; cbn [app map List.concat snd].
  - reflexivity.
  - now rewrite Ht, IH.
Qed.

Local Open Scope string_scope.

(** Of two prefixes of one text, the shorter is a prefix of the longer. *)
Lemma shorter_prefix (c : string) :
  forall a b d,
    a ++ b = c ++ d ->
    (String.length c <= String.length a)%nat ->
    exists e, a = c ++ e.
Proof.
  induction c as [|x c IH]; intros a b d H Hlen.
  - now exists a.
  - destruct a as [|y a]; [simpl in Hlen; lia|].
    simpl in H. injection H as -> H.
    destruct (IH a b d H) as (e & ->); [simpl in Hlen; lia|].
    now exists e.
Qed.

Lemma dangling_length (ors ands : list Clause) :
  (String.length (dangling ors ands) <= 8)%nat.
Proof. destruct ands, ors; simpl; lia. Qed.

(** The statement of a table begins with its projection and its name. *)
Lemma statement_begins (config : QueryConfig) (allgeom : bool)
  (clauses_of : string -> list Clause) (table query select : string) :
  select_clause config allgeom table = Returned select ->
  trimmed_statement config allgeom clauses_of table query ->
  exists rest, query = (select ++ " FROM " ++ table) ++ rest.
Proof.
  intros Hsel (select' & Hsel' & Hraw & _).
  rewrite Hsel in Hsel'. injection Hsel' as <-.
  apply (shorter_prefix _ query
           (dangling (filter is_or (clauses_of table))
                     (filter is_and (clauses_of table)))
           (" WHERE " ++ spec_group " OR " (filter is_or (clauses_of table))
            ++ " " ++ spec_group " AND " (filter is_and (clauses_of table)))).
  - rewrite <- Hraw. unfold raw_query. now rewrite !app_assoc.
  - apply (f_equal String.length) in Hraw. unfold raw_query in Hraw.
    rewrite !length_app in Hraw.
    pose proof (dangling_length (filter is_or (clauses_of table))
                                (filter is_and (clauses_of table))).
    rewrite !length_app. simpl String.length in *. lia.
Qed.

(** C8 (as amended).  Take a configuration and a declared table whose
    where entries are clauses of the data model (a key other than "op", the
    operator "or" or "and", string values, at least one value for "and").
    The statement createSQL compiles for the table projects the geometry,
    osm_id, version and the attributes the table selects, in the order of
    the configuration.  The decoder pairs the columns of a row with the
    first entries of the selections of all the tables, taken in the order
    of config["select"]: when the first M of these entries have keys that
    differ from one another and from "id" and "version", decoding a row
    made of a geometry text that wkt.loads reads, an id, a version and M
    columns gives a feature with the geometry wkt.loads returned, whose
    properties are id, version and then, in that same order, those of the
    M attributes whose column is not null: a null column is left out, and
    with no null column the keys are id, version and the M attribute keys.
    So the row of the table's own statement is decoded under the table's
    own attributes when these are the first entries of the selection (the
    tables before it select nothing, or the same attributes), and a row
    with one column for each attribute of the whole configuration is
    decoded under all of them. *)
Theorem compile_then_decode (loads : pyval -> outcome Geometry)
  (qc : QueryConfig) (allgeom : bool) (clauses_of : string -> list Clause)
  (table : string) (attrs lead : list (string * pyval)) (later : list entry)
  (g id version : pyval) (geom : Geometry) (columns : row) :
  In table (config_tables qc) ->
  Py.getitem (config_where qc) table
  = Returned (map entry_of (clauses_of table)) ->
  Forall wf_clause (clauses_of table) ->
  Py.getitem (config_select qc) table = Returned (map select_entry_of attrs) ->
  selected qc = (map select_entry_of lead ++ later)%list ->
  NoDup ("id" :: "version" :: map fst lead) ->
  List.length columns = List.length lead ->
  loads g = Returned geom ->
  exists query rest feature,
    createSQL_table qc allgeom table = Returned query
    /\ query = ("SELECT " ++ geometry_column allgeom ++ ", osm_id, version"
                ++ projection (map fst attrs) ++ " FROM " ++ table) ++ rest
    /\ decode_row loads qc query (g :: id :: version :: columns)
       = Returned feature
    /\ geometry feature = geom
    /\ properties feature
       = ("id", id) :: ("version", version)
         :: present (combine (map fst lead) columns)
    /\ (Forall (fun x => is_none x = false) columns ->
        Py.keys (properties feature) = "id" :: "version" :: map fst lead).
Proof.
  intros Hin Hwhere Hwf Hget Hsel Hnd Hlen Hg.
  pose proof (select_clause_projection qc allgeom table attrs Hget) as Hproj.
  destruct (createSQL_table_trimmed qc allgeom clauses_of table _
              Hproj Hwhere Hwf) as (query & Hq & Htrim).
  destruct (statement_begins _ _ _ _ _ _ Hproj Htrim) as (rest & Hrest).
  assert (Hne : config_tables qc <> []) by (intros E; now rewrite E in Hin).
  exists query, rest, (mkFeature geom
                         (("id", id) :: ("version", version)
                          :: present (combine (map fst lead) columns))).
  split; [exact Hq|]. split.
  { rewrite Hrest. now rewrite !app_assoc. }
  split; [now apply (decode_row_leading loads qc query lead later)|].
  split; [reflexivity|]. split; [reflexivity|].
  intros Hnn. cbn [properties Py.keys map fst]. do 2 f_equal.
  rewrite (present_all _ _ Hnn).
  apply keys_combine. now rewrite List.length_map.
Qed.

Lemma compile_then_decode_witness :
  (exists query rest feature,
     createSQL_table Inputs.places true "nodes" = Returned query
     /\ query = ("SELECT " ++ geometry_column true ++ ", osm_id, version"
                 ++ projection ["amenity"; "name"] ++ " FROM " ++ "nodes")
                ++ rest
     /\ decode_row Inputs.wkt_loads Inputs.places query
          [Inputs.polygon_wkt; VInt 7; VInt 2; VStr "school"; VNone]
        = Returned feature
     /\ geometry feature = Inputs.polygon
     /\ properties feature
        = ("id", VInt 7) :: ("version", VInt 2)
          :: present (combine ["amenity"; "name"] [VStr "school"; VNone])
     /\ (Forall (fun x => is_none x = false) [VStr "school"; VNone] ->
         Py.keys (properties feature) = ["id"; "version"; "amenity"; "name"]))
  /\ (exists query rest feature,
        createSQL_table Inputs.two_tables true "ways_poly" = Returned query
        /\ query = ("SELECT " ++ geometry_column true ++ ", osm_id, version"
                    ++ projection ["building"] ++ " FROM " ++ "ways_poly")
                   ++ rest
        /\ decode_row Inputs.wkt_loads Inputs.two_tables query
             [Inputs.polygon_wkt; VInt 7; VInt 2; VStr "school"; VStr "yes"]
           = Returned feature
        /\ geometry feature = Inputs.polygon
        /\ properties feature
           = ("id", VInt 7) :: ("version", VInt 2)
             :: present (combine ["amenity"; "building"]
                                 [VStr "school"; VStr "yes"])
        /\ (Forall (fun x => is_none x = false) [VStr "school"; VStr "yes"] ->
            Py.keys (properties feature)
            = ["id"; "version"; "amenity"; "building"])).
Proof.
  assert (Hwf : Forall wf_clause (Inputs.places_clauses "nodes")
                /\ Forall wf_clause (Inputs.places_clauses "ways_poly")).
  { split; (constructor; [|constructor]); unfold wf_clause;
      (split; [discriminate | split; [auto | discriminate]]). }
  split.
  - apply (compile_then_decode Inputs.wkt_loads Inputs.places true
             Inputs.places_clauses "nodes"
             [("amenity", VList []); ("name", VList [])]
             [("amenity", VList []); ("name", VList [])]
             [select_entry_of ("building", VList []);
              select_entry_of ("name", VList [])]
             Inputs.polygon_wkt (VInt 7) (VInt 2) Inputs.polygon
             [VStr "school"; VNone]).
    + now left.
    + reflexivity.
    + exact (proj1 Hwf).
    + reflexivity.
    + reflexivity.
    + repeat constructor; simpl; intuition discriminate.
    + reflexivity.
    + reflexivity.
  - apply (compile_then_decode Inputs.wkt_loads Inputs.two_tables true
             Inputs.places_clauses "ways_poly"
             [("building", VList [])]
             [("amenity", VList []); ("building", VList [])] []
             Inputs.polygon_wkt (VInt 7) (VInt 2) Inputs.polygon
             [VStr "school"; VStr "yes"]).
    + right. now left.
    + reflexivity.
    + exact (proj2 Hwf).
    + reflexivity.
    + reflexivity.
    + repeat constructor; simpl; intuition discriminate.
    + reflexivity.
    + reflexivity.
Defined.

(** C8, as stated, fails.  When two tables select attributes, the
    statement of the second table projects its own two attributes and its
    row is decoded under the keys of the first table: the key the statement
    projects first is absent.  A row with one column for each of the four
    attributes that configuration selects is decoded to three attribute
    keys, the name holding the last of its two columns.  And when the one
    table that selects attributes selects a tag called id after the name,
    the properties hold the tag in the place of the id of the row, before
    the name. *)
Lemma decode_uses_first_table_key :
  let nodes_query := "SELECT ST_AsText(geom), osm_id, version, tags->>'amenity', tags->>'name' FROM nodes WHERE tags->>'amenity' ='school'" in
  let query := "SELECT ST_AsText(geom), osm_id, version, tags->>'building', tags->>'name' FROM ways_poly WHERE tags->>'building' ='yes'" in
  let item := [Inputs.polygon_wkt; VInt 7; VInt 2; VStr "yes"; VStr "Hall"] in
  let wide := [Inputs.polygon_wkt; VInt 7; VInt 2; VStr "school"; VStr "A";
               VStr "yes"; VStr "B"] in
  let id_query := "SELECT ST_AsText(geom), osm_id, version, tags->>'name', tags->>'id' FROM ways_poly WHERE tags->>'building' ='yes'" in
  let id_item := [Inputs.polygon_wkt; VInt 7; VInt 2; VStr "Hall"; VStr "x"] in
  createSQL Inputs.places true = Returned [nodes_query; query]
  /\ queryLocal Inputs.wkt_loads (Inputs.select_cursor [item]) Inputs.places
                query true None
     = Returned (FeatureCollection
                   [mkFeature Inputs.polygon
                      [("id", VInt 7); ("version", VInt 2);
                       ("amenity", VStr "yes"); ("name", VStr "Hall")]])
  /\ decode_row Inputs.wkt_loads Inputs.places query wide
     = Returned (mkFeature Inputs.polygon
                   [("id", VInt 7); ("version", VInt 2);
                    ("amenity", VStr "school"); ("name", VStr "B");
                    ("building", VStr "yes")])
  /\ createSQL Inputs.tagged_id true = Returned [id_query]
  /\ queryLocal Inputs.wkt_loads (Inputs.select_cursor [id_item])
                Inputs.tagged_id id_query true None
     = Returned (FeatureCollection
                   [mkFeature Inputs.polygon
                      [("id", VStr "x"); ("version", VInt 2);
                       ("name", VStr "Hall")]]).
Proof. repeat split; reflexivity. Qed.

(** ** queryLocal *)

(** Once the cursor has executed what it was sent, queryLocal goes on with
    what fetchall answers. *)
Lemma queryLocal_sent (loads : pyval -> outcome Geometry) (dbcursor : Cursor)
  (qc : QueryConfig) (query : string) (allgeom : bool)
  (boundary : option string) :
  Forall (fun statement => execute dbcursor statement = Returned tt)
         (sent query boundary) ->
  queryLocal loads dbcursor qc query allgeom boundary
  = queryLocal loads (mkCursor (fun _ => Returned tt) (fetchall dbcursor))
               qc query allgeom boundary.
Proof.
  intros Hx. unfold queryLocal.
  destruct boundary as [wkt|]; cbn [sent] in Hx.
  - inversion_clear Hx as [|? ? H1 Hx1]. inversion_clear Hx1 as [|? ? H2 Hx2].
    inversion_clear Hx2 as [|? ? H3 Hx3]. inversion_clear Hx3 as [|? ? H4 Hx4].
    inversion_clear Hx4 as [|? ? H5 _].
    cbn [execute fetchall bind].
    rewrite H1. cbn [bind]. rewrite H2. cbn [bind]. rewrite H3. cbn [bind].
    rewrite H4. cbn [bind]. rewrite H5. reflexivity.
  - inversion_clear Hx as [|? ? H1 _]. cbn [execute fetchall bind].
    rewrite H1. reflexivity.
Qed.

(** C9.  When the configuration has no where entry on ways_poly and none on
    nodes, and the cursor executes the statements queryLocal sends it (with
    a boundary the four view definitions and the redirected query, the
    query alone otherwise), queryLocal returns the fetched rows as they
    are. *)
Theorem queryLocal_returns_rows (loads : pyval -> outcome Geometry)
  (dbcursor : Cursor) (qc : QueryConfig) (query : string) (allgeom : bool)
  (boundary : option string) (result : list row) :
  Py.getitem (config_where qc) "ways_poly" = Returned [] ->
  Py.getitem (config_where qc) "nodes" = Returned [] ->
  Forall (fun statement => execute dbcursor statement = Returned tt)
         (sent query boundary) ->
  fetchall dbcursor (match boundary with
                     | Some _ => scoped_query query
                     | None => query
                     end) = Returned result ->
  queryLocal loads dbcursor qc query allgeom boundary = Returned (Rows result).
Proof.
  intros Hp Hn Hx Hf. rewrite (queryLocal_sent _ _ _ _ _ _ Hx).
  unfold queryLocal.
  destruct boundary as [wkt|]; cbn [execute fetchall bind]; rewrite Hf, Hp;
    cbn [bind List.length Z.of_nat Z.eqb]; rewrite Hn; reflexivity.
Qed.

Lemma queryLocal_returns_rows_witness :
  queryLocal Inputs.wkt_loads
             (Inputs.select_cursor [[Inputs.polygon_wkt; VInt 7; VInt 2]])
             Inputs.no_filter
             "SELECT ST_AsText(geom), osm_id, version FROM ways_poly WHERE osm_id > 0"
             true (Some "POLYGON ((0 0, 1 0, 1 1, 0 0))")
  = Returned (Rows [[Inputs.polygon_wkt; VInt 7; VInt 2]]).
Proof.
  apply (queryLocal_returns_rows Inputs.wkt_loads
           (Inputs.select_cursor [[Inputs.polygon_wkt; VInt 7; VInt 2]])
           Inputs.no_filter).
  - reflexivity.
  - reflexivity.
  - repeat constructor.
  - reflexivity.
Defined.

(** ** createJson returns or stops at the centroid test *)

Lemma get_set_same {V : Type} (d : dict V) (k : string) (v : V) :
  Py.get (Py.set d k v) k = Some v.
Proof.
  induction d as [|[k' v'] d IH]; cbn [Py.set Py.get].
  - now rewrite String.eqb_refl.
  - destruct (String.eqb k' k) eqn:E; cbn [Py.get]; rewrite E; auto.
Qed.

Lemma get_set_other {V : Type} (d : dict V) (k k' : string) (v : V) :
  k <> k' -> Py.get (Py.set d k v) k' = Py.get d k'.
Proof.
  intros Hk. induction d as [|[k0 v0] d IH]; cbn [Py.set Py.get].
  - apply String.eqb_neq in Hk. now rewrite Hk.
  - destruct (String.eqb k0 k) eqn:E; cbn [Py.get].
    + apply String.eqb_eq in E. subst k0.
      apply String.eqb_neq in Hk. now rewrite Hk.
    + now rewrite IH.
Qed.

Lemma mem_set {V : Type} (d : dict V) (k k' : string) (v : V) :
  Py.mem d k' = true -> Py.mem (Py.set d k v) k' = true.
Proof.
  unfold Py.mem. intros H. destruct (string_dec k k') as [<- | Hk].
  - now rewrite get_set_same.
  - now rewrite get_set_other.
Qed.

Lemma mem_getitem {V : Type} (d : dict V) (k : string) :
  Py.mem d k = true -> exists v, Py.getitem d k = Returned v.
Proof.
  unfold Py.mem, Py.getitem. destruct (Py.get d k) as [v|]; [eauto|discriminate].
Qed.

Lemma foldM_invariant {A S : Type} (f : S -> A -> outcome S) (I : S -> Prop)
  (l : list A) :
  (forall s x, In x l -> I s -> exists s', f s x = Returned s' /\ I s') ->
  forall s, I s -> exists s', foldM f l s = Returned s' /\ I s'.
Proof.
  induction l as [|x l IH]; intros H s Hs; cbn [foldM].
  - eauto.
  - destruct (H s x (or_introl eq_refl) Hs) as (s1 & -> & Hs1). cbn [bind].
    apply IH; [|assumption]. intros s0 y Hy. apply H. now right.
Qed.

Lemma set_filter_ready (tags : tag_filters) (cls group key : string)
  (value : pyval) :
  tags_ready tags -> In cls classes ->
  group = "join_or" \/ group = "join_and" ->
  exists tags', set_filter tags cls group key value = Returned tags'
                /\ tags_ready tags'.
Proof.
  intros Hr Hc Hg. destruct (Hr cls Hc) as (by_group & Hget & Hor & Hand).
  assert (Hm : Py.mem by_group group = true) by (destruct Hg; now subst).
  destruct (mem_getitem _ _ Hm) as (by_key & Hk).
  unfold set_filter, Py.getitem at 1. rewrite Hget. cbn [bind]. rewrite Hk.
  cbn [bind]. eexists; split; [reflexivity|].
  intros cls' Hc'. destruct (string_dec cls cls') as [<- | Hne].
  - rewrite get_set_same. eexists; split; [reflexivity|].
    split; now apply mem_set.
  - rewrite get_set_other by assumption. now apply Hr.
Qed.

Lemma append_key_ready (keys : dict (list string)) (cls key : string) :
  keys_ready keys -> In cls classes ->
  exists keys', append_key keys cls key = Returned keys' /\ keys_ready keys'.
Proof.
  intros Hr Hc. destruct (mem_getitem _ _ (Hr cls Hc)) as (l & Hl).
  unfold append_key. rewrite Hl. cbn [bind]. eexists; split; [reflexivity|].
  intros cls' Hc'. apply mem_set. now apply Hr.
Qed.

Lemma geometry_class_known (table : string) :
  Py.mem geometry_class table = true ->
  exists cls, Py.getitem geometry_class table = Returned cls /\ In cls classes.
Proof.
  unfold Py.mem, Py.getitem, geometry_class, classes. cbn [Py.get].
  destruct (String.eqb "nodes" table); [eexists; split; [reflexivity|simpl; auto]|].
  destruct (String.eqb "ways_poly" table); [eexists; split; [reflexivity|simpl; auto]|].
  destruct (String.eqb "ways_line" table); [eexists; split; [reflexivity|simpl; auto]|].
  discriminate.
Qed.

Lemma contains_str_supported (v : pyval) (s : string) :
  supports_in v = true -> exists b, Py.contains_str v s = Returned b.
Proof. destruct v; simpl; intros H; try discriminate; eauto. Qed.

(** The body of the where loop returns on an entry of the data model. *)
Lemma createJson_item_ready (table : string) (st : json_state) (item : entry) :
  wf_where_item table item = true -> json_ready st ->
  exists st', createJson_item table st item = Returned st' /\ json_ready st'.
Proof.
  intros Hwf (Hor & Hand & Htags).
  destruct item as [|[key v] item]; [discriminate|].
  cbn [wf_where_item] in Hwf.
  apply andb_true_iff in Hwf as [Hwf Hcls].
  apply andb_true_iff in Hwf as [Hop Hin].
  destruct (mem_getitem _ _ Hop) as (op & Hopv).
  destruct (geometry_class_known _ Hcls) as (cls & Hclsv & Hc).
  destruct (contains_str_supported v "not null" Hin) as (b & Hb).
  unfold createJson_item. cbn [Py.keys map fst bind]. rewrite Hopv. cbn [bind].
  assert (Hjo : exists keys',
             (if Py.eq_str op "or"
              then cls0 <- Py.getitem geometry_class table ;;
                   append_key (join_or_keys st) cls0 key
              else Returned (join_or_keys st)) = Returned keys'
             /\ keys_ready keys').
  { destruct (Py.eq_str op "or"); [|eauto].
    rewrite Hclsv. cbn [bind]. now apply append_key_ready. }
  destruct Hjo as (jo & -> & Hjo). cbn [bind].
  assert (Hja : exists keys',
             (if Py.eq_str op "and"
              then cls0 <- Py.getitem geometry_class table ;;
                   append_key (join_and_keys st) cls0 key
              else Returned (join_and_keys st)) = Returned keys'
             /\ keys_ready keys').
  { destruct (Py.eq_str op "and"); [|eauto].
    rewrite Hclsv. cbn [bind]. now apply append_key_ready. }
  destruct Hja as (ja & -> & Hja). cbn [bind].
  cbn [Py.get]. rewrite String.eqb_refl, Hb. cbn [bind]. rewrite Hclsv.
  cbn [bind]. destruct b.
  - destruct (set_filter_ready _ cls "join_or" key (VList []) Htags Hc
                (or_introl eq_refl)) as (t1 & -> & Ht1). cbn [bind].
    destruct (set_filter_ready _ cls "join_and" key (VList []) Ht1 Hc
                (or_intror eq_refl)) as (t2 & -> & Ht2). cbn [bind].
    eexists; split; [reflexivity|]. repeat split; assumption.
  - unfold Py.getitem at 1. cbn [Py.get]. rewrite String.eqb_refl. cbn [bind].
    destruct (set_filter_ready _ cls "join_or" key v Htags Hc
                (or_introl eq_refl)) as (t1 & -> & Ht1). cbn [bind].
    destruct (set_filter_ready _ cls "join_and" key v Ht1 Hc
                (or_intror eq_refl)) as (t2 & -> & Ht2). cbn [bind].
    eexists; split; [reflexivity|]. repeat split; assumption.
Qed.

Lemma contains_sentinel (values : list string) :
  Py.contains_str (VList (map VStr values)) "not null"
  = Returned (existsb (fun v => String.eqb v "not null") values).
Proof.
  cbn [Py.contains_str]. f_equal.
  induction values as [|v values IH]; [reflexivity|].
  cbn [map existsb Py.eq_str]. now rewrite IH.
Qed.

(** Writing a value under both groups of a class. *)
Lemma set_filter_twice (tags : tag_filters) (cls key : string) (value : pyval) :
  tags_ready tags -> In cls classes ->
  exists tags',
    (t <- set_filter tags cls "join_or" key value ;;
     set_filter t cls "join_and" key value) = Returned tags'
    /\ tags_ready tags'
    /\ filter_of tags' cls "join_or" key = Some value
    /\ filter_of tags' cls "join_and" key = Some value.
Proof.
  intros Hr Hc. destruct (Hr cls Hc) as (by_group & Hget & Hor & Hand).
  destruct (set_filter_ready tags cls "join_or" key value Hr Hc
              (or_introl eq_refl)) as (t1 & E1 & Hr1).
  destruct (set_filter_ready t1 cls "join_and" key value Hr1 Hc
              (or_intror eq_refl)) as (t2 & E2 & Hr2).
  exists t2. rewrite E1. cbn [bind]. split; [exact E2|].
  split; [exact Hr2|].
  destruct (mem_getitem _ _ Hor) as (ko & Hko).
  destruct (mem_getitem _ _ Hand) as (ka & Hka).
  unfold set_filter, Py.getitem in E1. rewrite Hget in E1. cbn [bind] in E1.
  unfold Py.getitem in Hko, Hka.
  destruct (Py.get by_group "join_or") as [ko'|] eqn:Go; [|discriminate].
  destruct (Py.get by_group "join_and") as [ka'|] eqn:Ga; [|discriminate].
  cbn [bind] in E1. injection E1 as <-.
  unfold set_filter, Py.getitem in E2. rewrite get_set_same in E2.
  cbn [bind] in E2.
  rewrite get_set_other in E2 by discriminate. rewrite Ga in E2.
  cbn [bind] in E2. injection E2 as <-.
  unfold filter_of. rewrite !get_set_same.
  rewrite get_set_other by discriminate. rewrite !get_set_same. auto.
Qed.

(** For every clause of the data model, whatever its operator, the loop of
    createJson records the same value list under join_or and under
    join_and of the class of the table. *)
Lemma createJson_item_both_groups (table cls : string) (st : json_state)
  (c : Clause) :
  clause_key c <> "op" ->
  Py.getitem geometry_class table = Returned cls -> In cls classes ->
  json_ready st ->
  exists st',
    createJson_item table st (entry_of c) = Returned st'
    /\ json_ready st'
    /\ filter_of (tags_of st') cls "join_or" (clause_key c)
       = Some (recorded_values c)
    /\ filter_of (tags_of st') cls "join_and" (clause_key c)
       = Some (recorded_values c).
Proof.
  intros Hk Hcls Hc (Hor & Hand & Htags).
  unfold createJson_item, entry_of.
  cbn [Py.keys map fst bind]. unfold Py.getitem at 1. cbn [Py.get].
  rewrite (eqb_op_false _ Hk). cbn [String.eqb Ascii.eqb Bool.eqb bind].
  assert (Hjo : exists keys',
             (if Py.eq_str (VStr (clause_op c)) "or"
              then cls0 <- Py.getitem geometry_class table ;;
                   append_key (join_or_keys st) cls0 (clause_key c)
              else Returned (join_or_keys st)) = Returned keys'
             /\ keys_ready keys').
  { destruct (Py.eq_str (VStr (clause_op c)) "or"); [|eauto].
    rewrite Hcls. cbn [bind]. now apply append_key_ready. }
  destruct Hjo as (jo & -> & Hjo). cbn [bind].
  assert (Hja : exists keys',
             (if Py.eq_str (VStr (clause_op c)) "and"
              then cls0 <- Py.getitem geometry_class table ;;
                   append_key (join_and_keys st) cls0 (clause_key c)
              else Returned (join_and_keys st)) = Returned keys'
             /\ keys_ready keys').
  { destruct (Py.eq_str (VStr (clause_op c)) "and"); [|eauto].
    rewrite Hcls. cbn [bind]. now apply append_key_ready. }
  destruct Hja as (ja & -> & Hja). cbn [bind].
  rewrite String.eqb_refl, contains_sentinel. cbn [bind]. rewrite Hcls.
  cbn [bind]. unfold recorded_values.
  destruct (existsb (fun v => String.eqb v "not null") (clause_values c)).
  - destruct (set_filter_twice (tags_of st) cls (clause_key c) (VList [])
                Htags Hc) as (t & Et & Hrt & H1 & H2).
    cbn [bind] in Et.
    destruct (set_filter (tags_of st) cls "join_or" (clause_key c) (VList []))
      as [t1|e]; [|discriminate].
    cbn [bind] in *. rewrite Et. cbn [bind].
    eexists; split; [reflexivity|]. cbn [tags_of].
    repeat split; assumption.
  - unfold Py.getitem at 1. cbn [Py.get]. rewrite String.eqb_refl. cbn [bind].
    destruct (set_filter_twice (tags_of st) cls (clause_key c)
                (VList (map VStr (clause_values c))) Htags Hc)
      as (t & Et & Hrt & H1 & H2).
    destruct (set_filter (tags_of st) cls "join_or" (clause_key c)
                (VList (map VStr (clause_values c))))
      as [t1|e]; [|discriminate].
    cbn [bind] in *. rewrite Et. cbn [bind].
    eexists; split; [reflexivity|]. cbn [tags_of].
    repeat split; assumption.
Qed.

Lemma has_entries_returns (config : QueryConfig) (table : string) :
  Py.mem (config_select config) table = true ->
  Py.mem (config_where config) table = true ->
  exists b, has_entries config table = Returned b.
Proof.
  intros Hs Hw. destruct (mem_getitem _ _ Hs) as (sel & Hsel).
  destruct (mem_getitem _ _ Hw) as (wh & Hwh).
  unfold has_entries. rewrite Hsel. cbn [bind].
  destruct (Z.of_nat (List.length sel) >? 0); [eauto|].
  rewrite Hwh. cbn [bind]. eauto.
Qed.

Lemma createJson_attribute_returns (attributes : list string) (value : entry) :
  wf_select_entry value = true ->
  exists attributes',
    createJson_attribute attributes value = Returned attributes' /\ True.
Proof.
  destruct value as [|[k v] [|? ?]]; try discriminate. intros _.
  unfold createJson_attribute. destruct (existsb (String.eqb k) attributes); eauto.
Qed.

Lemma initial_json_ready :
  json_ready (mkJsonState [("point", []); ("polygon", []); ("line", [])]
                          [("point", []); ("polygon", []); ("line", [])]
                          empty_tag_filters).
Proof.
  repeat split; intros cls [<- | [<- | [<- | []]]];
    try reflexivity; eexists; repeat split; reflexivity.
Qed.

(** On a configuration of the data model the dictionary is built. *)
Lemma createJson_feature_returns (config : QueryConfig) (boundary : pyval) :
  wf_config config = true ->
  exists feature, createJson_feature config boundary = Returned feature.
Proof.
  unfold wf_config, has_classes. intros H.
  apply andb_true_iff in H as [H Hselect].
  apply andb_true_iff in H as [H Hwhere].
  apply andb_true_iff in H as [Hs Hw].
  apply andb_true_iff in Hs as [Hs Hs3]. apply andb_true_iff in Hs as [Hs1 Hs2].
  apply andb_true_iff in Hw as [Hw Hw3]. apply andb_true_iff in Hw as [Hw1 Hw2].
  destruct (has_entries_returns config "nodes" Hs1 Hw1) as (b1 & E1).
  destruct (has_entries_returns config "ways_line" Hs2 Hw2) as (b2 & E2).
  destruct (has_entries_returns config "ways_poly" Hs3 Hw3) as (b3 & E3).
  unfold createJson_feature. rewrite E1. cbn [bind]. rewrite E2. cbn [bind].
  rewrite E3. cbn [bind].
  destruct (foldM_invariant
              (fun st (tbl : string * list entry) =>
                 foldM (createJson_item (fst tbl)) (snd tbl) st)
              json_ready (config_where config)) with
    (s := mkJsonState [("point", []); ("polygon", []); ("line", [])]
                      [("point", []); ("polygon", []); ("line", [])]
                      empty_tag_filters) as (st & -> & _).
  - intros s tbl Htbl Hs. apply foldM_invariant; [|assumption].
    intros s0 item Hitem Hs0. apply createJson_item_ready; [|assumption].
    rewrite forallb_forall in Hwhere. specialize (Hwhere tbl Htbl).
    rewrite forallb_forall in Hwhere. exact (Hwhere item Hitem).
  - apply initial_json_ready.
  - cbn [bind].
    destruct (foldM_invariant
                (fun attributes (tbl : string * list entry) =>
                   foldM createJson_attribute (snd tbl) attributes)
                (fun _ => True) (config_select config)) with (s := @nil string)
      as (attributes & -> & _).
    + intros s tbl Htbl _. apply foldM_invariant; [|exact I].
      intros s0 value Hvalue _. apply createJson_attribute_returns.
      rewrite forallb_forall in Hselect. specialize (Hselect tbl Htbl).
      rewrite forallb_forall in Hselect. exact (Hselect value Hvalue).
    + exact I.
    + cbn [bind]. eauto.
Qed.

(** C10 (as amended).  On a configuration of the data model, which has
    the three geometry classes under "select" and under "where", whose
    where entries all sit under one of the three classes, start with their
    attribute, hold a list, a dictionary or a text for it and have an "op",
    and whose select entries are one pair each, createJson raises the
    undefined-name error when the configuration has the key "centroid",
    and returns the serialized dictionary when it has not. *)
Theorem createJson_total_without_centroid (config : QueryConfig)
  (boundary : pyval) (allgeom : bool) :
  wf_config config = true ->
  (config_centroid config = true ->
   createJson config boundary allgeom = Raised NameError)
  /\ (config_centroid config = false ->
      exists feature,
        createJson_feature config boundary = Returned feature
        /\ createJson config boundary allgeom = Returned (Json.dumps feature)).
Proof.
  intros Hwf.
  destruct (createJson_feature_returns config boundary Hwf) as (feature & Hf).
  unfold createJson. rewrite Hf. cbn [bind]. split; intros ->.
  - reflexivity.
  - now exists feature.
Qed.

Lemma createJson_total_without_centroid_witness :
  createJson Inputs.or_school_centroid VNone true = Raised NameError
  /\ exists feature,
       createJson_feature Inputs.or_school VNone = Returned feature
       /\ createJson Inputs.or_school VNone true = Returned (Json.dumps feature).
Proof.
  split.
  - apply (proj1 (createJson_total_without_centroid
                    Inputs.or_school_centroid VNone true eq_refl)).
    reflexivity.
  - apply (proj2 (createJson_total_without_centroid
                    Inputs.or_school VNone true eq_refl)).
    reflexivity.
Defined.

(** C10, as stated, fails outside the data model: with a where entry on
    relations createJson raises KeyError, so it returns no document
    although the configuration has no "centroid", and with the key
    "centroid" the error is this KeyError and not the undefined name. *)
Lemma createJson_relations_filter_raises :
  createJson Inputs.routes Inputs.polygon_wkt true = Raised KeyError
  /\ createJson Inputs.routes_centroid Inputs.polygon_wkt true
     = Raised KeyError.
Proof. split; reflexivity. Qed.

(** * Further facts *)

Local Open Scope Z_scope.

(** ** The constructor *)


Lemma uriParser_dbname_missing (source : string) :
  PyStr.find source "/" <= 0 ->
  0 <= PyStr.find source ":" \/ 0 <= PyStr.find source "@"
  \/ 0 <= PyStr.find source "/" ->
  dbname (uriParser source) = None.
Proof.
  intros Hslash Hsep. unfold uriParser. cbn [dbname].
  replace (PyStr.find source "/" >? 0) with false
    by (symmetry; rewrite Z.gtb_ltb; apply Z.ltb_ge; lia).
  destruct (PyStr.find source ":" <? 0) eqn:E1; [|reflexivity].
  destruct (PyStr.find source "@" <? 0) eqn:E2; [|reflexivity].
  destruct (PyStr.find source "/" <? 0) eqn:E3; [|reflexivity].
  apply Z.ltb_lt in E1, E2, E3. lia.
Qed.

(** X2.  A connection string that has a separator but no slash after its
    first character names no database, and the constructor raises
    TypeError before it reaches the driver. *)
Theorem init_without_database_name (host : Host) (source : string) :
  PyStr.find source "/" <= 0 ->
  0 <= PyStr.find source ":" \/ 0 <= PyStr.find source "@"
  \/ 0 <= PyStr.find source "/" ->
  DatabaseAccess_init host source = Raised TypeError.
Proof.
  intros Hslash Hsep. unfold DatabaseAccess_init, connect_string.
  now rewrite (uriParser_dbname_missing source Hslash Hsep).
Qed.

Lemma init_without_database_name_witness :
  DatabaseAccess_init Examples.unreachable "user@host" = Raised TypeError.
Proof.
  apply init_without_database_name.
  - vm_compute. discriminate.
  - right. left. vm_compute. discriminate.
Defined.

(** X3.  For every text user:pass@host:port/name whose database is not the
    reserved name, the constructor gives the driver the database, the user
    and the password only: the host and the port that were parsed are not
    used. *)
Theorem init_ignores_host_and_port (host : Host)
  (user pass dbhost_ port name : string) :
  user <> "" -> dbhost_ <> "" -> name <> "underpass" ->
  plain user = true -> plain pass = true ->
  plain dbhost_ = true -> plain port = true -> lacks ":" name = true ->
  let source := user ++ ":" ++ pass ++ "@" ++ dbhost_ ++ ":" ++ port
                ++ "/" ++ name in
  DatabaseAccess_init host source
  = Returned (open_connection host (uriParser source)
                ("dbname=" ++ name ++ " user=" ++ user
                 ++ " password=" ++ pass)).
Proof.
  intros Hu Hh Hn Pu Pp Ph Pq Ln source.
  unfold DatabaseAccess_init. fold source.
  unfold source at 1 3.
  rewrite (uriParser_full user pass dbhost_ port name Hu Hh Pu Pp Ph Pq Ln).
  cbn [dbname]. apply String.eqb_neq in Hn. rewrite Hn.
  unfold connect_string. cbn [dbname dbuser dbpass bind connect_field].
  now rewrite !app_assoc.
Qed.

Lemma init_ignores_host_and_port_witness :
  DatabaseAccess_init Examples.unreachable "user:pass@host:5432/name"
  = Returned (open_connection Examples.unreachable
                (uriParser "user:pass@host:5432/name")
                "dbname=name user=user password=pass").
Proof.
  apply (init_ignores_host_and_port Examples.unreachable
           "user" "pass" "host" "5432" "name");
    try discriminate; reflexivity.
Defined.

Lemma init_opens_bare_name (host : Host) (name : string) :
  plain name = true -> name <> "underpass" ->
  DatabaseAccess_init host name
  = Returned (open_connection host (uriParser name) ("dbname=" ++ name)).
Proof.
  intros Hp Hn.
  unfold DatabaseAccess_init. rewrite (uriParser_name name Hp).
  cbn [dbname]. apply String.eqb_neq in Hn. rewrite Hn.
  unfold connect_string. cbn [dbname dbuser dbpass bind connect_field].
  now rewrite !app_nil_r.
Qed.

(** X4.  For every bare name other than the reserved one the constructor
    asks the driver for that database and nothing else; a failure of the
    driver is swallowed and leaves the object without a connection, a
    cursor or a remote session. *)
Theorem init_bare_name (host : Host) (name : string) :
  plain name = true -> name <> "underpass" ->
  DatabaseAccess_init host name
  = Returned (open_connection host (uriParser name) ("dbname=" ++ name))
  /\ (forall e, psycopg2_connect host ("dbname=" ++ name) = Raised e ->
      DatabaseAccess_init host name
      = Returned (mkDatabaseAccess None None (uriParser name) None)).
Proof.
  intros Hp Hn. pose proof (init_opens_bare_name host name Hp Hn) as E.
  split; [exact E|]. intros e He. rewrite E. unfold open_connection.
  now rewrite He.
Qed.

Lemma init_bare_name_witness :
  DatabaseAccess_init Examples.unreachable "osm"
  = Returned (open_connection Examples.unreachable (uriParser "osm")
                "dbname=osm")
  /\ (forall e,
        psycopg2_connect Examples.unreachable ("dbname=" ++ "osm") = Raised e ->
        DatabaseAccess_init Examples.unreachable "osm"
        = Returned (mkDatabaseAccess None None (uriParser "osm") None)).
Proof.
  apply (init_bare_name Examples.unreachable "osm");
    [reflexivity | discriminate].
Defined.

(** ** createSQL as a whole *)

Lemma createSQL_loop_returns (config : QueryConfig) (allgeom : bool)
  (declared : list string) :
  forall sql out,
    foldM (fun sql table =>
             query <- createSQL_table config allgeom table ;;
             Returned ((sql ++ [query])%list))
          declared sql = Returned out ->
    exists queries,
      out = (sql ++ queries)%list
      /\ Forall2 (fun table query =>
                    createSQL_table config allgeom table = Returned query)
                 declared queries.
Proof.
  induction declared as [|t ts IH]; intros sql out H; cbn [foldM] in H.
  - injection H as <-. exists []. now rewrite List.app_nil_r.
  - destruct (createSQL_table config allgeom t) as [q|e] eqn:E;
      [|discriminate].
    cbn [bind] in H. destruct (IH _ _ H) as (qs & -> & HF).
    exists (q :: qs). rewrite <- List.app_assoc. split; [reflexivity|].
    now constructor.
Qed.

(** X5.  createSQL returns a list exactly when every declared table
    compiles, and the list then holds the statement of each declared table,
    in the order of the declaration. *)
Theorem createSQL_one_statement_per_table (config : QueryConfig)
  (allgeom : bool) (sql : list string) :
  createSQL config allgeom = Returned sql
  <-> Forall2 (fun table query =>
                 createSQL_table config allgeom table = Returned query)
              (config_tables config) sql.
Proof.
  unfold createSQL. split.
  - intros H. destruct (createSQL_loop_returns _ _ _ _ _ H) as (qs & -> & HF).
    exact HF.
  - intros HF.
    destruct (createSQL_collects config allgeom
                (fun table query =>
                   createSQL_table config allgeom table = Returned query)
                (config_tables config) []) as (qs & Hqs & HF').
    + intros table Hin. clear - HF Hin.
      induction HF as [|t q ts qs Ht _ IH]; [contradiction|].
      destruct Hin as [<- | Hin]; [eauto | auto].
    + rewrite Hqs. f_equal. cbn [app]. clear - HF HF'.
      revert qs HF'. induction HF as [|t q ts sql Ht _ IH]; intros qs HF'.
      * now inversion HF'.
      * inversion HF' as [|? q' ? qs' Ht' HF'' ]; subst.
        rewrite Ht in Ht'. injection Ht' as <-. f_equal. now apply IH.
Qed.

Lemma createSQL_one_statement_per_table_witness :
  createSQL Inputs.two_tables true
  = Returned
      ["SELECT ST_AsText(geom), osm_id, version, tags->>'amenity' FROM nodes WHERE tags->>'amenity' ='school'";
       "SELECT ST_AsText(geom), osm_id, version, tags->>'building' FROM ways_poly WHERE tags->>'building' ='yes'"].
Proof.
  apply (proj2 (createSQL_one_statement_per_table Inputs.two_tables true _)).
  repeat constructor.
Defined.

(** X6.  A declared table that is no key of the selections makes createSQL
    raise KeyError once the tables declared before it have compiled; the
    statements of those tables are lost. *)
Theorem createSQL_unknown_table (config : QueryConfig) (allgeom : bool)
  (before after : list string) (table : string) :
  config_tables config = (before ++ table :: after)%list ->
  (forall t, In t before ->
     exists query, createSQL_table config allgeom t = Returned query) ->
  Py.get (config_select config) table = None ->
  createSQL config allgeom = Raised KeyError.
Proof.
  intros Ht Hb Hs. unfold createSQL. rewrite Ht, foldM_app.
  destruct (createSQL_collects config allgeom (fun _ _ => True) before [])
    as (qs & -> & _).
  { intros t Hin. destruct (Hb t Hin) as (q & Hq). eauto. }
  cbn [bind foldM]. unfold createSQL_table, select_clause, Py.getitem.
  now rewrite Hs.
Qed.

Lemma createSQL_unknown_table_witness :
  createSQL Examples.undeclared true = Raised KeyError.
Proof.
  apply (createSQL_unknown_table Examples.undeclared true ["nodes"] []
           "relations").
  - reflexivity.
  - intros t [<- | []]. eexists. reflexivity.
  - reflexivity.
Defined.

Lemma loose_keys (cs : list Clause) :
  Forall loose_clause cs -> Forall (fun c => clause_key c <> "op") cs.
Proof. apply Forall_impl. now intros c (Hk & _). Qed.

Lemma loose_or_group (cs : list Clause) :
  Forall loose_clause cs ->
  Forall (fun c => clause_key c <> "op") (filter is_or cs).
Proof.
  intros H. apply Forall_forall. intros c Hc. apply filter_In in Hc.
  rewrite Forall_forall in H. now destruct (H c (proj1 Hc)).
Qed.

Lemma loose_and_group (cs : list Clause) :
  Forall loose_clause cs ->
  Forall (fun c => clause_key c <> "op" /\ clause_values c <> [])
         (filter is_and cs).
Proof.
  intros H. apply Forall_forall. intros c Hc. apply filter_In in Hc.
  rewrite Forall_forall in H. destruct (H c (proj1 Hc)) as (Hk & Hv).
  split; [assumption | apply Hv, Hc].
Qed.

(** The statement of a table whose clauses may have any operator. *)
Lemma createSQL_table_loose (config : QueryConfig) (allgeom : bool)
  (table select : string) (cs : list Clause) :
  select_clause config allgeom table = Returned select ->
  Py.getitem (config_where config) table = Returned (map entry_of cs) ->
  Forall loose_clause cs ->
  createSQL_table config allgeom table
  = Returned (cut_last_word
                (raw_query select table
                   (spec_group " OR " (filter is_or cs))
                   (spec_group " AND " (filter is_and cs)))).
Proof.
  intros Hsel Hwhere Hl. unfold createSQL_table.
  rewrite Hsel, Hwhere. cbn [bind].
  rewrite (join_entries_clauses cs [] [] (loose_keys cs Hl)). cbn [bind app].
  rewrite and_group_filter.
  rewrite (jor_group _ "" (loose_or_group cs Hl)). cbn [bind].
  rewrite (jand_group _ "" (loose_and_group cs Hl)). cbn [bind].
  reflexivity.
Qed.

Lemma filter_known (p : Clause -> bool) (cs : list Clause) :
  (forall c, p c = true -> known_operator c = true) ->
  filter p (filter known_operator cs) = filter p cs.
Proof.
  intros H. induction cs as [|c cs IH]; [reflexivity|]. cbn [filter].
  destruct (known_operator c) eqn:Ek; cbn [filter].
  - now rewrite IH.
  - destruct (p c) eqn:Ep; [|exact IH].
    rewrite (H c Ep) in Ek. discriminate.
Qed.

(** X7.  A where clause whose operator is neither "or" nor "and" is left
    out of the statement without an error: the table compiles to the same
    text as it does once such clauses are removed from the configuration. *)
Theorem createSQL_drops_other_operators (config : QueryConfig)
  (allgeom : bool) (table select : string) (cs : list Clause) :
  select_clause config allgeom table = Returned select ->
  Py.getitem (config_where config) table = Returned (map entry_of cs) ->
  Forall loose_clause cs ->
  createSQL_table config allgeom table
  = createSQL_table
      (with_where config table (map entry_of (filter known_operator cs)))
      allgeom table.
Proof.
  intros Hsel Hwhere Hl.
  rewrite (createSQL_table_loose _ _ _ _ _ Hsel Hwhere Hl).
  rewrite (createSQL_table_loose
             (with_where config table (map entry_of (filter known_operator cs)))
             allgeom table select (filter known_operator cs)).
  - rewrite !filter_known; [reflexivity | |];
      intros c Hc; unfold known_operator; rewrite Hc;
      [apply orb_true_r | reflexivity].
  - exact Hsel.
  - unfold with_where, Py.getitem. cbn [config_where].
    now rewrite get_set_same.
  - rewrite Forall_forall in *. intros c Hc. apply filter_In in Hc.
    apply Hl, Hc.
Qed.

Lemma createSQL_drops_other_operators_witness :
  createSQL_table Examples.mixed true "nodes"
  = createSQL_table
      (with_where Examples.mixed "nodes"
         (map entry_of (filter known_operator Examples.mixed_clauses)))
      true "nodes".
Proof.
  apply (createSQL_drops_other_operators Examples.mixed true "nodes"
           "SELECT ST_AsText(geom), osm_id, version" Examples.mixed_clauses).
  - reflexivity.
  - reflexivity.
  - repeat constructor; try discriminate.
Defined.

(** ** createJson as a whole *)

Lemma has_entries_value (config : QueryConfig) (table : string) :
  Py.mem (config_select config) table = true ->
  Py.mem (config_where config) table = true ->
  has_entries config table = Returned (table_is_used config table).
Proof.
  unfold Py.mem, has_entries, table_is_used, Py.getitem. intros Hs Hw.
  destruct (Py.get (config_select config) table) as [sel|]; [|discriminate].
  destruct (Py.get (config_where config) table) as [wh|]; [|discriminate].
  cbn [bind]. destruct sel as [|e sel]; cbn [List.length].
  - cbn. destruct wh; reflexivity.
  - replace (Z.of_nat (S (List.length sel)) >? 0) with true
      by (symmetry; rewrite Z.gtb_ltb; apply Z.ltb_lt; lia).
    reflexivity.
Qed.

(** X8.  On a configuration of the data model the document createJson
    builds has three entries, in this order: the boundary, unchanged, under
    "geometry"; under "geometryType" the types point, line and polygon of
    the tables nodes, ways_line and ways_poly that have a selection or a
    where entry; and the filters. *)
Theorem createJson_document (config : QueryConfig) (boundary : pyval) :
  wf_config config = true ->
  exists filters,
    createJson_feature config boundary
    = Returned (VDict [("geometry", boundary);
                       ("geometryType", VList (geometry_types config));
                       ("filters", filters)]).
Proof.
  unfold wf_config, has_classes. intros H.
  apply andb_true_iff in H as [H Hselect].
  apply andb_true_iff in H as [H Hwhere].
  apply andb_true_iff in H as [Hs Hw].
  apply andb_true_iff in Hs as [Hs Hs3]. apply andb_true_iff in Hs as [Hs1 Hs2].
  apply andb_true_iff in Hw as [Hw Hw3]. apply andb_true_iff in Hw as [Hw1 Hw2].
  unfold createJson_feature.
  rewrite (has_entries_value config "nodes" Hs1 Hw1). cbn [bind].
  rewrite (has_entries_value config "ways_line" Hs2 Hw2). cbn [bind].
  rewrite (has_entries_value config "ways_poly" Hs3 Hw3). cbn [bind].
  destruct (foldM_invariant
              (fun st (tbl : string * list entry) =>
                 foldM (createJson_item (fst tbl)) (snd tbl) st)
              json_ready (config_where config)) with
    (s := mkJsonState [("point", []); ("polygon", []); ("line", [])]
                      [("point", []); ("polygon", []); ("line", [])]
                      empty_tag_filters) as (st & -> & _).
  - intros s tbl Htbl Hst. apply foldM_invariant; [|assumption].
    intros s0 item Hitem Hs0. apply createJson_item_ready; [|assumption].
    rewrite forallb_forall in Hwhere. specialize (Hwhere tbl Htbl).
    rewrite forallb_forall in Hwhere. exact (Hwhere item Hitem).
  - apply initial_json_ready.
  - cbn [bind].
    destruct (foldM_invariant
                (fun attributes (tbl : string * list entry) =>
                   foldM createJson_attribute (snd tbl) attributes)
                (fun _ => True) (config_select config)) with (s := @nil string)
      as (attributes & -> & _).
    + intros s tbl Htbl _. apply foldM_invariant; [|exact I].
      intros s0 value Hvalue _. apply createJson_attribute_returns.
      rewrite forallb_forall in Hselect. specialize (Hselect tbl Htbl).
      rewrite forallb_forall in Hselect. exact (Hselect value Hvalue).
    + exact I.
    + cbn [bind]. exists (filters_value (tags_of st)).
      unfold geometry_types.
      destruct (table_is_used config "nodes"),
        (table_is_used config "ways_line"),
        (table_is_used config "ways_poly"); reflexivity.
Qed.

Lemma createJson_document_witness :
  exists filters,
    createJson_feature Inputs.buildings Examples.area
    = Returned (VDict [("geometry", Examples.area);
                       ("geometryType",
                        VList (geometry_types Inputs.buildings));
                       ("filters", filters)]).
Proof.
  apply (createJson_document Inputs.buildings Examples.area). reflexivity.
Defined.

(** X9.  After the loop of createJson over the clauses of a table, the
    value list recorded for the key of the last clause, under join_or and
    under join_and of the class of the table, is that of the last clause,
    whatever the clauses before it recorded for that key. *)
Theorem createJson_last_clause_wins (table cls : string) (st : json_state)
  (cs : list Clause) (c : Clause) :
  Py.getitem geometry_class table = Returned cls ->
  Forall (fun c' => clause_key c' <> "op") (cs ++ [c]) ->
  json_ready st ->
  exists st',
    foldM (createJson_item table) (map entry_of (cs ++ [c])) st = Returned st'
    /\ filter_of (tags_of st') cls "join_or" (clause_key c)
       = Some (recorded_values c)
    /\ filter_of (tags_of st') cls "join_and" (clause_key c)
       = Some (recorded_values c).
Proof.
  intros Hcls Hk Hst.
  assert (Hc : In cls classes).
  { destruct (geometry_class_known table) as (cls' & E & Hin).
    - unfold Py.mem. unfold Py.getitem in Hcls.
      now destruct (Py.get geometry_class table).
    - rewrite Hcls in E. now injection E as <-. }
  apply Forall_app in Hk as [Hcs Hlast]. inversion Hlast as [|? ? Hkc _]; subst.
  rewrite List.map_app, foldM_app.
  destruct (foldM_invariant (createJson_item table) json_ready
              (map entry_of cs)) with (s := st) as (s1 & -> & Hs1).
  - intros s x Hx Hs. apply in_map_iff in Hx as (c' & <- & Hc').
    rewrite Forall_forall in Hcs.
    destruct (createJson_item_both_groups table cls s c' (Hcs c' Hc')
                Hcls Hc Hs) as (s' & E & Hr & _).
    eauto.
  - exact Hst.
  - cbn [bind map foldM].
    destruct (createJson_item_both_groups table cls s1 c Hkc Hcls Hc Hs1)
      as (s' & -> & _ & H1 & H2).
    cbn [bind]. eauto.
Qed.

Lemma createJson_last_clause_wins_witness :
  exists st',
    foldM (createJson_item "nodes")
          (map entry_of ([mkClause "amenity" "or" ["school"]]
                         ++ [mkClause "amenity" "and" ["clinic"; "not null"]]))
          (mkJsonState [("point", []); ("polygon", []); ("line", [])]
                       [("point", []); ("polygon", []); ("line", [])]
                       empty_tag_filters)
    = Returned st'
    /\ filter_of (tags_of st') "point" "join_or" "amenity" = Some (VList [])
    /\ filter_of (tags_of st') "point" "join_and" "amenity" = Some (VList []).
Proof.
  apply (createJson_last_clause_wins "nodes" "point" _
           [mkClause "amenity" "or" ["school"]]
           (mkClause "amenity" "and" ["clinic"; "not null"])).
  - reflexivity.
  - repeat constructor; discriminate.
  - apply initial_json_ready.
Defined.

Lemma createJson_item_foreign_table (table : string) (st : json_state)
  (c : Clause) :
  Py.get geometry_class table = None -> clause_key c <> "op" ->
  createJson_item table st (entry_of c) = Raised KeyError.
Proof.
  intros Ht Hk. unfold createJson_item, entry_of.
  cbn [Py.keys map fst bind]. unfold Py.getitem. cbn [Py.get].
  rewrite (eqb_op_false _ Hk), (String.eqb_refl (clause_key c)), Ht.
  cbn [String.eqb Ascii.eqb Bool.eqb bind].
  destruct (Py.eq_str (VStr (clause_op c)) "or"); [reflexivity|]. cbn [bind].
  destruct (Py.eq_str (VStr (clause_op c)) "and"); [reflexivity|]. cbn [bind].
  now rewrite contains_sentinel.
Qed.

(** X10.  A where entry on a table that is none of nodes, ways_poly and
    ways_line makes createJson raise KeyError, whatever its operator, once
    the entries of the tables before it were recorded. *)
Theorem createJson_foreign_table (config : QueryConfig) (boundary : pyval)
  (allgeom : bool) (before after : dict (list entry)) (table : string)
  (c : Clause) (rest : list entry) :
  has_classes (config_select config) = true ->
  has_classes (config_where config) = true ->
  config_where config
  = (before ++ (table, entry_of c :: rest) :: after)%list ->
  forallb (fun tbl => forallb (wf_where_item (fst tbl)) (snd tbl)) before
  = true ->
  Py.get geometry_class table = None -> clause_key c <> "op" ->
  createJson config boundary allgeom = Raised KeyError.
Proof.
  unfold has_classes. intros Hs Hw Hwhere Hbefore Ht Hk.
  apply andb_true_iff in Hs as [Hs Hs3]. apply andb_true_iff in Hs as [Hs1 Hs2].
  apply andb_true_iff in Hw as [Hw Hw3]. apply andb_true_iff in Hw as [Hw1 Hw2].
  unfold createJson, createJson_feature.
  rewrite (has_entries_value config "nodes" Hs1 Hw1). cbn [bind].
  rewrite (has_entries_value config "ways_line" Hs2 Hw2). cbn [bind].
  rewrite (has_entries_value config "ways_poly" Hs3 Hw3). cbn [bind].
  rewrite Hwhere, foldM_app.
  destruct (foldM_invariant
              (fun st (tbl : string * list entry) =>
                 foldM (createJson_item (fst tbl)) (snd tbl) st)
              json_ready before) with
    (s := mkJsonState [("point", []); ("polygon", []); ("line", [])]
                      [("point", []); ("polygon", []); ("line", [])]
                      empty_tag_filters) as (st & -> & _).
  - intros s tbl Htbl Hst. apply foldM_invariant; [|assumption].
    intros s0 item Hitem Hs0. apply createJson_item_ready; [|assumption].
    rewrite forallb_forall in Hbefore. specialize (Hbefore tbl Htbl).
    rewrite forallb_forall in Hbefore. exact (Hbefore item Hitem).
  - apply initial_json_ready.
  - cbn [bind foldM fst snd].
    now rewrite (createJson_item_foreign_table table st c Ht Hk).
Qed.

Lemma createJson_foreign_table_witness :
  createJson Examples.with_relations Examples.area true = Raised KeyError.
Proof.
  apply (createJson_foreign_table Examples.with_relations Examples.area true
           (Inputs.three [entry_of (mkClause "amenity" "or" ["school"])] [] [])
           [] "relations" (mkClause "type" "or" ["route"]) []);
    try reflexivity.
  discriminate.
Defined.

(** ** queryLocal as a whole *)

(** Splits the goal on the outcome of every statement sent to the cursor. *)
Ltac executed H :=
  repeat match type of H with
         | context [bind (execute ?c ?s) _] =>
             destruct (execute c s) as [[]|?]; cbn [bind] in H;
             [|discriminate H]
         end.

(** X11.  When the cursor executes the statements queryLocal sends it
    (with a boundary the four view definitions and the redirected query,
    the query alone otherwise) but has nothing to fetch, queryLocal returns
    an empty FeatureCollection, whatever the configuration and the
    boundary: the failure of fetchall is not raised. *)
Theorem queryLocal_nothing_fetched (loads : pyval -> outcome Geometry)
  (dbcursor : Cursor) (config : QueryConfig) (query : string)
  (allgeom : bool) (boundary : option string) (e : exn) :
  Forall (fun statement => execute dbcursor statement = Returned tt)
         (sent query boundary) ->
  fetchall dbcursor (final_query query boundary) = Raised e ->
  queryLocal loads dbcursor config query allgeom boundary
  = Returned (FeatureCollection []).
Proof.
  intros Hx Hf. rewrite (queryLocal_sent _ _ _ _ _ _ Hx).
  unfold queryLocal, final_query in *.
  destruct boundary as [wkt|]; cbn [execute fetchall bind]; now rewrite Hf.
Qed.

Lemma queryLocal_nothing_fetched_witness :
  queryLocal Inputs.wkt_loads Examples.nothing_to_fetch Inputs.buildings
             "CREATE INDEX ON ways_poly (osm_id)" true None
  = Returned (FeatureCollection []).
Proof.
  apply (queryLocal_nothing_fetched Inputs.wkt_loads Examples.nothing_to_fetch
           Inputs.buildings _ true None DatabaseError).
  - repeat constructor.
  - reflexivity.
Defined.

Lemma decode_row_geometry (loads : pyval -> outcome Geometry)
  (config : QueryConfig) (query : string) (item : row) (f : Feature) :
  decode_row loads config query item = Returned f ->
  row_geometry loads item = Returned (geometry f).
Proof.
  unfold decode_row, row_geometry. destruct item as [|g rest]; [discriminate|].
  change (row_at (g :: rest) 0) with (Returned g). cbn [bind hd].
  destruct (loads g) as [geom|]; [|discriminate]. cbn [bind].
  destruct (row_at (g :: rest) 1) as [id|]; [|discriminate]. cbn [bind].
  destruct (row_at (g :: rest) 2) as [version|]; [|discriminate]. cbn [bind].
  destruct (Z.of_nat (List.length (config_tables config)) >? 0).
  - destruct (foldM _ (config_select config) _) as [st|]; [|discriminate].
    cbn [bind]. now intros [= <-].
  - destruct (list_at _ 2) as [r2|]; [|discriminate]. cbn [bind].
    destruct (list_at _ 3) as [r3|]; [|discriminate]. cbn [bind].
    now intros [= <-].
Qed.

Lemma decode_rows_geometries (loads : pyval -> outcome Geometry)
  (config : QueryConfig) (query : string) (result : list row)
  (items : list row) :
  forall features out,
    decode_rows loads config query result items features
    = Returned (FeatureCollection out) ->
    exists decoded,
      out = (features ++ decoded)%list
      /\ map (row_geometry loads) items
         = map (fun f => Returned (geometry f)) decoded.
Proof.
  induction items as [|item items IH]; intros features out H;
    cbn [decode_rows] in H.
  - injection H as <-. exists []. now rewrite List.app_nil_r.
  - destruct ((Z.of_nat (List.length item) <=? 1)
              && (Z.of_nat (List.length result) =? 1)); [discriminate|].
    destruct (decode_row loads config query item) as [f|] eqn:Ef;
      [|discriminate].
    cbn [bind] in H. destruct (IH _ _ H) as (decoded & -> & Hg).
    exists (f :: decoded). rewrite <- List.app_assoc. split; [reflexivity|].
    cbn [map]. now rewrite Hg, (decode_row_geometry _ _ _ _ _ Ef).
Qed.

(** X12.  Whenever queryLocal returns a FeatureCollection for rows that
    were fetched, it holds one feature per row, in the order of the rows,
    and the geometry of each feature is the one wkt.loads returned for the
    first column of its row. *)
Theorem queryLocal_one_feature_per_row (loads : pyval -> outcome Geometry)
  (dbcursor : Cursor) (config : QueryConfig) (query : string)
  (allgeom : bool) (boundary : option string) (rows : list row)
  (features : list Feature) :
  fetchall dbcursor (final_query query boundary) = Returned rows ->
  queryLocal loads dbcursor config query allgeom boundary
  = Returned (FeatureCollection features) ->
  map (fun f => Returned (geometry f)) features
  = map (row_geometry loads) rows.
Proof.
  intros Hf H. unfold queryLocal, final_query in *.
  destruct boundary as [wkt|]; cbn [bind] in H; executed H;
    rewrite Hf in H;
    (destruct (Py.getitem (config_where config) "ways_poly") as [wp|];
     [|discriminate H]); cbn [bind] in H;
    (destruct (Z.of_nat (List.length wp) =? 0);
     [destruct (Py.getitem (config_where config) "nodes") as [wn|];
      [|discriminate H];
      cbn [bind] in H;
      destruct (Z.of_nat (List.length wn) =? 0); [discriminate H|]
     |]);
    cbn [bind] in H;
    destruct (decode_rows_geometries _ _ _ _ _ _ _ H) as (decoded & -> & Hg);
    symmetry; exact Hg.
Qed.

Lemma queryLocal_one_feature_per_row_witness :
  map (fun f => Returned (geometry f))
      [mkFeature Inputs.polygon
         [("id", VInt 7); ("version", VInt 2); ("building", VStr "yes")];
       mkFeature Inputs.polygon
         [("id", VInt 8); ("version", VInt 1); ("name", VStr "Hall")]]
  = map (row_geometry Inputs.wkt_loads)
        [[Inputs.polygon_wkt; VInt 7; VInt 2; VStr "yes"; VNone];
         [Inputs.polygon_wkt; VInt 8; VInt 1; VNone; VStr "Hall"]].
Proof.
  apply (queryLocal_one_feature_per_row Inputs.wkt_loads
           (Inputs.select_cursor
              [[Inputs.polygon_wkt; VInt 7; VInt 2; VStr "yes"; VNone];
               [Inputs.polygon_wkt; VInt 8; VInt 1; VNone; VStr "Hall"]])
           Inputs.buildings "SELECT x FROM ways_poly WHERE y" true None);
    reflexivity.
Defined.

(** ** The decoder at its bounds *)

Local Open Scope list_scope.

(** The inner loop on any number of columns: it stops at the end of the
    row or of the attributes, whichever comes first. *)
Lemma decode_entries_any (attrs : list (string * pyval)) :
  forall (columns pre : row) (tags : dict pyval),
    NoDup (Py.keys tags ++ map fst attrs) ->
    decode_entries (pre ++ columns) (map select_entry_of attrs)
                   (tags, Z.of_nat (List.length pre))
    = Returned (tags ++ present (combine (map fst attrs) columns),
                Z.of_nat (List.length pre
                          + Nat.min (List.length attrs) (List.length columns))).
Proof.
  induction attrs as [|[k hint] attrs IH]; intros columns pre tags Hnd.
  - cbn [map decode_entries combine present filter List.length Nat.min].
    now rewrite List.app_nil_r, Nat.add_0_r.
  - cbn [map decode_entries select_entry_of].
    destruct columns as [|x columns].
    + rewrite List.app_nil_r, Z.eqb_refl.
      cbn [map combine present filter List.length Nat.min].
      now rewrite List.app_nil_r, Nat.add_0_r.
    + destruct (Z.of_nat (List.length pre)
                =? Z.of_nat (List.length (pre ++ x :: columns))) eqn:E.
      { apply Z.eqb_eq in E. rewrite List.length_app in E. simpl in E. lia. }
      rewrite row_at_middle. cbn [bind].
      replace (pre ++ x :: columns) with ((pre ++ [x]) ++ columns)
        by (now rewrite <- List.app_assoc).
      replace (Z.of_nat (List.length pre) + 1)%Z
        with (Z.of_nat (List.length (pre ++ [x])))
        by (rewrite List.length_app; simpl; lia).
      cbn [map fst] in Hnd.
      rewrite IH.
      * f_equal. f_equal.
        -- cbn [map fst combine present filter snd].
           destruct (is_none x); cbn [negb]; [reflexivity|].
           rewrite set_fresh.
           ++ now rewrite <- List.app_assoc.
           ++ apply NoDup_remove_2 in Hnd. intros Hin. apply Hnd.
              apply in_or_app. now left.
        -- rewrite List.length_app. simpl. lia.
      * destruct (is_none x).
        -- now apply NoDup_remove_1 in Hnd.
        -- rewrite set_fresh.
           ++ unfold Py.keys in *. rewrite List.map_app, <- List.app_assoc.
              exact Hnd.
           ++ apply NoDup_remove_2 in Hnd. intros Hin. apply Hnd.
              apply in_or_app. now left.
Qed.

(** X13.  When one table alone selects attributes, with keys that differ
    from one another and from "id" and "version", a row of any width whose
    first column wkt.loads reads is decoded: the columns after the version
    are paired with the attributes in order, attributes beyond the end of
    the row and columns beyond the last attribute are dropped, and so are
    null columns. *)
Theorem decode_row_any_width (loads : pyval -> outcome Geometry)
  (config : QueryConfig) (table query : string)
  (attrs : list (string * pyval)) (g id version : pyval) (geom : Geometry)
  (columns : row) :
  config_tables config <> [] ->
  only_table_selects config table (map select_entry_of attrs) ->
  NoDup ("id" :: "version" :: map fst attrs) ->
  loads g = Returned geom ->
  decode_row loads config query (g :: id :: version :: columns)
  = Returned (mkFeature geom
                (("id", id) :: ("version", version)
                 :: present (combine (map fst attrs) columns))).
Proof.
  intros Ht (before & after & Hsel & Hb & Ha & _) Hnd Hg.
  unfold decode_row. cbn [row_at Z.to_nat nth_error bind Pos.to_nat].
  rewrite Hg. cbn [bind].
  change (row_at (g :: id :: version :: columns) 1) with (Returned id).
  change (row_at (g :: id :: version :: columns) 2) with (Returned version).
  cbn [bind].
  destruct (Z.of_nat (List.length (config_tables config)) >? 0)%Z eqn:E.
  2:{ destruct (config_tables config); [contradiction|].
      simpl in E. discriminate. }
  rewrite Hsel, foldM_app, (decode_nothing _ _ _ Hb). cbn [bind foldM snd].
  change (Py.set (Py.set [] "id" id) "version" version)
    with [("id", id); ("version", version)].
  change (g :: id :: version :: columns)
    with ([g; id; version] ++ columns).
  change 3%Z with (Z.of_nat (List.length [g; id; version])).
  rewrite (decode_entries_any attrs columns [g; id; version]
             [("id", id); ("version", version)] Hnd).
  cbn [bind]. now rewrite (decode_nothing _ _ _ Ha).
Qed.

Lemma decode_row_any_width_witness :
  decode_row Inputs.wkt_loads Inputs.buildings "SELECT x FROM ways_poly"
             [Inputs.polygon_wkt; VInt 7; VInt 2; VStr "yes"]
  = Returned (mkFeature Inputs.polygon
                [("id", VInt 7); ("version", VInt 2); ("building", VStr "yes")])
  /\ decode_row Inputs.wkt_loads Inputs.buildings "SELECT x FROM ways_poly"
                [Inputs.polygon_wkt; VInt 7; VInt 2; VNone; VStr "Hall";
                 VStr "extra"]
     = Returned (mkFeature Inputs.polygon
                   [("id", VInt 7); ("version", VInt 2); ("name", VStr "Hall")]).
Proof.
  assert (Hsel : only_table_selects Inputs.buildings "ways_poly"
                   (map select_entry_of
                      [("building", VList []); ("name", VList [])])).
  { exists [("nodes", [])], [("ways_line", [])].
    split; [reflexivity|]. split; [now repeat constructor|].
    split; [now repeat constructor|]. intros [H | []]. discriminate. }
  assert (Hnd : NoDup ("id" :: "version"
                       :: map fst [("building", VList []); ("name", VList [])]))
    by (repeat constructor; simpl; intuition discriminate).
  split.
  - apply (decode_row_any_width Inputs.wkt_loads Inputs.buildings "ways_poly" _
             [("building", VList []); ("name", VList [])]
             Inputs.polygon_wkt (VInt 7) (VInt 2) Inputs.polygon [VStr "yes"]);
      [discriminate | exact Hsel | exact Hnd | reflexivity].
  - apply (decode_row_any_width Inputs.wkt_loads Inputs.buildings "ways_poly" _
             [("building", VList []); ("name", VList [])]
             Inputs.polygon_wkt (VInt 7) (VInt 2) Inputs.polygon
             [VNone; VStr "Hall"; VStr "extra"]);
      [discriminate | exact Hsel | exact Hnd | reflexivity].
Defined.

Local Open Scope string_scope.
Local Open Scope Z_scope.

(** Splitting a text at its first blank. *)
Lemma split_on_word (w rest cur : string) :
  lacks " " w = true ->
  PyStr.split_on " " (w ++ String " " rest) cur
  = (cur ++ w) :: PyStr.split_on " " rest "".
Proof.
  revert cur. induction w as [|x w IH]; intros cur H.
  - cbn [append PyStr.split_on]. rewrite Ascii.eqb_refl. now rewrite app_nil_r.
  - cbn [lacks] in H. apply andb_true_iff in H as [Hx Hw].
    apply negb_true_iff in Hx.
    cbn [append PyStr.split_on]. rewrite Hx, (IH _ Hw).
    now rewrite app_assoc.
Qed.

(** A slice that ends behind a prefix of the text keeps the prefix. *)
Lemma substring_keeps_prefix (a b : string) (n : nat) :
  (String.length a <= n)%nat ->
  substring 0 n (a ++ b) = a ++ substring 0 (n - String.length a) b.
Proof.
  revert n. induction a as [|x a IH]; intros n H.
  - now rewrite Nat.sub_0_r.
  - destruct n as [|n]; [simpl in H; lia|].
    cbn [append substring String.length Nat.sub]. f_equal. apply IH.
    simpl in H. lia.
Qed.

Lemma slice_keeps_prefix (a b : string) (stop : Z) :
  PyStr.len a <= stop ->
  exists tail, PyStr.slice (a ++ b) None (Some stop) = a ++ tail.
Proof.
  intros H. unfold PyStr.slice, PyStr.clamp_index. rewrite len_app.
  pose proof (len_nonneg a) as Ha. pose proof (len_nonneg b) as Hb.
  destruct (stop <? 0) eqn:E; [apply Z.ltb_lt in E; lia|].
  rewrite Z.sub_0_r. change (Z.to_nat 0) with O.
  eexists. apply substring_keeps_prefix.
  unfold PyStr.len in *. lia.
Qed.

(** X14.  With no declared table the decoder names two more properties
    after the third and the fourth word of the query, each without its last
    character, whatever that character is, and stores the id and the
    version under them a second time; this holds for every text whose
    first four words, cut at single blanks, end before its first FROM, and
    every row whose first column wkt.loads reads.  When the column of the
    version is the last one, the version is stored under its name cut by
    one character. *)
Theorem decode_row_custom_names (loads : pyval -> outcome Geometry)
  (config : QueryConfig) (w0 w1 a b rest : string) (x y : ascii)
  (g id version : pyval) (geom : Geometry) (columns : row) :
  let words := w0 ++ String " " (w1 ++ String " " ((a ++ String x "")
                 ++ String " " (b ++ String y ""))) in
  let query := words ++ String " " rest in
  config_tables config = [] ->
  lacks " " w0 = true -> lacks " " w1 = true ->
  lacks " " (a ++ String x "") = true ->
  lacks " " (b ++ String y "") = true ->
  PyStr.len words < PyStr.find query "FROM" ->
  loads g = Returned geom ->
  decode_row loads config query (g :: id :: version :: columns)
  = Returned (mkFeature geom
                (Py.set (Py.set [("id", id); ("version", version)] a id)
                        b version)).
Proof.
  intros words query Ht H0 H1 Ha Hb Hfrom Hg. unfold decode_row.
  change (row_at (g :: id :: version :: columns) 0) with (Returned g).
  change (row_at (g :: id :: version :: columns) 1) with (Returned id).
  change (row_at (g :: id :: version :: columns) 2) with (Returned version).
  cbn [bind]. rewrite Hg. cbn [bind].
  rewrite Ht. cbn [List.length Z.of_nat Z.gtb Z.compare].
  destruct (slice_keeps_prefix (words ++ " ") rest (PyStr.find query "FROM"))
    as (tail & Hq).
  { rewrite len_app. change (PyStr.len " ") with 1. lia. }
  assert (Hsplit : PyStr.split
                     (PyStr.slice query None (Some (PyStr.find query "FROM")))
                     " "
                   = w0 :: w1 :: (a ++ String x "") :: (b ++ String y "")
                     :: PyStr.split_on " " tail "").
  { unfold query at 1.
    replace (words ++ String " " rest) with ((words ++ " ") ++ rest)
      by (now rewrite app_assoc).
    rewrite Hq. unfold PyStr.split.
    replace ((words ++ " ") ++ tail)
      with (w0 ++ String " " (w1 ++ String " " ((a ++ String x "")
              ++ String " " ((b ++ String y "") ++ String " " tail))))
      by (unfold words; repeat (rewrite ?app_assoc; cbn [append]);
          reflexivity).
    rewrite (split_on_word w0 _ "" H0), (split_on_word w1 _ "" H1),
      (split_on_word _ _ "" Ha), (split_on_word _ _ "" Hb).
    reflexivity. }
  rewrite Hsplit. cbn [append list_at nth_error bind].
  change (-1) with (- PyStr.len (String x "")) at 1.
  rewrite slice_drop_suffix by reflexivity.
  change (-1) with (- PyStr.len (String y "")).
  rewrite slice_drop_suffix by reflexivity.
  reflexivity.
Qed.

Lemma decode_row_custom_names_witness :
  decode_row Inputs.wkt_loads Examples.custom
             "SELECT ST_AsText(geom), osm_id, version FROM nodes"
             [Inputs.polygon_wkt; VInt 7; VInt 2]
  = Returned (mkFeature Inputs.polygon
                [("id", VInt 7); ("version", VInt 2); ("osm_id", VInt 7);
                 ("versio", VInt 2)])
  /\ decode_row Inputs.wkt_loads Examples.custom
                "SELECT geom, osm_id AS osm, tags FROM nodes WHERE tags ? 'FROM'"
                [Inputs.polygon_wkt; VInt 7; VInt 2]
     = Returned (mkFeature Inputs.polygon
                   [("id", VInt 7); ("version", VInt 2); ("osm_i", VInt 7);
                    ("A", VInt 2)]).
Proof.
  split.
  - apply (decode_row_custom_names Inputs.wkt_loads Examples.custom
             "SELECT" "ST_AsText(geom)," "osm_id" "versio" "FROM nodes"
             "," "n" Inputs.polygon_wkt (VInt 7) (VInt 2) Inputs.polygon []);
      try reflexivity.
  - apply (decode_row_custom_names Inputs.wkt_loads Examples.custom
             "SELECT" "geom," "osm_i" "A"
             "osm, tags FROM nodes WHERE tags ? 'FROM'"
             "d" "S" Inputs.polygon_wkt (VInt 7) (VInt 2) Inputs.polygon []);
      try reflexivity.
Defined.

(** ** The polling loop and what follows it *)

Lemma pending_state_polls (k : nat) : polls (pending_state k) = k.
Proof.
  induction k as [|k IH]; [reflexivity|].
  change (pending_state (S k)) with (after_pending (pending_state k)).
  unfold after_pending. cbn [polls]. now rewrite IH.
Qed.

Lemma poll_step_pending (session : Session) (url : string) (k : nat) :
  (exists r b,
     get session url k = Returned r
     /\ json r = Returned (VDict b)
     /\ Py.get b "status" = Some (VStr "PENDING")) ->
  poll_step session url (pending_state k)
  = Returned (inl (pending_state (S k))).
Proof.
  intros (r & b & Hg & Hj & Hs). unfold poll_step.
  rewrite pending_state_polls, Hg. cbn [bind]. rewrite Hj.
  cbn [bind Py.dict_get]. rewrite Hs.
  change (Py.eq_str (VStr "PENDING") "PENDING") with true. cbv iota.
  change (pending_state (S k)) with (after_pending (pending_state k)).
  unfold after_pending. now rewrite pending_state_polls.
Qed.

Lemma poll_step_success (session : Session) (url : string) (k : nat)
  (body : dict pyval) :
  (exists r,
     get session url k = Returned r
     /\ json r = Returned (VDict body)
     /\ Py.get body "status" = Some (VStr "SUCCESS")) ->
  poll_step session url (pending_state k) = Returned (inr (VDict body)).
Proof.
  intros (r & Hg & Hj & Hs). unfold poll_step.
  rewrite pending_state_polls, Hg. cbn [bind]. rewrite Hj.
  cbn [bind Py.dict_get]. rewrite Hs. reflexivity.
Qed.

Lemma poll_loop_success (session : Session) (url : string) (n : nat)
  (body : dict pyval) :
  (n < 85)%nat -> succeeds_after session url n body ->
  poll_loop (S n) session url initial_poll_state
  = Some (Returned (pending_state n, Break (VDict body))).
Proof.
  intros Hn (Hpending & Hsuccess).
  assert (G : forall m k, (k + m = n)%nat ->
            poll_loop (S m) session url (pending_state k)
            = Some (Returned (pending_state n, Break (VDict body)))).
  { induction m as [|m IH]; intros k Hk.
    - assert (k = n) by lia. subst k. cbn [poll_loop].
      pose proof (pending_states_in_budget n Hn) as Hlt.
      apply Z.ltb_lt in Hlt. rewrite Hlt.
      now rewrite (poll_step_success _ _ _ _ Hsuccess).
    - change (poll_loop (S (S m)) session url (pending_state k))
        with (if elapsed_time (pending_state k) <? max_polling_duration
              then match poll_step session url (pending_state k) with
                   | Raised e => Some (Raised e)
                   | Returned (inr result_json) =>
                       Some (Returned (pending_state k, Break result_json))
                   | Returned (inl st') => poll_loop (S m) session url st'
                   end
              else Some (Returned (pending_state k, Exhausted))).
      pose proof (pending_states_in_budget k ltac:(lia)) as Hlt.
      apply Z.ltb_lt in Hlt. rewrite Hlt.
      rewrite (poll_step_pending _ _ _ (Hpending k ltac:(lia))).
      apply IH. lia. }
  exact (G n 0%nat eq_refl).
Qed.

(** X15.  When the task is accepted and its status is PENDING for the
    first n requests and SUCCESS at the next one, with n below 85,
    queryRemote downloads the archive named by result.download_url and
    returns what the archive holds; the loop has slept n times before. *)
Theorem queryRemote_downloads_on_success (fuel : nat) (session : Session)
  (self_url query : string) (task_id : pyval) (n : nat)
  (body result : dict pyval) (zip_url : pyval) :
  (n < 85)%nat -> (n < fuel)%nat ->
  accepts_task session self_url query task_id ->
  succeeds_after session (self_url ++ "/tasks/status/" ++ Py.str task_id)
                 n body ->
  Py.get body "result" = Some (VDict result) ->
  Py.get result "download_url" = Some zip_url ->
  queryRemote fuel session self_url query
  = Some (fetch_export session zip_url)
  /\ poll_loop fuel session (self_url ++ "/tasks/status/" ++ Py.str task_id)
               initial_poll_state
     = Some (Returned (pending_state n, Break (VDict body)))
  /\ List.length (slept (pending_state n)) = n.
Proof.
  intros Hn Hfuel Ha Hs Hr Hu.
  assert (E : poll_loop fuel session
                (self_url ++ "/tasks/status/" ++ Py.str task_id)
                initial_poll_state
              = Some (Returned (pending_state n, Break (VDict body)))).
  { replace fuel with (S n + (fuel - S n))%nat by lia.
    apply poll_loop_more_fuel. now apply poll_loop_success. }
  split; [|split; [exact E|]].
  - rewrite (queryRemote_accepted _ _ _ _ _ Ha), E.
    unfold Py.subscript, Py.getitem. rewrite Hr. cbn [bind]. now rewrite Hu.
  - clear. induction n as [|n IH]; [reflexivity|].
    change (pending_state (S n)) with (after_pending (pending_state n)).
    unfold after_pending. cbn [slept]. rewrite List.length_app, IH.
    simpl. lia.
Qed.

Lemma queryRemote_downloads_on_success_witness :
  queryRemote 3 Examples.finishing "https://api" "{}"
  = Some (Returned (VDict [("type", VStr "FeatureCollection");
                           ("features", VList [])]))
  /\ poll_loop 3 Examples.finishing
               ("https://api" ++ "/tasks/status/" ++ Py.str (VStr "t1"))
               initial_poll_state
     = Some (Returned (pending_state 2, Break (VDict Examples.done_body)))
  /\ List.length (slept (pending_state 2)) = 2%nat.
Proof.
  apply (queryRemote_downloads_on_success 3 Examples.finishing "https://api"
           "{}" (VStr "t1") 2 Examples.done_body
           [("download_url", VStr "https://s3/Export.zip")]
           (VStr "https://s3/Export.zip")).
  - lia.
  - lia.
  - exists Inputs.accepted, [("task_id", VStr "t1")]. repeat split; reflexivity.
  - split.
    + intros k Hk. exists (Inputs.status_response "PENDING"),
                          [("status", VStr "PENDING")].
      destruct k as [|[|k]]; [| |lia]; repeat split; reflexivity.
    + eexists. repeat split; reflexivity.
  - reflexivity.
  - reflexivity.
Defined.

(** X16.  A first answer whose status is neither 200 nor an HTTP error
    (201, 202, a redirect) is not taken as accepted: queryRemote looks for
    detail[0].msg in its body and returns null when it is there, and raises
    TypeError when the body is an object without "detail", such as the
    answer that carries the task id. *)
Theorem queryRemote_other_status (fuel : nat) (session : Session)
  (self_url query : string) (r : Response) (body : dict pyval) :
  post session (self_url ++ "/snapshot/") query = Returned r ->
  status_code r <> 200 ->
  ~ (400 <= status_code r < 600) ->
  json r = Returned (VDict body) ->
  (Py.get body "detail" = None ->
   queryRemote fuel session self_url query = Some (Raised TypeError))
  /\ (forall first rest,
        Py.get body "detail" = Some (VList (VDict first :: rest)) ->
        queryRemote fuel session self_url query = Some (Returned VNone)).
Proof.
  intros Hp Hc Herr Hj. unfold queryRemote. rewrite Hp.
  unfold raise_for_status.
  replace ((400 <=? status_code r) && (status_code r <? 600)) with false.
  2:{ symmetry. apply andb_false_iff.
      destruct (Z.leb_spec 400 (status_code r)); [right | now left].
      apply Z.ltb_ge. lia. }
  apply Z.eqb_neq in Hc. rewrite Hc. cbn [negb]. rewrite Hj.
  cbn [bind Py.dict_get]. split.
  - now intros ->.
  - now intros first rest ->.
Qed.

Lemma queryRemote_other_status_witness :
  queryRemote 0 (Inputs.answering (Returned Examples.accepted_202))
              "https://api" "{}"
  = Some (Raised TypeError)
  /\ queryRemote 0 (Inputs.answering (Returned Examples.redirected))
                 "https://api" "{}"
     = Some (Returned VNone).
Proof.
  split.
  - apply (proj1 (queryRemote_other_status 0
                    (Inputs.answering (Returned Examples.accepted_202))
                    "https://api" "{}" Examples.accepted_202
                    [("task_id", VStr "t1")]
                    eq_refl ltac:(discriminate) ltac:(simpl; lia) eq_refl)).
    reflexivity.
  - apply (proj2 (queryRemote_other_status 0
                    (Inputs.answering (Returned Examples.redirected))
                    "https://api" "{}" Examples.redirected
                    [("detail", VList [VDict [("msg", VStr "moved")]])]
                    eq_refl ltac:(discriminate) ltac:(simpl; lia) eq_refl)
             [("msg", VStr "moved")] []).
    reflexivity.
Defined.

Lemma pending_states_schedule (k : nat) :
  (k <= 85)%nat ->
  slept (pending_state k)
  = (repeat 2 (Nat.min k 31) ++ repeat 10 (k - 31))%list
  /\ elapsed_time (pending_state k) <= 602.
Proof.
  intros Hk.
  assert (H : forallb
                (fun k =>
                   (if list_eq_dec Z.eq_dec (slept (pending_state k))
                         (repeat 2 (Nat.min k 31) ++ repeat 10 (k - 31))%list
                    then true else false)
                   && (elapsed_time (pending_state k) <=? 602))
                (seq 0 86) = true)
    by (vm_compute; reflexivity).
  rewrite forallb_forall in H.
  specialize (H k ltac:(apply in_seq; lia)).
  apply andb_true_iff in H as [H1 H2]. split.
  - now destruct (list_eq_dec Z.eq_dec _ _).
  - now apply Z.leb_le.
Qed.

(** X17.  When every status answer is PENDING or SUCCESS the polling loop
    is over within 85 passes.  It leaves after some number k of PENDING
    answers, at most 85, having slept 2 seconds after each of the first 31
    and 10 seconds after each later one, 602 seconds at most in all; it
    gives up exactly when k is 85, and leaves on SUCCESS before that. *)
Theorem polling_is_bounded (session : Session) (url : string) :
  answers_pending_or_success session url ->
  exists k exit,
    (k <= 85)%nat
    /\ poll_loop 85 session url initial_poll_state
       = Some (Returned (pending_state k, exit))
    /\ slept (pending_state k)
       = (repeat 2 (Nat.min k 31) ++ repeat 10 (k - 31))%list
    /\ elapsed_time (pending_state k) <= 602
    /\ (exit = Exhausted <-> k = 85%nat).
Proof.
  intros H.
  assert (G : forall m, (m <= 85)%nat ->
            exists k exit,
              (85 - m <= k <= 85)%nat
              /\ poll_loop m session url (pending_state (85 - m))
                 = Some (Returned (pending_state k, exit))
              /\ (exit = Exhausted <-> k = 85%nat)).
  { induction m as [|m IH]; intros Hm.
    - exists 85%nat, Exhausted. split; [lia|]. split; [|tauto].
      cbn [poll_loop].
      replace (elapsed_time (pending_state (85 - 0)) <? max_polling_duration)
        with false by (vm_compute; reflexivity).
      reflexivity.
    - cbn [poll_loop].
      pose proof (pending_states_in_budget (85 - S m) ltac:(lia)) as Hlt.
      apply Z.ltb_lt in Hlt as Hb. rewrite Hb.
      destruct (H (85 - S m)%nat) as (r & body & Hg & Hj & [Hs | Hs]).
      + rewrite (poll_step_pending session url (85 - S m)) by eauto.
        replace (S (85 - S m)) with (85 - m)%nat by lia.
        destruct (IH ltac:(lia)) as (k & exit & Hk & E & Hx).
        exists k, exit. split; [lia|]. split; assumption.
      + rewrite (poll_step_success session url (85 - S m) body) by eauto.
        exists (85 - S m)%nat, (Break (VDict body)).
        split; [lia|]. split; [reflexivity|].
        split; [discriminate | lia]. }
  destruct (G 85%nat (le_n 85)) as (k & exit & Hk & E & Hx).
  destruct (pending_states_schedule k ltac:(lia)) as (Hs & He).
  exists k, exit. repeat split; try assumption; try lia; apply Hx; assumption.
Qed.

Lemma polling_is_bounded_witness :
  exists k exit,
    (k <= 85)%nat
    /\ poll_loop 85 Examples.finishing "https://api/tasks/status/t1"
                 initial_poll_state
       = Some (Returned (pending_state k, exit))
    /\ slept (pending_state k)
       = (repeat 2 (Nat.min k 31) ++ repeat 10 (k - 31))%list
    /\ elapsed_time (pending_state k) <= 602
    /\ (exit = Exhausted <-> k = 85%nat).
Proof.
  apply (polling_is_bounded Examples.finishing "https://api/tasks/status/t1").
  intros n. destruct (n <? 2)%nat eqn:E.
  - exists (Inputs.status_response "PENDING"), [("status", VStr "PENDING")].
    split; [unfold Examples.finishing; cbn [get]; now rewrite E|].
    split; [reflexivity | now left].
  - exists (mkResponse 200 (Returned (VDict Examples.done_body))),
           Examples.done_body.
    split; [unfold Examples.finishing; cbn [get]; now rewrite E|].
    split; [reflexivity | now right].
Defined.

(** ** execQuery *)

Lemma queryLocal_without_filters (loads : pyval -> outcome Geometry)
  (dbcursor : Cursor) (config : QueryConfig) (query : string)
  (allgeom : bool) (boundary : option string) (rows : list row) :
  Py.getitem (config_where config) "ways_poly" = Returned [] ->
  Py.getitem (config_where config) "nodes" = Returned [] ->
  Forall (fun statement => execute dbcursor statement = Returned tt)
         (sent query boundary) ->
  fetchall dbcursor (final_query query boundary) = Returned rows ->
  queryLocal loads dbcursor config query allgeom boundary
  = Returned (Rows rows).
Proof.
  intros Hp Hn Hx Hf. rewrite (queryLocal_sent _ _ _ _ _ _ Hx).
  unfold queryLocal, final_query in *.
  destruct boundary as [wkt|]; cbn [execute fetchall bind]; rewrite Hf, Hp;
    cbn [bind List.length Z.of_nat Z.eqb]; rewrite Hn; reflexivity.
Qed.

(** X18.  With a connection, no custom statement, no where entry on
    ways_poly and none on nodes, execQuery raises TypeError as soon as the
    first compiled statement, executed by the cursor together with the view
    definitions queryLocal sends before it, fetches a row: queryLocal hands
    back the raw rows and execQuery asks them for their "features". *)
Theorem execQuery_raw_rows (fuel : nat) (host : Host) (self : PostgresClient)
  (boundary poly : pyval) (wkt : option string) (allgeom : bool)
  (shell : Connection) (c : Cursor) (query : string) (more : list string)
  (item : row) (rows : list row) :
  boundary_polygon boundary = Returned poly ->
  shape host poly = Returned wkt ->
  dbshell (access self) = Some shell ->
  dbcursor (access self) = Some c ->
  createSQL (qc self) allgeom = Returned (query :: more) ->
  Py.getitem (config_where (qc self)) "ways_poly" = Returned [] ->
  Py.getitem (config_where (qc self)) "nodes" = Returned [] ->
  Forall (fun statement => execute c statement = Returned tt)
         (sent query wkt) ->
  fetchall c (final_query query wkt) = Returned (item :: rows) ->
  execQuery fuel host self boundary None allgeom = Some (Raised TypeError).
Proof.
  intros Hb Hs Hshell Hc Hsql Hp Hn Hx Hf.
  unfold execQuery. rewrite Hb. cbn [bind]. rewrite Hs. cbn [bind].
  rewrite Hshell. unfold statements. rewrite Hsql. cbn [bind foldM].
  unfold execQuery_statement at 1, queryLocal_method. rewrite Hc.
  rewrite (queryLocal_without_filters (wkt_loads host) c (qc self) query
             allgeom wkt (item :: rows) Hp Hn Hx Hf).
  cbn [bind result_len List.length].
  replace (Z.of_nat (S (List.length rows)) >? 0) with true
    by (symmetry; rewrite Z.gtb_ltb; apply Z.ltb_lt; lia).
  reflexivity.
Qed.

Lemma execQuery_raw_rows_witness :
  execQuery 0 (Examples.serving [Examples.one_row])
            (Examples.querying Examples.lines [Examples.one_row])
            Examples.area None true
  = Some (Raised TypeError).
Proof.
  apply (execQuery_raw_rows 0 (Examples.serving [Examples.one_row])
           (Examples.querying Examples.lines [Examples.one_row])
           Examples.area Examples.triangle
           (Some "POLYGON ((0 0, 1 0, 1 1, 0 0))") true
           (mkConnection (Returned (Inputs.select_cursor [Examples.one_row])))
           (Inputs.select_cursor [Examples.one_row])
           "SELECT ST_AsText(geom), osm_id, version FROM ways_line WHERE tags->>'highway' ='path'"
           [] Examples.one_row []); try reflexivity.
  repeat constructor.
Defined.

(** With a connection and a cursor, execQuery adds up the features of its
    statements. *)
Lemma execQuery_loop (host : Host) (self : PostgresClient) (allgeom : bool)
  (wkt : option string) (c : Cursor) (found : string -> list Feature)
  (sql : list string) :
  dbcursor (access self) = Some c ->
  (forall query, In query sql ->
     queryLocal (wkt_loads host) c (qc self) query allgeom wkt
     = Returned (FeatureCollection (found query))) ->
  forall alldata,
    foldM (execQuery_statement host self allgeom wkt) sql alldata
    = Returned (alldata ++ flat_map found sql)%list.
Proof.
  intros Hc. induction sql as [|q sql IH]; intros H alldata; cbn [foldM flat_map].
  - now rewrite List.app_nil_r.
  - unfold execQuery_statement at 1, queryLocal_method. rewrite Hc.
    rewrite (H q (or_introl eq_refl)). cbn [bind result_len result_features].
    change (2 >? 0) with true. cbv iota. cbn [bind].
    rewrite IH by (intros q' Hq'; apply H; now right).
    now rewrite <- List.app_assoc.
Qed.

(** X19.  With a connection and a cursor, when every statement is answered
    by a FeatureCollection, execQuery returns one collection holding the
    features of all the statements, in the order of the statements; the
    statements are the compiled ones, or the custom text alone when one is
    given, which is then run as it is even if the configuration would not
    compile. *)
Theorem execQuery_collects (fuel : nat) (host : Host) (self : PostgresClient)
  (boundary poly : pyval) (wkt : option string) (customsql : option string)
  (allgeom : bool) (shell : Connection) (c : Cursor) (sql : list string)
  (found : string -> list Feature) :
  boundary_polygon boundary = Returned poly ->
  shape host poly = Returned wkt ->
  dbshell (access self) = Some shell ->
  dbcursor (access self) = Some c ->
  statements (qc self) customsql allgeom = Returned sql ->
  (forall query, In query sql ->
     queryLocal (wkt_loads host) c (qc self) query allgeom wkt
     = Returned (FeatureCollection (found query))) ->
  execQuery fuel host self boundary customsql allgeom
  = Some (Returned (Local (flat_map found sql)))
  /\ (forall text, customsql = Some text -> text <> "" -> sql = [text]).
Proof.
  intros Hb Hs Hshell Hc Hsql Hq. split.
  - unfold execQuery. rewrite Hb. cbn [bind]. rewrite Hs. cbn [bind].
    rewrite Hshell, Hsql. cbn [bind].
    now rewrite (execQuery_loop host self allgeom wkt c found sql Hc Hq).
  - intros text -> Hne. unfold statements in Hsql.
    destruct text; [contradiction|]. now injection Hsql as <-.
Qed.

Lemma execQuery_collects_witness :
  execQuery 0 (Examples.serving [Examples.one_row])
            (Examples.connected Inputs.buildings [Examples.one_row])
            Examples.area (Some Examples.buildings_sql) true
  = Some (Returned (Local (flat_map (fun _ => [Examples.one_feature])
                                    [Examples.buildings_sql])))
  /\ (forall text, Some Examples.buildings_sql = Some text -> text <> "" ->
      [Examples.buildings_sql] = [text]).
Proof.
  apply (execQuery_collects 0 (Examples.serving [Examples.one_row])
           (Examples.connected Inputs.buildings [Examples.one_row])
           Examples.area Examples.triangle
           (Some "POLYGON ((0 0, 1 0, 1 1, 0 0))")
           (Some Examples.buildings_sql) true
           (mkConnection (Returned (Inputs.cursor_with [Examples.one_row])))
           (Inputs.cursor_with [Examples.one_row])
           [Examples.buildings_sql] (fun _ => [Examples.one_feature]));
    reflexivity.
Defined.

(** X20.  When the driver refuses the connection for a bare database name
    other than the reserved one, the constructor still returns a client,
    and execQuery on that client takes the remote branch, compiles the JSON
    document and then raises AttributeError: the address and the session of
    the remote API were never set. *)
Theorem execQuery_after_refused_connection (fuel : nat) (host : Host)
  (name : string) (config : QueryConfig) (boundary poly : pyval)
  (wkt : option string) (customsql : option string) (allgeom : bool)
  (e : exn) (json_config : string) :
  plain name = true -> name <> "underpass" ->
  psycopg2_connect host ("dbname=" ++ name) = Raised e ->
  boundary_polygon boundary = Returned poly ->
  shape host poly = Returned wkt ->
  createJson config poly allgeom = Returned json_config ->
  exists self,
    PostgresClient_init host name config = Returned self
    /\ execQuery fuel host self boundary customsql allgeom
       = Some (Raised AttributeError).
Proof.
  intros Hp Hn He Hb Hs Hj.
  exists (mkClient (mkDatabaseAccess None None (uriParser name) None) config).
  split.
  - unfold PostgresClient_init. rewrite (init_opens_bare_name host name Hp Hn).
    unfold open_connection. now rewrite He.
  - unfold execQuery. rewrite Hb. cbn [bind]. rewrite Hs.
    cbn [bind access dbshell qc]. now rewrite Hj.
Qed.

Lemma execQuery_after_refused_connection_witness :
  exists self,
    PostgresClient_init Examples.unreachable "osm" Inputs.buildings
    = Returned self
    /\ execQuery 0 Examples.unreachable self Examples.area None true
       = Some (Raised AttributeError).
Proof.
  apply (execQuery_after_refused_connection 0 Examples.unreachable "osm"
           Inputs.buildings Examples.area Examples.triangle
           (Some "POLYGON ((0 0, 1 0, 1 1, 0 0))") None true DatabaseError
           (Json.dumps
              (VDict [("geometry", Examples.triangle);
                      ("geometryType", VList [VStr "polygon"]);
                      ("filters",
                       filters_value
                         [("point", [("join_or", []); ("join_and", [])]);
                          ("polygon",
                           [("join_or", [("building", VList [VStr "yes"])]);
                            ("join_and", [("building", VList [VStr "yes"])])]);
                          ("line", [("join_or", []); ("join_and", [])])])])));
    try reflexivity.
  discriminate.
Defined.

(** X21.  For every connection string whose database is the reserved name,
    the constructor opens no database connection, and execQuery sends the
    JSON document compiled from the configuration and the boundary polygon
    to the remote API at UNDERPASS_API_URL, or at the default address when
    the variable is not set; a custom SQL text is not used. *)
Theorem execQuery_reserved_name (fuel : nat) (host : Host) (source : string)
  (config : QueryConfig) (boundary poly : pyval) (wkt : option string)
  (customsql : option string) (allgeom : bool) (json_config : string) :
  dbname (uriParser source) = Some "underpass" ->
  boundary_polygon boundary = Returned poly ->
  shape host poly = Returned wkt ->
  createJson config poly allgeom = Returned json_config ->
  exists self,
    PostgresClient_init host source config = Returned self
    /\ dbshell (access self) = None
    /\ execQuery fuel host self boundary customsql allgeom
       = match queryRemote fuel (requests_Session host)
                 (match UNDERPASS_API_URL host with
                  | Some u => u
                  | None => default_api_url
                  end) json_config with
         | None => None
         | Some (Raised e) => Some (Raised e)
         | Some (Returned answer) => Some (Returned (FromRemote answer))
         end.
Proof.
  intros Hd Hb Hs Hj.
  unfold PostgresClient_init, DatabaseAccess_init. rewrite Hd.
  cbn [String.eqb Ascii.eqb Bool.eqb bind].
  eexists. split; [reflexivity|]. split; [reflexivity|].
  unfold execQuery. rewrite Hb. cbn [bind]. rewrite Hs.
  cbn [bind access dbshell qc]. rewrite Hj. reflexivity.
Qed.

Lemma execQuery_reserved_name_witness :
  exists self,
    PostgresClient_init Examples.unreachable "user@host/underpass"
                        Inputs.buildings
    = Returned self
    /\ dbshell (access self) = None
    /\ execQuery 85 Examples.unreachable self Examples.area
                 (Some "SELECT 1") true
       = Some (Returned (FromRemote VNone)).
Proof.
  apply (execQuery_reserved_name 85 Examples.unreachable "user@host/underpass"
           Inputs.buildings Examples.area Examples.triangle
           (Some "POLYGON ((0 0, 1 0, 1 1, 0 0))") (Some "SELECT 1") true
           (Json.dumps
              (VDict [("geometry", Examples.triangle);
                      ("geometryType", VList [VStr "polygon"]);
                      ("filters",
                       filters_value
                         [("point", [("join_or", []); ("join_and", [])]);
                          ("polygon",
                           [("join_or", [("building", VList [VStr "yes"])]);
                            ("join_and", [("building", VList [VStr "yes"])])]);
                          ("line", [("join_or", []); ("join_and", [])])])])));
    reflexivity.
Defined.

(** ** The boundary and a statement without conditions *)

Lemma absent_nil (q : string) : absent (String " " q) "".
Proof. intros i. reflexivity. Qed.

Lemma absent_skip (q : string) (x : ascii) (s : string) :
  x <> " "%char -> absent (String " " q) s ->
  absent (String " " q) (String x s).
Proof.
  intros Hx Hs i. cbn [PyStr.find_from prefix].
  destruct (ascii_dec " " x) as [E|_]; [now elim Hx | apply Hs].
Qed.

Lemma absent_blank (q s : string) :
  prefix q s = false -> absent (String " " q) s ->
  absent (String " " q) (String " " s).
Proof.
  intros Hp Hs i. cbn [PyStr.find_from prefix].
  destruct (ascii_dec " " " ") as [_|E]; [|now elim E].
  rewrite Hp. apply Hs.
Qed.

Lemma absent_through (q k s : string) :
  lacks " " k = true -> absent (String " " q) s ->
  absent (String " " q) (k ++ s).
Proof.
  induction k as [|x k IH]; intros Hk Hs; [exact Hs|].
  cbn [lacks] in Hk. apply andb_true_iff in Hk as [Hx Hk].
  cbn [append]. apply absent_skip; [|now apply IH].
  intros ->. discriminate.
Qed.

Lemma prefix_miss (y x : ascii) (w s : string) :
  y <> x -> prefix (String y w) (String x s) = false.
Proof. intros H. cbn [prefix]. now destruct (ascii_dec y x). Qed.

Lemma prefix_lacks (c : ascii) (q : string) :
  forall t, prefix q t = true -> lacks c t = true -> lacks c q = true.
Proof.
  induction q as [|y q IH]; intros t Hp Ht; [reflexivity|].
  destruct t as [|x t]; [discriminate|]. cbn [prefix] in Hp.
  destruct (ascii_dec y x) as [<- | _]; [|discriminate].
  cbn [lacks] in *. apply andb_true_iff in Ht as [Hy Ht].
  rewrite Hy. cbn [andb]. now apply (IH t).
Qed.

(** A word followed by a blank does not start a text without blanks. *)
Lemma absent_table (q table : string) :
  lacks " " q = false -> lacks " " table = true ->
  absent (String " " q) (String " " table).
Proof.
  intros Hq Ht. apply absent_blank.
  - destruct (prefix q table) eqn:E; [|reflexivity].
    rewrite (prefix_lacks " " q table E Ht) in Hq. discriminate.
  - rewrite <- (app_nil_r table). apply absent_through; [exact Ht|].
    apply absent_nil.
Qed.

(** Walks over the literal characters of a text. *)
Ltac walk :=
  repeat first
    [ apply absent_skip; [discriminate|]
    | apply absent_blank; [apply prefix_miss; assumption|] ].

Lemma absent_projection (y : ascii) (w : string) (keys : list string)
  (s : string) :
  y <> "t"%char ->
  Forall (fun k => lacks " " k = true) keys ->
  absent (String " " (String y w)) s ->
  absent (String " " (String y w)) (projection keys ++ s).
Proof.
  intros Hy Hk Hs. induction Hk as [|k keys Hk _ IH]; [exact Hs|].
  unfold projection in *. cbn [map]. rewrite concat_cons, !app_assoc.
  cbn [append]. walk.
  apply absent_through; [exact Hk|]. cbn [append]. walk. exact IH.
Qed.

Lemma absent_plain_statement (y : ascii) (w : string) (allgeom : bool)
  (keys : list string) (table : string) :
  y <> "S"%char -> y <> "o"%char -> y <> "v"%char -> y <> "t"%char ->
  y <> "F"%char ->
  lacks " " (String y w) = false ->
  Forall (fun k => lacks " " k = true) keys -> lacks " " table = true ->
  absent (String " " (String y w)) (plain_statement allgeom keys table).
Proof.
  intros HS Ho Hv Ht HF Hw Hk Htable. unfold plain_statement, geometry_column.
  destruct allgeom; rewrite !app_assoc; cbn [append]; walk;
    (apply absent_projection; [assumption | assumption |]);
    cbn [append]; walk; now apply absent_table.
Qed.

(** X22.  The statement createSQL compiles for a table without where
    entries ends with the name of the table, so queryLocal, which looks for
    the name between two blanks, does not redirect it to the view of the
    boundary: with a boundary as without, the text sent to the database is
    the statement on the whole table.  This holds for table names and
    attribute keys without blanks. *)
Theorem statement_without_conditions_is_not_scoped (config : QueryConfig)
  (allgeom : bool) (table : string) (attrs : list (string * pyval))
  (boundary : option string) :
  Py.getitem (config_select config) table
  = Returned (map select_entry_of attrs) ->
  Py.getitem (config_where config) table = Returned [] ->
  Forall (fun k => lacks " " k = true) (map fst attrs) ->
  lacks " " table = true ->
  createSQL_table config allgeom table
  = Returned (plain_statement allgeom (map fst attrs) table)
  /\ final_query (plain_statement allgeom (map fst attrs) table) boundary
     = plain_statement allgeom (map fst attrs) table.
Proof.
  intros Hsel Hwhere Hk Ht. split.
  - pose proof (select_clause_projection config allgeom table attrs Hsel) as Hp.
    rewrite (createSQL_table_loose config allgeom table _ [] Hp Hwhere
               (Forall_nil _)).
    cbn [filter]. rewrite no_clause_statement, cut_WHERE.
    unfold plain_statement. now rewrite !app_assoc.
  - destruct boundary as [wkt|]; [|reflexivity].
    unfold final_query, scoped_query, PyStr.find.
    rewrite !absent_plain_statement; try assumption; try discriminate;
      reflexivity.
Qed.

Lemma statement_without_conditions_is_not_scoped_witness :
  createSQL_table Examples.lines true "nodes"
  = Returned (plain_statement true [] "nodes")
  /\ final_query (plain_statement true [] "nodes")
                 (Some "POLYGON((0 0,1 0,1 1,0 0))")
     = plain_statement true [] "nodes".
Proof.
  apply (statement_without_conditions_is_not_scoped Examples.lines true
           "nodes" [] (Some "POLYGON((0 0,1 0,1 1,0 0))"));
    try reflexivity.
  constructor.
Defined.
